(** * ImportDecl: importing Clang declarations into Swift

    A shallow embedding of [lib/ClangImporter/ImportDecl.cpp].

    The Clang AST is read-only input: a table of declarations indexed by
    [ClangDeclId].  The Swift AST under construction is an arena of [Decl]
    records; a [DeclId] is a position in the arena and plays the role of the
    C++ [Decl *] (two declarations are the same object iff their ids are
    equal).  The importer itself is a state transformer over the arena and the
    memo tables of [ClangImporter::Implementation].  Source locations are not
    modelled. *)

From Stdlib Require Import ZArith Ascii String Lia.
From stdpp Require Import base option list strings gmap pretty.

#[local] Set Warnings "-register-all".

(** ** Identifiers, selectors *)

(** A Swift [Identifier]; the empty identifier is the empty string. *)
Definition Identifier := string.

Definition Identifier_empty (i : Identifier) : bool := String.eqb i "".

Abbreviation ClangDeclId := nat.
Abbreviation DeclId := nat.
Abbreviation ModuleId := nat.

(** An Objective-C selector: its number of arguments and its slots (a slot
    can hold a null identifier). *)
Record Selector := mkSelector {
  sel_numArgs : nat;
  sel_slots : list (option string)
}.

Global Instance Selector_eq_dec : EqDecision Selector.
Proof. solve_decision. Defined.

Definition getIdentifierInfoForSlot (s : Selector) (n : nat) : option string :=
  match sel_slots s !! n with
  | Some (Some i) => Some i
  | _ => None
  end.

Definition getNullarySelector (i : string) : Selector := mkSelector 0 [Some i].

(** The four subscripting selectors cached in [Implementation]. *)
Definition objectAtIndexedSubscript : Selector :=
  mkSelector 1 [Some "objectAtIndexedSubscript"%string].
Definition setObjectAtIndexedSubscript : Selector :=
  mkSelector 2 [Some "setObject"%string; Some "atIndexedSubscript"%string].
Definition objectForKeyedSubscript : Selector :=
  mkSelector 1 [Some "objectForKeyedSubscript"%string].
Definition setObjectForKeyedSubscript : Selector :=
  mkSelector 2 [Some "setObject"%string; Some "forKeyedSubscript"%string].

(** ** The Clang side *)

(** Clang types, as far as the importer looks into them: builtin types, the
    type of an enumeration ([getTagDeclType] of an [EnumDecl]), and all the
    others, which the importer only hands to the type importer. *)
Inductive ClangType :=
| CT_Builtin (b : nat)
| CT_Enum (d : ClangDeclId)
| CT_Other (n : nat).

Definition getTagDeclType (clangEnum : ClangDeclId) : ClangType :=
  CT_Enum clangEnum.

Inductive ObjCMethodFamily :=
| OMF_None | OMF_alloc | OMF_copy | OMF_init | OMF_mutableCopy | OMF_new
| OMF_autorelease | OMF_dealloc | OMF_finalize | OMF_release | OMF_retain
| OMF_retainCount | OMF_self | OMF_performSelector.

Global Instance ObjCMethodFamily_eq_dec : EqDecision ObjCMethodFamily.
Proof. solve_decision. Defined.

(** A declaration context of Clang: the translation unit or a declaration. *)
Inductive ClangDC :=
| DC_TranslationUnit
| DC_Decl (d : ClangDeclId).

Record ClangParam := mkClangParam {
  param_name : option string;
  param_type : ClangType
}.

(** Declaration kinds the visitor never imports, whatever their contents. *)
Inductive DeclinedKind :=
| K_TranslationUnit | K_Namespace | K_UsingDirective | K_NamespaceAlias
| K_Label | K_UnresolvedUsingTypename | K_ClassTemplateSpecialization
| K_ClassTemplatePartialSpecialization | K_TemplateTypeParm
| K_UnresolvedUsingValue | K_CXXMethod | K_ObjCAtDefsField | K_ImplicitParam
| K_ParmVar | K_NonTypeTemplateParm | K_Template | K_Using | K_UsingShadow
| K_ObjCImpl | K_ObjCCompatibleAlias | K_LinkageSpec | K_ObjCPropertyImpl
| K_FileScopeAsm | K_AccessSpec | K_Friend | K_FriendTemplate
| K_StaticAssert | K_Block | K_ClassScopeFunctionSpecialization | K_Import.

Record ClangEnum := mkClangEnum {
  enum_definition : option ClangDeclId;
  enum_typedefNameForAnonDecl : option ClangDeclId;
  enum_integerType : ClangType;
  enum_enumerators : list ClangDeclId
}.

Record ClangRecord := mkClangRecord {
  rec_isUnion : bool;
  rec_isInterface : bool;
  rec_isAnonymousStructOrUnion : bool;
  rec_definition : option ClangDeclId;
  rec_typedefNameForAnonDecl : option ClangDeclId;
  rec_decls : list ClangDeclId
}.

Record ClangFunction := mkClangFunction {
  fn_mostRecentDecl : ClangDeclId;
  fn_hasPrototype : bool;
  fn_isInlined : bool;
  fn_resultType : ClangType;
  fn_params : list ClangParam;
  fn_isVariadic : bool
}.

Record ClangField := mkClangField {
  field_type : ClangType;
  field_isAnonymousStructOrUnion : bool
}.

Record ClangObjCMethod := mkClangObjCMethod {
  meth_selector : Selector;
  meth_isInstanceMethod : bool;
  meth_family : ObjCMethodFamily;
  meth_resultType : ClangType;
  meth_params : list ClangParam;
  meth_isVariadic : bool;
  meth_classInterface : option ClangDeclId;
  meth_propertyDecl : option ClangDeclId  (* findPropertyDecl() *)
}.

Record ClangObjCContainer := mkClangObjCContainer {
  objc_definition : option ClangDeclId;      (* interfaces and protocols *)
  objc_classInterface : option ClangDeclId;  (* categories *)
  objc_superClass : option ClangDeclId;      (* interfaces *)
  objc_referencedProtocols : list ClangDeclId;
  objc_decls : list ClangDeclId;
  objc_visibleCategories : list ClangDeclId  (* interfaces *)
}.

Record ClangObjCProperty := mkClangObjCProperty {
  prop_type : ClangType;
  prop_getterMethodDecl : option ClangDeclId;
  prop_setterMethodDecl : option ClangDeclId
}.

Inductive ClangKind :=
| CK_Declined (k : DeclinedKind)
| CK_TypedefName (underlying : ClangType)
| CK_Enum (e : ClangEnum)
| CK_Record (r : ClangRecord)
| CK_EnumConstant (initVal : Z)
| CK_IndirectField (chain : list ClangDeclId) (ty : ClangType)
| CK_Function (f : ClangFunction)
| CK_Field (f : ClangField)
| CK_ObjCIvar (f : ClangField)
| CK_Var (ty : ClangType)
| CK_ObjCMethod (m : ClangObjCMethod)
| CK_ObjCCategory (c : ClangObjCContainer)
| CK_ObjCProtocol (c : ClangObjCContainer)
| CK_ObjCInterface (c : ClangObjCContainer)
| CK_ObjCProperty (p : ClangObjCProperty).

Record ClangDecl := mkClangDecl {
  cd_kind : ClangKind;
  cd_name : option string;          (* getDeclName(); None when unnamed *)
  cd_declContext : ClangDC;
  cd_canonicalDecl : ClangDeclId;
  cd_alwaysInline : bool;           (* hasAttr<AlwaysInlineAttr>() *)
  cd_IBOutlet : bool;               (* hasAttr<IBOutletAttr>() *)
  cd_IBAction : bool                (* hasAttr<IBActionAttr>() *)
}.

Inductive fltSemantics :=
| IEEEhalf | IEEEsingle | IEEEdouble | IEEEquad | PPCDoubleDouble
| x87DoubleExtended | Bogus.

Global Instance fltSemantics_eq_dec : EqDecision fltSemantics.
Proof. solve_decision. Defined.

(** What the importer asks of [clang::ASTContext] and of the Clang AST.
    These are functions of Clang, not of the importer; they are taken as
    given. *)
Record ClangASTContext := mkClangASTContext {
  getClangDecl : ClangDeclId → ClangDecl;
  LangOpts_ObjC1 : bool;
  getTypeSize : ClangType → N;
  isUnsignedIntegerType : ClangType → bool;
  isSignedIntegerType : ClangType → bool;
  isFloatingType : ClangType → bool;
  getFloatTypeSemantics : ClangType → fltSemantics;
  (* hasSameType(T, ObjCBuiltinBoolTy) *)
  hasSameType_ObjCBuiltinBoolTy : ClangType → bool;
  (* T->getAs<PointerType>(), giving the pointee type *)
  getAsPointerType : ClangType → option ClangType;
  (* T->isSpecificBuiltinType(BuiltinType::ObjCSel) *)
  isSpecificBuiltinType_ObjCSel : ClangType → bool;
  (* ObjCInterfaceDecl::lookupMethod(sel, isInstance) *)
  lookupMethod : ClangDeclId → Selector → bool → option ClangDeclId;
  (* ObjCContainerDecl::getMethod(sel, isInstance) *)
  getMethod : ClangDeclId → Selector → bool → option ClangDeclId
}.

(** ** Selector words *)

(** [islower] in the "C" locale. *)
Definition islower (c : ascii) : bool :=
  (97 <=? nat_of_ascii c) && (nat_of_ascii c <=? 122).

(** Check whether the given name starts with the given word. *)
Definition startsWithWord (name word : string) : bool :=
  if String.length name <? String.length word then false
  else
    ((String.length name =? String.length word)
     || negb (match String.get (String.length word) name with
              | Some c => islower c
              | None => false
              end))
    && String.prefix word name.

(** Determine whether the given Objective-C method, which Clang classifies
    as an init method, is considered an init method in Swift. *)
Definition isReallyInitMethod (method : ClangObjCMethod) : bool :=
  if negb (meth_isInstanceMethod method) then false
  else
    match getIdentifierInfoForSlot (meth_selector method) 0 with
    | None => false
    | Some first => startsWithWord first "init"
    end.

(** ** The Swift side *)

Inductive DeclContext :=
| DCModule (m : ModuleId)
| DCDecl (d : DeclId).

Global Instance DeclContext_eq_dec : EqDecision DeclContext.
Proof. solve_decision. Defined.

Global Instance DeclContext_countable : Countable DeclContext.
Proof.
  refine (inj_countable'
    (λ dc, match dc with DCModule m => inl m | DCDecl d => inr d end)
    (λ s, match s with inl m => DCModule m | inr d => DCDecl d end) _).
  by intros [].
Defined.

(** Swift types.  [TyNominal d] is the declared type of the struct, class,
    enum or protocol [d]; [TyBuiltin] stands for any type the importer only
    passes along. *)
Inductive Ty :=
| TyNominal (d : DeclId)
| TyArchetype (assoc : DeclId)
| TyMetaType (instance : Ty)
| TyFunction (input result : Ty)
| TyTuple (elts : list (Ty * Identifier))
| TyBuiltin (n : nat).

Definition TupleType_getEmpty : Ty := TyTuple [].

(** [Type::isEqual]: equality of types, labels of tuple elements included. *)
Fixpoint Ty_isEqual (a b : Ty) : bool :=
  match a, b with
  | TyNominal x, TyNominal y => x =? y
  | TyArchetype x, TyArchetype y => x =? y
  | TyMetaType x, TyMetaType y => Ty_isEqual x y
  | TyFunction i r, TyFunction i' r' => Ty_isEqual i i' && Ty_isEqual r r'
  | TyTuple xs, TyTuple ys =>
      (fix go (xs ys : list (Ty * Identifier)) : bool :=
         match xs, ys with
         | [], [] => true
         | (x, n) :: xs', (y, m) :: ys' =>
             Ty_isEqual x y && String.eqb n m && go xs' ys'
         | _, _ => false
         end) xs ys
  | TyBuiltin x, TyBuiltin y => x =? y
  | _, _ => false
  end.

(** [TypeBase::getUnlabeledType]: the type with the labels of its tuple
    elements removed. *)
Fixpoint getUnlabeledType (t : Ty) : Ty :=
  match t with
  | TyMetaType x => TyMetaType (getUnlabeledType x)
  | TyFunction i r => TyFunction (getUnlabeledType i) (getUnlabeledType r)
  | TyTuple xs =>
      TyTuple ((fix go (xs : list (Ty * Identifier)) :=
                  match xs with
                  | [] => []
                  | (x, _) :: xs' => (getUnlabeledType x, ""%string) :: go xs'
                  end) xs)
  | _ => t
  end.

(** Patterns.  A named pattern refers to its [VarDecl] in the arena. *)
Inductive Pattern :=
| PNamed (var : DeclId) (ty : Ty)
| PTyped (sub : Pattern) (ty : Ty)
| PParen (sub : Pattern) (ty : Ty)
| PTuple (fields : list Pattern) (ty : Ty)
| PAny (ty : Ty).

Definition Pattern_getType (p : Pattern) : Ty :=
  match p with
  | PNamed _ t | PTyped _ t | PParen _ t | PTuple _ t | PAny t => t
  end.

Fixpoint getSemanticsProvidingPattern (p : Pattern) : Pattern :=
  match p with
  | PTyped sub _ | PParen sub _ => getSemanticsProvidingPattern sub
  | _ => p
  end.

(** [dyn_cast<TuplePattern>] followed by [getFields()]. *)
Definition asTuplePattern (p : Pattern) : option (list Pattern) :=
  match p with
  | PTuple fields _ => Some fields
  | _ => None
  end.

Inductive CheckedCastKind := Downcast.

Inductive Expr :=
| DeclRefExpr (d : DeclId)
| OverloadedDeclRefExpr (ds : list DeclId)
| MemberRefExpr (base : Expr) (member : DeclId)
| AssignExpr (lhs rhs : Expr)
| MetatypeExpr (ty : Ty)
| DotSyntaxCallExpr (fn arg : Expr)
| CallExpr (fn arg : Expr)
| TupleExpr (elts : list Expr)
| UnconditionalCheckedCastExpr (sub : Expr) (ty : Ty) (k : CheckedCastKind)
| IntegerLiteralExpr (digits : string)
| FloatLiteralExpr (digits : string)
| PrefixUnaryExpr (fn arg : Expr).

Inductive Stmt :=
| ExprStmt (e : Expr)
| ReturnStmt (e : option Expr).

(** [BraceStmt]: a list of statements. *)
Definition BraceStmt := list Stmt.

Inductive DeclKind :=
| TypeAliasDecl | StructDecl | EnumDecl | EnumElementDecl | ClassDecl
| ProtocolDecl | ExtensionDecl | FuncDecl | VarDecl | ConstructorDecl
| DestructorDecl | SubscriptDecl | AssociatedTypeDecl | PatternBindingDecl.

Global Instance DeclKind_eq_dec : EqDecision DeclKind.
Proof. solve_decision. Defined.

(** Boolean properties of a declaration: the attributes of
    [getMutableAttrs()] and the flags set by [setIsObjC], [setStatic],
    [setImplicit], [setComputedAccessors], [setCircularityCheck(Checked)]
    and [setCheckedInheritanceClause]. *)
Inductive DeclFlag :=
| Attr_ObjC | Attr_ClassProtocol | Attr_IBOutlet | Attr_IBAction
| Flag_IsObjC | Flag_Static | Flag_Implicit | Flag_Computed
| Flag_CircularityChecked | Flag_CheckedInheritanceClause.

Global Instance DeclFlag_eq_dec : EqDecision DeclFlag.
Proof. solve_decision. Defined.

(** A Swift declaration.  One record serves all kinds; a field that a kind
    does not have keeps its default.  [d_type] is [getType()] (the underlying
    type of a type alias, the extended type of an extension);
    [d_argParamPatterns] also holds the indices of a subscript and the
    pattern of a pattern binding; [d_bodyResultType] also holds the element
    type of a subscript; [d_getter] and [d_setter] are the accessors of a
    computed variable or of a subscript; [d_accessorOf] is the declaration a
    function was made the getter or setter of. *)
Record Decl := mkDecl {
  d_kind : DeclKind;
  d_name : Identifier;
  d_declContext : DeclContext;
  d_type : option Ty;
  d_clangNode : option ClangDeclId;
  d_flags : list DeclFlag;
  d_members : list DeclId;
  d_protocols : list DeclId;
  d_superclass : option Ty;
  d_extensions : list DeclId;
  d_overridden : option DeclId;
  d_argParamPatterns : list Pattern;
  d_bodyParamPatterns : list Pattern;
  d_bodyResultType : option Ty;
  d_body : option BraceStmt;
  d_getter : option DeclId;
  d_setter : option DeclId;
  d_accessorOf : option DeclId;
  d_implicitSelf : option DeclId;
  d_initializerType : option Ty;
  d_allocSelfExpr : option Expr
}.

Definition defaultDecl (k : DeclKind) (name : Identifier) (dc : DeclContext)
  : Decl :=
  {| d_kind := k; d_name := name; d_declContext := dc; d_type := None;
     d_clangNode := None; d_flags := []; d_members := []; d_protocols := [];
     d_superclass := None; d_extensions := []; d_overridden := None;
     d_argParamPatterns := []; d_bodyParamPatterns := [];
     d_bodyResultType := None; d_body := None; d_getter := None;
     d_setter := None; d_accessorOf := None; d_implicitSelf := None;
     d_initializerType := None; d_allocSelfExpr := None |}.

Definition set_declContext (v : DeclContext) (d : Decl) : Decl :=
  {| d_kind := d_kind d; d_name := d_name d; d_declContext := v;
     d_type := d_type d; d_clangNode := d_clangNode d; d_flags := d_flags d;
     d_members := d_members d; d_protocols := d_protocols d;
     d_superclass := d_superclass d; d_extensions := d_extensions d;
     d_overridden := d_overridden d;
     d_argParamPatterns := d_argParamPatterns d;
     d_bodyParamPatterns := d_bodyParamPatterns d;
     d_bodyResultType := d_bodyResultType d; d_body := d_body d;
     d_getter := d_getter d; d_setter := d_setter d;
     d_accessorOf := d_accessorOf d; d_implicitSelf := d_implicitSelf d;
     d_initializerType := d_initializerType d;
     d_allocSelfExpr := d_allocSelfExpr d |}.

Definition set_type (v : option Ty) (d : Decl) : Decl :=
  {| d_kind := d_kind d; d_name := d_name d;
     d_declContext := d_declContext d; d_type := v;
     d_clangNode := d_clangNode d; d_flags := d_flags d;
     d_members := d_members d; d_protocols := d_protocols d;
     d_superclass := d_superclass d; d_extensions := d_extensions d;
     d_overridden := d_overridden d;
     d_argParamPatterns := d_argParamPatterns d;
     d_bodyParamPatterns := d_bodyParamPatterns d;
     d_bodyResultType := d_bodyResultType d; d_body := d_body d;
     d_getter := d_getter d; d_setter := d_setter d;
     d_accessorOf := d_accessorOf d; d_implicitSelf := d_implicitSelf d;
     d_initializerType := d_initializerType d;
     d_allocSelfExpr := d_allocSelfExpr d |}.

Definition set_clangNode (v : option ClangDeclId) (d : Decl) : Decl :=
  {| d_kind := d_kind d; d_name := d_name d;
     d_declContext := d_declContext d; d_type := d_type d; d_clangNode := v;
     d_flags := d_flags d; d_members := d_members d;
     d_protocols := d_protocols d; d_superclass := d_superclass d;
     d_extensions := d_extensions d; d_overridden := d_overridden d;
     d_argParamPatterns := d_argParamPatterns d;
     d_bodyParamPatterns := d_bodyParamPatterns d;
     d_bodyResultType := d_bodyResultType d; d_body := d_body d;
     d_getter := d_getter d; d_setter := d_setter d;
     d_accessorOf := d_accessorOf d; d_implicitSelf := d_implicitSelf d;
     d_initializerType := d_initializerType d;
     d_allocSelfExpr := d_allocSelfExpr d |}.

Definition set_flags (v : list DeclFlag) (d : Decl) : Decl :=
  {| d_kind := d_kind d; d_name := d_name d;
     d_declContext := d_declContext d; d_type := d_type d;
     d_clangNode := d_clangNode d; d_flags := v; d_members := d_members d;
     d_protocols := d_protocols d; d_superclass := d_superclass d;
     d_extensions := d_extensions d; d_overridden := d_overridden d;
     d_argParamPatterns := d_argParamPatterns d;
     d_bodyParamPatterns := d_bodyParamPatterns d;
     d_bodyResultType := d_bodyResultType d; d_body := d_body d;
     d_getter := d_getter d; d_setter := d_setter d;
     d_accessorOf := d_accessorOf d; d_implicitSelf := d_implicitSelf d;
     d_initializerType := d_initializerType d;
     d_allocSelfExpr := d_allocSelfExpr d |}.

Definition set_members (v : list DeclId) (d : Decl) : Decl :=
  {| d_kind := d_kind d; d_name := d_name d;
     d_declContext := d_declContext d; d_type := d_type d;
     d_clangNode := d_clangNode d; d_flags := d_flags d; d_members := v;
     d_protocols := d_protocols d; d_superclass := d_superclass d;
     d_extensions := d_extensions d; d_overridden := d_overridden d;
     d_argParamPatterns := d_argParamPatterns d;
     d_bodyParamPatterns := d_bodyParamPatterns d;
     d_bodyResultType := d_bodyResultType d; d_body := d_body d;
     d_getter := d_getter d; d_setter := d_setter d;
     d_accessorOf := d_accessorOf d; d_implicitSelf := d_implicitSelf d;
     d_initializerType := d_initializerType d;
     d_allocSelfExpr := d_allocSelfExpr d |}.

Definition set_protocols (v : list DeclId) (d : Decl) : Decl :=
  {| d_kind := d_kind d; d_name := d_name d;
     d_declContext := d_declContext d; d_type := d_type d;
     d_clangNode := d_clangNode d; d_flags := d_flags d;
     d_members := d_members d; d_protocols := v;
     d_superclass := d_superclass d; d_extensions := d_extensions d;
     d_overridden := d_overridden d;
     d_argParamPatterns := d_argParamPatterns d;
     d_bodyParamPatterns := d_bodyParamPatterns d;
     d_bodyResultType := d_bodyResultType d; d_body := d_body d;
     d_getter := d_getter d; d_setter := d_setter d;
     d_accessorOf := d_accessorOf d; d_implicitSelf := d_implicitSelf d;
     d_initializerType := d_initializerType d;
     d_allocSelfExpr := d_allocSelfExpr d |}.

Definition set_superclass (v : option Ty) (d : Decl) : Decl :=
  {| d_kind := d_kind d; d_name := d_name d;
     d_declContext := d_declContext d; d_type := d_type d;
     d_clangNode := d_clangNode d; d_flags := d_flags d;
     d_members := d_members d; d_protocols := d_protocols d;
     d_superclass := v; d_extensions := d_extensions d;
     d_overridden := d_overridden d;
     d_argParamPatterns := d_argParamPatterns d;
     d_bodyParamPatterns := d_bodyParamPatterns d;
     d_bodyResultType := d_bodyResultType d; d_body := d_body d;
     d_getter := d_getter d; d_setter := d_setter d;
     d_accessorOf := d_accessorOf d; d_implicitSelf := d_implicitSelf d;
     d_initializerType := d_initializerType d;
     d_allocSelfExpr := d_allocSelfExpr d |}.

Definition set_extensions (v : list DeclId) (d : Decl) : Decl :=
  {| d_kind := d_kind d; d_name := d_name d;
     d_declContext := d_declContext d; d_type := d_type d;
     d_clangNode := d_clangNode d; d_flags := d_flags d;
     d_members := d_members d; d_protocols := d_protocols d;
     d_superclass := d_superclass d; d_extensions := v;
     d_overridden := d_overridden d;
     d_argParamPatterns := d_argParamPatterns d;
     d_bodyParamPatterns := d_bodyParamPatterns d;
     d_bodyResultType := d_bodyResultType d; d_body := d_body d;
     d_getter := d_getter d; d_setter := d_setter d;
     d_accessorOf := d_accessorOf d; d_implicitSelf := d_implicitSelf d;
     d_initializerType := d_initializerType d;
     d_allocSelfExpr := d_allocSelfExpr d |}.

Definition set_overridden (v : option DeclId) (d : Decl) : Decl :=
  {| d_kind := d_kind d; d_name := d_name d;
     d_declContext := d_declContext d; d_type := d_type d;
     d_clangNode := d_clangNode d; d_flags := d_flags d;
     d_members := d_members d; d_protocols := d_protocols d;
     d_superclass := d_superclass d; d_extensions := d_extensions d;
     d_overridden := v; d_argParamPatterns := d_argParamPatterns d;
     d_bodyParamPatterns := d_bodyParamPatterns d;
     d_bodyResultType := d_bodyResultType d; d_body := d_body d;
     d_getter := d_getter d; d_setter := d_setter d;
     d_accessorOf := d_accessorOf d; d_implicitSelf := d_implicitSelf d;
     d_initializerType := d_initializerType d;
     d_allocSelfExpr := d_allocSelfExpr d |}.

Definition set_argParamPatterns (v : list Pattern) (d : Decl) : Decl :=
  {| d_kind := d_kind d; d_name := d_name d;
     d_declContext := d_declContext d; d_type := d_type d;
     d_clangNode := d_clangNode d; d_flags := d_flags d;
     d_members := d_members d; d_protocols := d_protocols d;
     d_superclass := d_superclass d; d_extensions := d_extensions d;
     d_overridden := d_overridden d; d_argParamPatterns := v;
     d_bodyParamPatterns := d_bodyParamPatterns d;
     d_bodyResultType := d_bodyResultType d; d_body := d_body d;
     d_getter := d_getter d; d_setter := d_setter d;
     d_accessorOf := d_accessorOf d; d_implicitSelf := d_implicitSelf d;
     d_initializerType := d_initializerType d;
     d_allocSelfExpr := d_allocSelfExpr d |}.

Definition set_bodyParamPatterns (v : list Pattern) (d : Decl) : Decl :=
  {| d_kind := d_kind d; d_name := d_name d;
     d_declContext := d_declContext d; d_type := d_type d;
     d_clangNode := d_clangNode d; d_flags := d_flags d;
     d_members := d_members d; d_protocols := d_protocols d;
     d_superclass := d_superclass d; d_extensions := d_extensions d;
     d_overridden := d_overridden d;
     d_argParamPatterns := d_argParamPatterns d; d_bodyParamPatterns := v;
     d_bodyResultType := d_bodyResultType d; d_body := d_body d;
     d_getter := d_getter d; d_setter := d_setter d;
     d_accessorOf := d_accessorOf d; d_implicitSelf := d_implicitSelf d;
     d_initializerType := d_initializerType d;
     d_allocSelfExpr := d_allocSelfExpr d |}.

Definition set_bodyResultType (v : option Ty) (d : Decl) : Decl :=
  {| d_kind := d_kind d; d_name := d_name d;
     d_declContext := d_declContext d; d_type := d_type d;
     d_clangNode := d_clangNode d; d_flags := d_flags d;
     d_members := d_members d; d_protocols := d_protocols d;
     d_superclass := d_superclass d; d_extensions := d_extensions d;
     d_overridden := d_overridden d;
     d_argParamPatterns := d_argParamPatterns d;
     d_bodyParamPatterns := d_bodyParamPatterns d; d_bodyResultType := v;
     d_body := d_body d; d_getter := d_getter d; d_setter := d_setter d;
     d_accessorOf := d_accessorOf d; d_implicitSelf := d_implicitSelf d;
     d_initializerType := d_initializerType d;
     d_allocSelfExpr := d_allocSelfExpr d |}.

Definition set_body (v : option BraceStmt) (d : Decl) : Decl :=
  {| d_kind := d_kind d; d_name := d_name d;
     d_declContext := d_declContext d; d_type := d_type d;
     d_clangNode := d_clangNode d; d_flags := d_flags d;
     d_members := d_members d; d_protocols := d_protocols d;
     d_superclass := d_superclass d; d_extensions := d_extensions d;
     d_overridden := d_overridden d;
     d_argParamPatterns := d_argParamPatterns d;
     d_bodyParamPatterns := d_bodyParamPatterns d;
     d_bodyResultType := d_bodyResultType d; d_body := v;
     d_getter := d_getter d; d_setter := d_setter d;
     d_accessorOf := d_accessorOf d; d_implicitSelf := d_implicitSelf d;
     d_initializerType := d_initializerType d;
     d_allocSelfExpr := d_allocSelfExpr d |}.

Definition set_getter (v : option DeclId) (d : Decl) : Decl :=
  {| d_kind := d_kind d; d_name := d_name d;
     d_declContext := d_declContext d; d_type := d_type d;
     d_clangNode := d_clangNode d; d_flags := d_flags d;
     d_members := d_members d; d_protocols := d_protocols d;
     d_superclass := d_superclass d; d_extensions := d_extensions d;
     d_overridden := d_overridden d;
     d_argParamPatterns := d_argParamPatterns d;
     d_bodyParamPatterns := d_bodyParamPatterns d;
     d_bodyResultType := d_bodyResultType d; d_body := d_body d;
     d_getter := v; d_setter := d_setter d; d_accessorOf := d_accessorOf d;
     d_implicitSelf := d_implicitSelf d;
     d_initializerType := d_initializerType d;
     d_allocSelfExpr := d_allocSelfExpr d |}.

Definition set_setter (v : option DeclId) (d : Decl) : Decl :=
  {| d_kind := d_kind d; d_name := d_name d;
     d_declContext := d_declContext d; d_type := d_type d;
     d_clangNode := d_clangNode d; d_flags := d_flags d;
     d_members := d_members d; d_protocols := d_protocols d;
     d_superclass := d_superclass d; d_extensions := d_extensions d;
     d_overridden := d_overridden d;
     d_argParamPatterns := d_argParamPatterns d;
     d_bodyParamPatterns := d_bodyParamPatterns d;
     d_bodyResultType := d_bodyResultType d; d_body := d_body d;
     d_getter := d_getter d; d_setter := v; d_accessorOf := d_accessorOf d;
     d_implicitSelf := d_implicitSelf d;
     d_initializerType := d_initializerType d;
     d_allocSelfExpr := d_allocSelfExpr d |}.

Definition set_accessorOf (v : option DeclId) (d : Decl) : Decl :=
  {| d_kind := d_kind d; d_name := d_name d;
     d_declContext := d_declContext d; d_type := d_type d;
     d_clangNode := d_clangNode d; d_flags := d_flags d;
     d_members := d_members d; d_protocols := d_protocols d;
     d_superclass := d_superclass d; d_extensions := d_extensions d;
     d_overridden := d_overridden d;
     d_argParamPatterns := d_argParamPatterns d;
     d_bodyParamPatterns := d_bodyParamPatterns d;
     d_bodyResultType := d_bodyResultType d; d_body := d_body d;
     d_getter := d_getter d; d_setter := d_setter d; d_accessorOf := v;
     d_implicitSelf := d_implicitSelf d;
     d_initializerType := d_initializerType d;
     d_allocSelfExpr := d_allocSelfExpr d |}.

Definition set_implicitSelf (v : option DeclId) (d : Decl) : Decl :=
  {| d_kind := d_kind d; d_name := d_name d;
     d_declContext := d_declContext d; d_type := d_type d;
     d_clangNode := d_clangNode d; d_flags := d_flags d;
     d_members := d_members d; d_protocols := d_protocols d;
     d_superclass := d_superclass d; d_extensions := d_extensions d;
     d_overridden := d_overridden d;
     d_argParamPatterns := d_argParamPatterns d;
     d_bodyParamPatterns := d_bodyParamPatterns d;
     d_bodyResultType := d_bodyResultType d; d_body := d_body d;
     d_getter := d_getter d; d_setter := d_setter d;
     d_accessorOf := d_accessorOf d; d_implicitSelf := v;
     d_initializerType := d_initializerType d;
     d_allocSelfExpr := d_allocSelfExpr d |}.

Definition set_initializerType (v : option Ty) (d : Decl) : Decl :=
  {| d_kind := d_kind d; d_name := d_name d;
     d_declContext := d_declContext d; d_type := d_type d;
     d_clangNode := d_clangNode d; d_flags := d_flags d;
     d_members := d_members d; d_protocols := d_protocols d;
     d_superclass := d_superclass d; d_extensions := d_extensions d;
     d_overridden := d_overridden d;
     d_argParamPatterns := d_argParamPatterns d;
     d_bodyParamPatterns := d_bodyParamPatterns d;
     d_bodyResultType := d_bodyResultType d; d_body := d_body d;
     d_getter := d_getter d; d_setter := d_setter d;
     d_accessorOf := d_accessorOf d; d_implicitSelf := d_implicitSelf d;
     d_initializerType := v; d_allocSelfExpr := d_allocSelfExpr d |}.

Definition set_allocSelfExpr (v : option Expr) (d : Decl) : Decl :=
  {| d_kind := d_kind d; d_name := d_name d;
     d_declContext := d_declContext d; d_type := d_type d;
     d_clangNode := d_clangNode d; d_flags := d_flags d;
     d_members := d_members d; d_protocols := d_protocols d;
     d_superclass := d_superclass d; d_extensions := d_extensions d;
     d_overridden := d_overridden d;
     d_argParamPatterns := d_argParamPatterns d;
     d_bodyParamPatterns := d_bodyParamPatterns d;
     d_bodyResultType := d_bodyResultType d; d_body := d_body d;
     d_getter := d_getter d; d_setter := d_setter d;
     d_accessorOf := d_accessorOf d; d_implicitSelf := d_implicitSelf d;
     d_initializerType := d_initializerType d; d_allocSelfExpr := v |}.

Definition hasFlag (f : DeclFlag) (d : Decl) : bool := bool_decide (f ∈ d_flags d).
Definition addFlag (f : DeclFlag) (d : Decl) : Decl := set_flags (f :: d_flags d) d.
Definition isStatic (d : Decl) : bool := hasFlag Flag_Static d.

(** ** The importer's state *)

(** The mutable part of [ClangImporter::Implementation] and of the Swift
    [ASTContext]: the arena of declarations, the memo tables, and the list
    of external declarations handed to the type checker. *)
Record ImporterState := mkImporterState {
  arena : list Decl;
  ImportedDecls : gmap ClangDeclId (option DeclId);
  ImportedProtocolDecls : gmap (ClangDeclId * DeclContext) (option DeclId);
  Subscripts : gmap (option DeclId * option DeclId) (option DeclId);
  SpecialTypedefNames : gset ClangDeclId;
  ExternalDecls : list DeclId
}.

Definition set_arena (v : list Decl) (st : ImporterState) : ImporterState :=
  {| arena := v; ImportedDecls := ImportedDecls st;
     ImportedProtocolDecls := ImportedProtocolDecls st;
     Subscripts := Subscripts st;
     SpecialTypedefNames := SpecialTypedefNames st;
     ExternalDecls := ExternalDecls st |}.

Definition set_ImportedDecls (v : gmap ClangDeclId (option DeclId))
  (st : ImporterState) : ImporterState :=
  {| arena := arena st; ImportedDecls := v;
     ImportedProtocolDecls := ImportedProtocolDecls st;
     Subscripts := Subscripts st;
     SpecialTypedefNames := SpecialTypedefNames st;
     ExternalDecls := ExternalDecls st |}.

Definition set_ImportedProtocolDecls
  (v : gmap (ClangDeclId * DeclContext) (option DeclId))
  (st : ImporterState) : ImporterState :=
  {| arena := arena st; ImportedDecls := ImportedDecls st;
     ImportedProtocolDecls := v;
     Subscripts := Subscripts st;
     SpecialTypedefNames := SpecialTypedefNames st;
     ExternalDecls := ExternalDecls st |}.

Definition set_Subscripts
  (v : gmap (option DeclId * option DeclId) (option DeclId))
  (st : ImporterState) : ImporterState :=
  {| arena := arena st; ImportedDecls := ImportedDecls st;
     ImportedProtocolDecls := ImportedProtocolDecls st;
     Subscripts := v;
     SpecialTypedefNames := SpecialTypedefNames st;
     ExternalDecls := ExternalDecls st |}.

Definition set_SpecialTypedefNames (v : gset ClangDeclId)
  (st : ImporterState) : ImporterState :=
  {| arena := arena st; ImportedDecls := ImportedDecls st;
     ImportedProtocolDecls := ImportedProtocolDecls st;
     Subscripts := Subscripts st;
     SpecialTypedefNames := v;
     ExternalDecls := ExternalDecls st |}.

Definition set_ExternalDecls (v : list DeclId)
  (st : ImporterState) : ImporterState :=
  {| arena := arena st; ImportedDecls := ImportedDecls st;
     ImportedProtocolDecls := ImportedProtocolDecls st;
     Subscripts := Subscripts st;
     SpecialTypedefNames := SpecialTypedefNames st;
     ExternalDecls := v |}.

(** The outcome of running a piece of the importer: it returns a value and
    a new state, or the recursion budget of the model is used up, or the C++
    has no defined behaviour there (a failed [cast<>], a null dereference,
    [llvm_unreachable]). *)
Inductive Outcome (A : Type) :=
| Done (a : A) (st : ImporterState)
| OutOfFuel
| Undefined.
Arguments Done {A} a st.
Arguments OutOfFuel {A}.
Arguments Undefined {A}.

Definition M (A : Type) : Type := ImporterState → Outcome A.

Definition ret {A} (a : A) : M A := λ st, Done a st.

Definition bind {A B} (m : M A) (k : A → M B) : M B :=
  λ st, match m st with
        | Done a st' => k a st'
        | OutOfFuel => OutOfFuel
        | Undefined => Undefined
        end.

Notation "'let*' x ':=' m 'in' k" := (bind m (λ x, k))
  (at level 10, x binder, m at level 100, k at level 200,
   format "'[v' 'let*'  x  ':='  m  'in' '/' k ']'").
Notation "m1 ';;' m2" := (bind m1 (λ _, m2))
  (at level 100, m2 at level 200, right associativity).

Definition outOfFuel {A} : M A := λ _, OutOfFuel.
Definition undefined {A} : M A := λ _, Undefined.

Definition getState : M ImporterState := λ st, Done st st.
Definition modifyState (f : ImporterState → ImporterState) : M unit :=
  λ st, Done tt (f st).

(** [when c m]: an [if (c) m;] without a value. *)
Definition when (c : bool) (m : M unit) : M unit := if c then m else ret tt.

(** A [for] loop over a list threading an accumulator. *)
Fixpoint foldM {A B} (f : B → A → M B) (l : list A) (b : B) : M B :=
  match l with
  | [] => ret b
  | x :: l' => let* b' := f b x in foldM f l' b'
  end.

Definition forM_ {A} (l : list A) (f : A → M unit) : M unit :=
  foldM (λ _ x, f x) l tt.

(** *** The arena *)

(** [new (context) D(...)]: the new declaration gets the next id. *)
Definition allocate (d : Decl) : M DeclId :=
  λ st, Done (length (arena st)) (set_arena (arena st ++ [d]) st).

(** Reading through a [Decl *]. *)
Definition getDecl (id : DeclId) : M Decl :=
  λ st, match arena st !! id with
        | Some d => Done d st
        | None => Undefined
        end.

(** Writing through a [Decl *]. *)
Definition modifyDecl (id : DeclId) (f : Decl → Decl) : M unit :=
  λ st, match arena st !! id with
        | Some d => Done tt (set_arena (<[id := f d]> (arena st)) st)
        | None => Undefined
        end.

(** [dyn_cast<K>(d)] on a declaration of the arena. *)
Definition isa (k : DeclKind) (id : DeclId) : M bool :=
  let* d := getDecl id in ret (bool_decide (d_kind d = k)).

(** [cast_or_null<K>(d)]: the cast is undefined on another kind. *)
Definition cast_or_null (k : DeclKind) (d : option DeclId) : M (option DeclId) :=
  match d with
  | None => ret None
  | Some id => let* ok := isa k id in if ok then ret (Some id) else undefined
  end.

(** [SwiftContext.addedExternalDecl]. *)
Definition addedExternalDecl (id : DeclId) : M unit :=
  modifyState (λ st, set_ExternalDecls (ExternalDecls st ++ [id]) st).

(** *** The memo tables *)

(** [ImportedDecls.find(canon)]: [None] is [end()]. *)
Definition findImportedDecl (canon : ClangDeclId) : M (option (option DeclId)) :=
  λ st, Done (ImportedDecls st !! canon) st.

(** [ImportedDecls[canon] = result]. *)
Definition setImportedDecl (canon : ClangDeclId) (result : option DeclId)
  : M unit :=
  modifyState (λ st, set_ImportedDecls (<[canon := result]> (ImportedDecls st)) st).

(** [ImportedDecls[canon]] read as an rvalue: [DenseMap::operator[]] enters
    a null value for a key that is not in the table. *)
Definition indexImportedDecl (canon : ClangDeclId) : M (option DeclId) :=
  λ st, match ImportedDecls st !! canon with
        | Some v => Done v st
        | None =>
            Done None (set_ImportedDecls (<[canon := None]> (ImportedDecls st)) st)
        end.

Definition findImportedProtocolDecl (key : ClangDeclId * DeclContext)
  : M (option (option DeclId)) :=
  λ st, Done (ImportedProtocolDecls st !! key) st.

Definition setImportedProtocolDecl (key : ClangDeclId * DeclContext)
  (result : option DeclId) : M unit :=
  modifyState (λ st,
    set_ImportedProtocolDecls (<[key := result]> (ImportedProtocolDecls st)) st).

(** [Subscripts[{getter, setter}]] read as an rvalue. *)
Definition indexSubscripts (key : option DeclId * option DeclId)
  : M (option DeclId) :=
  λ st, match Subscripts st !! key with
        | Some v => Done v st
        | None => Done None (set_Subscripts (<[key := None]> (Subscripts st)) st)
        end.

(** [Subscripts[{getter, setter}] = subscript]. *)
Definition setSubscripts (key : option DeclId * option DeclId)
  (subscript : DeclId) : M unit :=
  modifyState (λ st,
    set_Subscripts (<[key := Some subscript]> (Subscripts st)) st).

(** ** The importer's collaborators *)

Inductive MappedCTypeKind :=
| UnsignedInt | SignedInt | FloatIEEEsingle | FloatIEEEdouble
| FloatX87DoubleExtended | ObjCBool | ObjCSel.

(** One [MAP_TYPE] line of MappedTypes.def.  [LANGUAGES] is the value of the
    [MappedLanguages] enumerator as the unsigned integer the code casts it
    to. *)
Record MappedType := MAP_TYPE {
  C_TYPE_NAME : string;
  C_TYPE_KIND : MappedCTypeKind;
  C_TYPE_BITWIDTH : N;
  SWIFT_MODULE_NAME : string;
  SWIFT_TYPE_NAME : string;
  LANGUAGES : N;
  CAN_BE_MISSING : bool
}.

Inductive ImportTypeKind := ITK_Normal | ITK_Property.

Inductive EnumKind := Constants | Options | Enum.

Global Instance EnumKind_eq_dec : EqDecision EnumKind.
Proof. solve_decision. Defined.

Inductive ConstantConvertKind :=
| CCK_None | CCK_Construction | CCK_Coerce | CCK_Downcast.

(** [clang::APValue], as far as [createConstant] distinguishes values: an
    integer, a finite float (given by its printed form), or any other kind. *)
Inductive APValue :=
| APValue_Int (v : Z)
| APValue_Float (printed : string)
| APValue_Other.

(** The parts of the importer and of the Swift AST library that
    ImportDecl.cpp calls but does not define.  The type importers can import
    declarations themselves, so they receive [importDecl] as their first
    argument; the name lookups read the arena. *)
Record ImporterEnv := mkImporterEnv {
  (* Impl.importName(name, suffix) *)
  importName : option string → string → Identifier;
  firstClangModule : ModuleId;
  getSwiftModule : option ModuleId;
  getNamedModule : string → option ModuleId;
  getNamedSwiftType : ModuleId → string → option Ty;
  getClangModuleForDecl : ClangDeclId → option ModuleId;
  (* the lines of MappedTypes.def, in order *)
  MappedTypes : list MappedType;
  MappedLanguages_ObjC1 : N;
  MappedLanguages_All : N;
  (* Impl.importType on a builtin type and on the types the model does not
     look into *)
  importBuiltinType : nat → ImportTypeKind → option Ty;
  importOtherType :
    (option ClangDeclId → M (option DeclId)) → nat → ImportTypeKind →
    M (option Ty);
  (* Impl.importFunctionType(resultType, params, isVariadic, argPatterns,
     bodyPatterns, selector, isConstructor): the type, and the two lists of
     patterns after the call *)
  importFunctionType :
    (option ClangDeclId → M (option DeclId)) →
    ClangType → list ClangParam → bool →
    list Pattern → list Pattern → option Selector → bool →
    M (option Ty * list Pattern * list Pattern);
  (* Module::lookupQualified(type, name, NL_QualifiedDefault, ...) *)
  lookupQualified : list Decl → option Ty → Identifier → list DeclId;
  (* UnqualifiedLookup(name, module): its results, each with its value
     declaration if it has one *)
  UnqualifiedLookup : list Decl → Identifier → option ModuleId →
                      list (option DeclId);
  (* NominalTypeDecl::getImplicitProtocols *)
  getImplicitProtocols : list Decl → DeclId → list DeclId;
  (* DeclContext::getRedeclContext() of Clang *)
  getRedeclContext : ClangDC → ClangDC
}.

(** ** Well-known types *)

Inductive ShapeCheck := ShapePass | ShapeReject | ShapeAssertFails.

Section WellKnownTypes.
Context (ctx : ClangASTContext) (env : ImporterEnv).

(** "Check other expected properties of the C type": the [switch] on
    [CTypeKind]. *)
Definition checkCTypeKind (CTypeKind : MappedCTypeKind) (Bitwidth : N)
  (ClangType : ClangType) : ShapeCheck :=
  match CTypeKind with
  | UnsignedInt =>
      if negb (isUnsignedIntegerType ctx ClangType) then ShapeReject
      else ShapePass
  | SignedInt =>
      if negb (isSignedIntegerType ctx ClangType) then ShapeReject
      else ShapePass
  | FloatIEEEsingle =>
      if negb (isFloatingType ctx ClangType) then ShapeReject
      else if negb (Bitwidth =? 32)%N then ShapeAssertFails
      else if negb (bool_decide
                      (getFloatTypeSemantics ctx ClangType = IEEEsingle))
           then ShapeReject else ShapePass
  | FloatIEEEdouble =>
      if negb (isFloatingType ctx ClangType) then ShapeReject
      else if negb (Bitwidth =? 64)%N then ShapeAssertFails
      else if negb (bool_decide
                      (getFloatTypeSemantics ctx ClangType = IEEEdouble))
           then ShapeReject else ShapePass
  | FloatX87DoubleExtended =>
      if negb (isFloatingType ctx ClangType) then ShapeReject
      else if negb (Bitwidth =? 80)%N then ShapeAssertFails
      else if negb (bool_decide
                      (getFloatTypeSemantics ctx ClangType = x87DoubleExtended))
           then ShapeReject else ShapePass
  | ObjCBool =>
      if negb (hasSameType_ObjCBuiltinBoolTy ctx ClangType) then ShapeReject
      else ShapePass
  | ObjCSel =>
      match getAsPointerType ctx ClangType with
      | Some pointee =>
          if negb (isSpecificBuiltinType_ObjCSel ctx pointee) then ShapeReject
          else ShapePass
      | None => ShapePass
      end
  end.

(** The result of [getSwiftStdlibType]: the pair it returns and the flag it
    leaves in [*IsError]. *)
Record StdlibTypeResult := mkStdlibTypeResult {
  stdlib_type : option Ty;
  stdlib_name : string;
  IsError : bool
}.

Definition notMapped : StdlibTypeResult := mkStdlibTypeResult None "" false.

(** Map a well-known C type to a swift type from the standard library.
    [None] is a failed assertion. *)
Definition getSwiftStdlibType (underlyingType : ClangType) (Name : Identifier)
  : option StdlibTypeResult :=
  match find (λ e, String.eqb Name (C_TYPE_NAME e)) (MappedTypes env) with
  | None =>
      (* We did not find this type, thus it is not mapped. *)
      Some notMapped
  | Some e =>
      let IsSwiftModule := String.eqb "swift" (SWIFT_MODULE_NAME e) in
      if negb (LANGUAGES e =? MappedLanguages_All env)%N
         && negb (N.land (LANGUAGES e) (MappedLanguages_ObjC1 env) =? 0)%N
         && negb (LangOpts_ObjC1 ctx)
      then Some notMapped
      else if negb (C_TYPE_BITWIDTH e =? 0)%N
              && negb (C_TYPE_BITWIDTH e =? getTypeSize ctx underlyingType)%N
      then Some notMapped
      else
        match checkCTypeKind (C_TYPE_KIND e) (C_TYPE_BITWIDTH e) underlyingType with
        | ShapeAssertFails => None
        | ShapeReject => Some notMapped
        | ShapePass =>
            let M := if IsSwiftModule then getSwiftModule env
                     else getNamedModule env (SWIFT_MODULE_NAME e) in
            match M with
            | None =>
                (* User did not import the library module that contains the
                   type we want to substitute. *)
                Some (mkStdlibTypeResult None "" true)
            | Some M =>
                let SwiftType := getNamedSwiftType env M (SWIFT_TYPE_NAME e) in
                if negb (bool_decide (is_Some SwiftType))
                   && negb (CAN_BE_MISSING e)
                then
                  (* The required type is not defined in the standard
                     library. *)
                  Some (mkStdlibTypeResult None "" true)
                else Some (mkStdlibTypeResult SwiftType (SWIFT_TYPE_NAME e) false)
            end
        end
  end.

(** ** Enumeration kinds *)

(** The name an enumeration or record is imported under: its own name, or
    else the name of the typedef that names it. *)
Definition importTagName (decl : ClangDeclId)
  (typedefNameForAnonDecl : option ClangDeclId) : Identifier :=
  match cd_name (getClangDecl ctx decl) with
  | Some n => importName env (Some n) ""
  | None =>
      match typedefNameForAnonDecl with
      | Some td => importName env (cd_name (getClangDecl ctx td)) ""
      | None => ""%string
      end
  end.

Definition getTypedefNameForAnonDecl (decl : ClangDeclId)
  : option ClangDeclId :=
  match cd_kind (getClangDecl ctx decl) with
  | CK_Enum e => enum_typedefNameForAnonDecl e
  | CK_Record r => rec_typedefNameForAnonDecl r
  | _ => None
  end.

(** Classify the given Clang enumeration to describe how to import it. *)
Definition classifyEnum (decl : ClangDeclId) : EnumKind :=
  let name := importTagName decl (getTypedefNameForAnonDecl decl) in
  (* Anonymous enumerations simply get mapped to constants of the
     underlying type of the enum, because there is no way to conjure up a
     name for the Swift type. *)
  if Identifier_empty name then Constants
  else
    (* For now, Options is the only usable answer. *)
    Options.
End WellKnownTypes.

(** ** Patterns over the arena *)

(** Set the declaration context of each variable within the given pattern
    to [dc]; [getSemanticsProvidingPattern] is the descent through typed and
    parenthesised patterns. *)
Fixpoint setVarDeclContext (pattern : Pattern) (dc : DeclContext) : M unit :=
  match pattern with
  | PTyped sub _ | PParen sub _ => setVarDeclContext sub dc
  | PNamed var _ => modifyDecl var (set_declContext dc)
  | PTuple fields _ =>
      (fix elts (fs : list Pattern) : M unit :=
         match fs with
         | [] => ret tt
         | elt :: fs' => setVarDeclContext elt dc;; elts fs'
         end) fields
  | PAny _ => ret tt
  end.

(** Set the declaration context of each variable within the given patterns
    to [dc]. *)
Definition setVarDeclContexts (patterns : list Pattern) (dc : DeclContext)
  : M unit :=
  forM_ patterns (λ pattern, setVarDeclContext pattern dc).

(** [Pattern::getBoundName]. *)
Definition Pattern_getBoundName (p : Pattern) : M Identifier :=
  match getSemanticsProvidingPattern p with
  | PNamed var _ => let* d := getDecl var in ret (d_name d)
  | _ => ret ""%string
  end.

(** Modelled from the spec: [Pattern::clone] (lib/AST/Pattern.cpp is not
    among the sources).  The clone is an independent copy of the pattern
    subtree: every named pattern of the copy has a variable of its own, with
    the name, type and context of the original. *)
Fixpoint Pattern_clone (p : Pattern) : M Pattern :=
  match p with
  | PNamed var ty =>
      let* d := getDecl var in
      let* var' := allocate (set_type (d_type d)
                               (defaultDecl VarDecl (d_name d) (d_declContext d))) in
      ret (PNamed var' ty)
  | PTyped sub ty => let* sub' := Pattern_clone sub in ret (PTyped sub' ty)
  | PParen sub ty => let* sub' := Pattern_clone sub in ret (PParen sub' ty)
  | PTuple fields ty =>
      let* fields' :=
        (fix elts (fs : list Pattern) : M (list Pattern) :=
           match fs with
           | [] => ret []
           | elt :: fs' =>
               let* elt' := Pattern_clone elt in
               let* rest := elts fs' in
               ret (elt' :: rest)
           end) fields in
      ret (PTuple fields' ty)
  | PAny ty => ret (PAny ty)
  end.

(** ** Queries on Swift declarations and types *)

Definition isNominalTypeDecl (k : DeclKind) : bool :=
  match k with
  | StructDecl | EnumDecl | ClassDecl | ProtocolDecl => true
  | _ => false
  end.

(** [VarDecl::isComputed]. *)
Definition isComputed (d : Decl) : bool := hasFlag Flag_Computed d.

(** [t->castTo<FunctionType>()]: input and result; undefined on another
    type. *)
Definition castToFunctionType (t : Ty) : M (Ty * Ty) :=
  match t with
  | TyFunction i r => ret (i, r)
  | _ => undefined
  end.

(** [DeclContext::getDeclaredTypeOfContext] (and [...InContext]: the model
    has no generic contexts): the type a nominal declaration declares, the
    type an extension extends, and null elsewhere. *)
Definition getDeclaredTypeOfContext (dc : DeclContext) : M (option Ty) :=
  match dc with
  | DCModule _ => ret None
  | DCDecl d =>
      let* decl := getDecl d in
      if isNominalTypeDecl (d_kind decl) then ret (Some (TyNominal d))
      else if bool_decide (d_kind decl = ExtensionDecl) then ret (d_type decl)
      else ret None
  end.

(** [t->getAs<ClassType>()] followed by [getDecl()]. *)
Definition getAsClassDecl (t : Ty) : M (option DeclId) :=
  match t with
  | TyNominal d =>
      let* decl := getDecl d in
      if bool_decide (d_kind decl = ClassDecl) then ret (Some d) else ret None
  | _ => ret None
  end.

(** [ProtocolDecl::getSelf()->getDeclaredType()]: the implicit associated
    type [Self] among the members of the protocol. *)
Definition getProtocolSelfType (proto : DeclId) : M Ty :=
  let* p := getDecl proto in
  let* found :=
    foldM (λ (acc : option DeclId) (m : DeclId),
             match acc with
             | Some _ => ret acc
             | None =>
                 let* d := getDecl m in
                 if bool_decide (d_kind d = AssociatedTypeDecl)
                    && String.eqb (d_name d) "Self"
                 then ret (Some m) else ret None
             end) (d_members p) None in
  match found with
  | Some self => ret (TyArchetype self)
  | None => undefined
  end.

(** Retrieve the type of 'self' for the given context. *)
Definition getSelfTypeForContext (dc : DeclContext) : M (option Ty) :=
  match dc with
  | DCDecl d =>
      let* decl := getDecl d in
      (* For a protocol, the type is 'Self'. *)
      if bool_decide (d_kind decl = ProtocolDecl)
      then let* t := getProtocolSelfType d in ret (Some t)
      else getDeclaredTypeOfContext dc
  | _ => getDeclaredTypeOfContext dc
  end.

(** A null [Type] where the C++ needs a type. *)
Definition requireType (t : option Ty) : M Ty :=
  match t with
  | Some t => ret t
  | None => undefined
  end.

(** ** The declaration converter *)

Section Importer.
Context (ctx : ClangASTContext) (env : ImporterEnv).

Definition getCanonicalDecl (d : ClangDeclId) : ClangDeclId :=
  cd_canonicalDecl (getClangDecl ctx d).

(** [dyn_cast<clang::NamedDecl>]. *)
Definition isNamedDecl (d : ClangDeclId) : bool :=
  match cd_kind (getClangDecl ctx d) with
  | CK_Declined (K_TranslationUnit | K_LinkageSpec | K_FileScopeAsm
                | K_AccessSpec | K_Friend | K_FriendTemplate
                | K_StaticAssert | K_Block
                | K_ClassScopeFunctionSpecialization | K_Import
                | K_ObjCPropertyImpl) => false
  | _ => true
  end.

Definition isTranslationUnit (dc : ClangDC) : bool :=
  match dc with
  | DC_TranslationUnit => true
  | DC_Decl d =>
      match cd_kind (getClangDecl ctx d) with
      | CK_Declined K_TranslationUnit => true
      | _ => false
      end
  end.

(** [DeclContext::isFileContext]: a translation unit or a namespace. *)
Definition isFileContext (dc : ClangDC) : bool :=
  isTranslationUnit dc ||
  match dc with
  | DC_Decl d =>
      match cd_kind (getClangDecl ctx d) with
      | CK_Declined K_Namespace => true
      | _ => false
      end
  | _ => false
  end.

Definition isRecord (dc : ClangDC) : option ClangRecord :=
  match dc with
  | DC_Decl d =>
      match cd_kind (getClangDecl ctx d) with
      | CK_Record r => Some r
      | _ => None
      end
  | _ => None
  end.

Definition isObjCProtocolDecl (dc : ClangDC) : bool :=
  match dc with
  | DC_Decl d =>
      match cd_kind (getClangDecl ctx d) with
      | CK_ObjCProtocol _ => true
      | _ => false
      end
  | _ => false
  end.

Definition asObjCMethodDecl (d : ClangDeclId) : option ClangObjCMethod :=
  match cd_kind (getClangDecl ctx d) with
  | CK_ObjCMethod m => Some m
  | _ => None
  end.

Definition asObjCInterfaceDecl (d : ClangDeclId) : option ClangObjCContainer :=
  match cd_kind (getClangDecl ctx d) with
  | CK_ObjCInterface c => Some c
  | _ => None
  end.

(** The loop
    [while (!clangDC->isFileContext()) clangDC = clangDC->getParent();]
    with a bound on its iterations; the parent of the translation unit is
    null. *)
Fixpoint enclosingFileContext (fuel : nat) (clangDC : ClangDC) : M ClangDC :=
  if isFileContext clangDC then ret clangDC
  else
    match clangDC with
    | DC_TranslationUnit => undefined
    | DC_Decl d =>
        match fuel with
        | 0 => outOfFuel
        | S fuel' =>
            enclosingFileContext fuel' (cd_declContext (getClangDecl ctx d))
        end
    end.

Section Visitors.
(** [Impl.importDecl] and [Impl.importMirroredDecl], as the visitor calls
    them. *)
Context (importDecl : option ClangDeclId → M (option DeclId)).
Context (importMirroredDecl : option ClangDeclId → DeclContext →
                              M (option DeclId)).
(** The bound on the walks up the Clang AST. *)
Context (walk : nat).

Definition importDeclContext (dc : ClangDC) : M (option DeclContext) :=
  if isTranslationUnit dc then ret (Some (DCModule (firstClangModule env)))
  else
    match dc with
    | DC_TranslationUnit => ret None
    | DC_Decl decl =>
        if negb (isNamedDecl decl) then ret None
        else
          let* swiftDecl := importDecl (Some decl) in
          match swiftDecl with
          | None => ret None
          | Some swiftDecl =>
              let* d := getDecl swiftDecl in
              if isNominalTypeDecl (d_kind d) then ret (Some (DCDecl swiftDecl))
              else
                match d_kind d with
                | ExtensionDecl | ConstructorDecl | DestructorDecl =>
                    ret (Some (DCDecl swiftDecl))
                | _ => ret None
                end
          end
    end.

Definition importDeclContextOf (D : ClangDeclId) : M (option DeclContext) :=
  let DC := cd_declContext (getClangDecl ctx D) in
  match (if isTranslationUnit DC then getClangModuleForDecl env D else None) with
  | Some M => ret (Some (DCModule M))
  | None => importDeclContext DC
  end.

(** Modelled from the spec: translateType ([Impl.importType];
    lib/ClangImporter/ImportType.cpp is not among the sources).  The type
    of an enumeration follows its classification: a "bare constants"
    enumeration maps to no new type but to the translation of its
    underlying integer type, any other one to the type declared by the
    import of the enumeration.  A builtin type translates without
    importing a declaration; all other types are left to
    [importOtherType]. *)
Definition importType (ty : ClangType) (kind : ImportTypeKind)
  : M (option Ty) :=
  match ty with
  | CT_Builtin b => ret (importBuiltinType env b kind)
  | CT_Other n => importOtherType env importDecl n kind
  | CT_Enum clangEnum =>
      match classifyEnum ctx env clangEnum with
      | Constants =>
          match cd_kind (getClangDecl ctx clangEnum) with
          | CK_Enum e =>
              match enum_integerType e with
              | CT_Builtin b => ret (importBuiltinType env b kind)
              | CT_Other n => importOtherType env importDecl n kind
              | CT_Enum _ => ret None
              end
          | _ => ret None
          end
      | Options | Enum =>
          let* decl := importDecl (Some clangEnum) in
          match decl with
          | None => ret None
          | Some decl =>
              let* d := getDecl decl in
              if isNominalTypeDecl (d_kind d)
              then ret (Some (TyNominal decl)) else ret None
          end
      end
  end.

(** [new (context) VarDecl(loc, name, type, dc)]. *)
Definition newVarDecl (name : Identifier) (type : Ty) (dc : DeclContext)
  : M DeclId :=
  allocate (set_type (Some type) (defaultDecl VarDecl name dc)).

(** [FuncDecl::create(..., name, ..., type, argPatterns, bodyPatterns,
    resultTy, dc)]. *)
Definition newFuncDecl (name : Identifier) (type : Ty)
  (argPatterns bodyPatterns : list Pattern) (resultTy : Ty)
  (dc : DeclContext) : M DeclId :=
  allocate (set_bodyResultType (Some resultTy)
              (set_bodyParamPatterns bodyPatterns
                 (set_argParamPatterns argPatterns
                    (set_type (Some type) (defaultDecl FuncDecl name dc))))).

(** [func->makeGetter(decl)] and [func->makeSetter(decl)]. *)
Definition makeAccessor (func decl : DeclId) : M unit :=
  modifyDecl func (set_accessorOf (Some decl)).

(** [var->setComputedAccessors(context, loc, getter, setter, loc)]. *)
Definition setComputedAccessors (var : DeclId) (getter setter : option DeclId)
  : M unit :=
  modifyDecl var (λ d, addFlag Flag_Computed
                         (set_setter setter (set_getter getter d))).

Definition isNegativePrinted (printedValue : string) : bool :=
  match printedValue with
  | String c _ => bool_decide (c = "-"%char)
  | EmptyString => false
  end.

Definition eraseFirst (printedValue : string) : string :=
  match printedValue with
  | String _ rest => rest
  | EmptyString => EmptyString
  end.

(** The value declarations among [results] that are functions. *)
Definition foundFuncDecls (results : list (option DeclId)) : M (list DeclId) :=
  foldM (λ found result,
           match result with
           | None => ret found
           | Some v =>
               let* isFunc := isa FuncDecl v in
               if isFunc then ret (found ++ [v]) else ret found
           end) results [].

(** "If it was a negative number, negate the integer literal": the
    operator [-] is looked up in the Swift module; null when it is not
    found. *)
Definition negateLiteral (expr : Expr) : M (option Expr) :=
  let* st := getState in
  let lookup :=
    UnqualifiedLookup env (arena st) "-"%string (getSwiftModule env) in
  if bool_decide (lookup = []) then ret None
  else
    let* found := foundFuncDecls lookup in
    match found with
    | [] => ret None
    | [f] => ret (Some (PrefixUnaryExpr (DeclRefExpr f) expr))
    | _ => ret (Some (PrefixUnaryExpr (OverloadedDeclRefExpr found) expr))
    end.

(** The literal for a printed value: a leading '-' is recorded and stripped
    off, the expression node is created by [literal], and a negative number
    is negated. *)
Definition printedLiteral (printedValue : string) (literal : string → Expr)
  : M (option Expr) :=
  let isNegative := isNegativePrinted printedValue in
  let printedValueCopy :=
    if isNegative then eraseFirst printedValue else printedValue in
  let expr := literal printedValueCopy in
  if negb isNegative then ret (Some expr) else negateLiteral expr.

(** "If we need a conversion, add one now." *)
Definition convertConstant (convertKind : ConstantConvertKind) (type : Ty)
  (expr : Expr) : Expr :=
  match convertKind with
  | CCK_None => expr
  | CCK_Construction => CallExpr (MetatypeExpr (TyMetaType type)) expr
  | CCK_Coerce => expr
  | CCK_Downcast => UnconditionalCheckedCastExpr expr type Downcast
  end.

(** The [switch (value.getKind())] that creates the literal: the value is
    printed, and only integers and floats can be constants. *)
Definition valueLiteral (value : APValue) : M (option Expr) :=
  match value with
  | APValue_Int v => printedLiteral (pretty v) IntegerLiteralExpr
  | APValue_Float printed => printedLiteral printed FloatLiteralExpr
  | APValue_Other => undefined
  end.

Definition createConstant (name : Identifier) (dc : DeclContext) (type : Ty)
  (value : APValue) (convertKind : ConstantConvertKind) : M (option DeclId) :=
  let* var := newVarDecl name type dc in
  (* Form the argument patterns: the empty tuple. *)
  let getterArgs := [PTuple [] TupleType_getEmpty] in
  (* Form the type of the getter. *)
  let getterType :=
    foldr (λ arg t, TyFunction (Pattern_getType arg) t) type getterArgs in
  (* Create the getter function declaration. *)
  let* func := newFuncDecl ""%string getterType getterArgs getterArgs type dc in
  setVarDeclContexts getterArgs (DCDecl func);;
  (* Create the integer literal value: print the value. *)
  let* expr := valueLiteral value in
  match expr with
  | None => ret None
  | Some expr =>
      let expr := convertConstant convertKind type expr in
      (* Create the return statement.  Finally, set the body. *)
      modifyDecl func (set_body (Some [ReturnStmt (Some expr)]));;
      (* Write the function up as the getter. *)
      makeAccessor func var;;
      setComputedAccessors var (Some func) None;;
      (* Register this thunk as an external definition. *)
      addedExternalDecl func;;
      ret (Some var)
  end.

(** Create a constructor that initializes a struct from its members. *)
Definition createValueConstructor (structDecl : DeclId)
  (members : list DeclId) : M DeclId :=
  let name := "init"%string in
  (* Create the 'self' declaration. *)
  let selfType := TyNominal structDecl in
  let selfMetaType := TyMetaType selfType in
  let* selfDecl := newVarDecl "self"%string selfType (DCDecl structDecl) in
  (* Construct the set of parameters from the list of members. *)
  let* '(paramPatterns, tupleElts, params) :=
    foldM (λ '(paramPatterns, tupleElts, params) member,
             let* var := getDecl member in
             if bool_decide (d_kind var = VarDecl) && negb (isComputed var)
             then
               let* varTy := requireType (d_type var) in
               let* param := newVarDecl (d_name var) varTy (DCDecl structDecl) in
               let pattern := PTyped (PNamed param varTy) varTy in
               ret (paramPatterns ++ [pattern],
                    tupleElts ++ [(varTy, d_name var)],
                    params ++ [(member, param)])
             else ret (paramPatterns, tupleElts, params))
          members ([], [], []) in
  let paramTy := TyTuple tupleElts in
  let paramPattern := PTuple paramPatterns paramTy in
  (* Create the constructor, set its type. *)
  let fnTy := TyFunction paramTy selfType in
  let allocFnTy := TyFunction selfMetaType fnTy in
  let initFnTy := TyFunction selfType fnTy in
  let* constructor :=
    allocate (set_initializerType (Some initFnTy)
                (set_type (Some allocFnTy)
                   (set_implicitSelf (Some selfDecl)
                      (set_bodyParamPatterns [paramPattern]
                         (set_argParamPatterns [paramPattern]
                            (defaultDecl ConstructorDecl name
                                         (DCDecl structDecl))))))) in
  (* Fix the declaration contexts. *)
  modifyDecl selfDecl (set_declContext (DCDecl constructor));;
  setVarDeclContexts paramPatterns (DCDecl constructor);;
  (* Assign all of the member variables appropriately. *)
  let stmts :=
    map (λ '(var, param),
           ExprStmt (AssignExpr (MemberRefExpr (DeclRefExpr selfDecl) var)
                                (DeclRefExpr param))) params in
  (* Create the function body. *)
  modifyDecl constructor (set_body (Some stmts));;
  (* Add this as an external definition. *)
  addedExternalDecl constructor;;
  ret constructor.

(** [result->setClangNode(canon)]. *)
Definition setClangNode (result : DeclId) (canon : ClangDeclId) : M unit :=
  modifyDecl result (set_clangNode (Some canon)).

(** [decl->computeType()] on a nominal declaration. *)
Definition computeType (decl : DeclId) : M unit :=
  modifyDecl decl (set_type (Some (TyMetaType (TyNominal decl)))).

(** The visitor's result together with the converter's
    [forwardDeclaration] flag. *)
Definition Visited : Type := option DeclId * bool.

Definition declined : M Visited := ret (None, false).
Definition forwardDeclaration : M Visited := ret (None, true).
Definition imported (result : DeclId) : M Visited := ret (Some result, false).

(** The loop that imports each declaration of a list and keeps the
    non-null results, in order. *)
Definition importEach (decls : list ClangDeclId) : M (list DeclId) :=
  foldM (λ members m,
           let* member := importDecl (Some m) in
           match member with
           | None => ret members
           | Some member => ret (members ++ [member])
           end) decls [].

Definition VisitTypedefNameDecl (Decl : ClangDeclId)
  (underlyingType : ClangType) : M Visited :=
  let Name := importName env (cd_name (getClangDecl ctx Decl)) "" in
  if Identifier_empty Name then declined
  else
    let* DC := importDeclContextOf Decl in
    match DC with
    | None => declined
    | Some DC =>
        let finish (SwiftType : option Ty) : M Visited :=
          let* SwiftType :=
            match SwiftType with
            | Some t => ret (Some t)
            | None => importType underlyingType ITK_Normal
            end in
          match SwiftType with
          | None => declined
          | Some SwiftType =>
              let* alias :=
                allocate (set_type (Some SwiftType)
                            (defaultDecl TypeAliasDecl Name DC)) in
              imported alias
          end in
        if isTranslationUnit
             (getRedeclContext env (cd_declContext (getClangDecl ctx Decl)))
        then
          match getSwiftStdlibType ctx env underlyingType Name with
          | None => undefined
          | Some r =>
              if IsError r then declined
              else
                match stdlib_type r with
                | Some SwiftType =>
                    (* Note that this typedef-name is special. *)
                    modifyState (λ st,
                      set_SpecialTypedefNames
                        ({[Decl]} ∪ SpecialTypedefNames st) st);;
                    if String.eqb Name (stdlib_name r) then
                      (* Don't create an extra typealias in the imported
                         module: SwiftType->castTo<StructType>()->getDecl() *)
                      match SwiftType with
                      | TyNominal d =>
                          let* isStruct := isa StructDecl d in
                          if isStruct then imported d else undefined
                      | _ => undefined
                      end
                    else finish (Some SwiftType)
                | None => finish None
                end
          end
        else finish None
    end.

Definition VisitEnumDecl (decl : ClangDeclId) (e : ClangEnum) : M Visited :=
  match enum_definition e with
  | None => forwardDeclaration
  | Some decl =>
      match cd_kind (getClangDecl ctx decl) with
      | CK_Enum e =>
          let name := importTagName ctx env decl (enum_typedefNameForAnonDecl e) in
          if Identifier_empty name then declined
          else
            let* dc := importDeclContextOf decl in
            match dc with
            | None => declined
            | Some dc =>
                (* Create the enum declaration and record it. *)
                let record (result : DeclId) (enumDecl : option DeclId)
                  : M Visited :=
                  setImportedDecl (getCanonicalDecl decl) (Some result);;
                  setClangNode result (getCanonicalDecl decl);;
                  (* Import each of the enumerators. *)
                  let* members := importEach (enum_enumerators e) in
                  match enumDecl with
                  | Some enumDecl => modifyDecl enumDecl (set_members members)
                  | None => ret tt
                  end;;
                  imported result in
                match classifyEnum ctx env decl with
                | Constants =>
                    (* There is no declaration.  Rather, the type is mapped
                       to the underlying type. *)
                    declined
                | Options =>
                    let* structDecl :=
                      allocate (defaultDecl StructDecl name dc) in
                    computeType structDecl;;
                    (* Compute the underlying type of the enumeration. *)
                    let* underlyingType :=
                      importType (enum_integerType e) ITK_Normal in
                    match underlyingType with
                    | None => declined
                    | Some underlyingType =>
                        (* Create a variable to store the underlying value. *)
                        let* var := newVarDecl "value"%string underlyingType
                                               (DCDecl structDecl) in
                        (* Create a pattern binding to describe the
                           variable. *)
                        let varPattern :=
                          PTyped (PNamed var underlyingType) underlyingType in
                        let* patternBinding :=
                          allocate (set_argParamPatterns [varPattern]
                                      (defaultDecl PatternBindingDecl ""%string
                                                   (DCDecl structDecl))) in
                        (* Create a constructor to initialize that value from
                           a value of the underlying type. *)
                        let* constructor :=
                          createValueConstructor structDecl [var] in
                        (* Set the members of the struct. *)
                        modifyDecl structDecl
                          (set_members [constructor; patternBinding; var]);;
                        record structDecl None
                    end
                | Enum =>
                    let* enumDecl := allocate (defaultDecl EnumDecl name dc) in
                    record enumDecl (Some enumDecl)
                end
            end
      | _ => undefined
      end
  end.

Definition VisitRecordDecl (decl : ClangDeclId) (r : ClangRecord) : M Visited :=
  (* Skip unions for now. *)
  if rec_isUnion r then declined
  (* Skip Microsoft __interfaces. *)
  else if rec_isInterface r then declined
  (* The types of anonymous structs or unions are never imported; their
     fields are dumped directly into the enclosing class. *)
  else if rec_isAnonymousStructOrUnion r then declined
  else
    match rec_definition r with
    | None => forwardDeclaration
    | Some decl =>
        match cd_kind (getClangDecl ctx decl) with
        | CK_Record r =>
            let name :=
              importTagName ctx env decl (rec_typedefNameForAnonDecl r) in
            if Identifier_empty name then declined
            else
              let* dc := importDeclContextOf decl in
              match dc with
              | None => declined
              | Some dc =>
                  (* Create the struct declaration and record it. *)
                  let* result := allocate (defaultDecl StructDecl name dc) in
                  computeType result;;
                  setImportedDecl (getCanonicalDecl decl) (Some result);;
                  setClangNode result (getCanonicalDecl decl);;
                  (* Import each of the members.  Skip anonymous structs or
                     unions; they'll be dealt with via the
                     IndirectFieldDecls. *)
                  let named :=
                    List.filter (λ m,
                      isNamedDecl m &&
                      match cd_kind (getClangDecl ctx m) with
                      | CK_Field f | CK_ObjCIvar f =>
                          negb (field_isAnonymousStructOrUnion f)
                      | _ => true
                      end) (rec_decls r) in
                  let* members := importEach named in
                  modifyDecl result (set_members members);;
                  (* Add the struct decl to ExternalDefinitions so that
                     IRGen can emit metadata for it. *)
                  addedExternalDecl result;;
                  imported result
              end
        | _ => undefined
        end
    end.

Definition VisitEnumConstantDecl (decl : ClangDeclId) (initVal : Z)
  : M Visited :=
  let name := importName env (cd_name (getClangDecl ctx decl)) "" in
  if Identifier_empty name then declined
  else
    (* cast<clang::EnumDecl>(decl->getDeclContext()) *)
    match cd_declContext (getClangDecl ctx decl) with
    | DC_TranslationUnit => undefined
    | DC_Decl clangEnum =>
        match cd_kind (getClangDecl ctx clangEnum) with
        | CK_Enum _ =>
            (* The two cases that create a global constant differ in the
               conversion only. *)
            let constant (convertKind : ConstantConvertKind) : M Visited :=
              (* These should be able to end up in a record, but Swift
                 can't represent that now. *)
              let* clangDC :=
                enclosingFileContext walk
                  (cd_declContext (getClangDecl ctx clangEnum)) in
              (* The context where the constant will be introduced. *)
              let* dc := importDeclContext clangDC in
              match dc with
              | None => declined
              | Some dc =>
                  (* Enumeration type. *)
                  let* type := importType (getTagDeclType clangEnum) ITK_Normal in
                  match type with
                  | None => declined
                  | Some type =>
                      (* Importing the type can recursively revisit this
                         same EnumConstantDecl.  Short-circuit out if we
                         already emitted the import for this decl. *)
                      let* known := findImportedDecl (getCanonicalDecl decl) in
                      match known with
                      | Some known => ret (known, false)
                      | None =>
                          (* Create the global constant. *)
                          let* result :=
                            createConstant name dc type (APValue_Int initVal)
                                           convertKind in
                          setImportedDecl (getCanonicalDecl decl) result;;
                          ret (result, false)
                      end
                  end
              end in
            match classifyEnum ctx env clangEnum with
            | Constants =>
                (* The enumeration was simply mapped to an integral type.
                   Create a constant with that integral type. *)
                constant CCK_Coerce
            | Options =>
                (* The enumeration was mapped to a struct containing the
                   integral type.  Create a constant with that struct
                   type. *)
                constant CCK_Construction
            | Enum =>
                (* The enumeration was mapped to a Swift enum.  Create an
                   element of that enum. *)
                let* dc := importDeclContextOf decl in
                match dc with
                | None => declined
                | Some dc =>
                    let* known := findImportedDecl (getCanonicalDecl decl) in
                    match known with
                    | Some known => ret (known, false)
                    | None =>
                        let* element :=
                          allocate (defaultDecl EnumElementDecl name dc) in
                        (* Give the enum element the appropriate type. *)
                        match dc with
                        | DCDecl theEnum =>
                            let* isEnum := isa EnumDecl theEnum in
                            if isEnum then
                              let argTy := TyMetaType (TyNominal theEnum) in
                              modifyDecl element
                                (set_type (Some (TyFunction argTy
                                                   (TyNominal theEnum))));;
                              setImportedDecl (getCanonicalDecl decl)
                                              (Some element);;
                              imported element
                            else undefined
                        | DCModule _ => undefined
                        end
                    end
                end
            end
        | _ => undefined
        end
    end.

Definition VisitIndirectFieldDecl (decl : ClangDeclId)
  (chain : list ClangDeclId) (type : ClangType) : M Visited :=
  (* Check whether the context of any of the fields in the chain is a
     union.  If so, don't import this field. *)
  if existsb (λ f,
                match isRecord (cd_declContext (getClangDecl ctx f)) with
                | Some record => rec_isUnion record
                | None => false
                end) chain
  then declined
  else
    let name := importName env (cd_name (getClangDecl ctx decl)) "" in
    if Identifier_empty name then declined
    else
      let* type := importType type ITK_Normal in
      match type with
      | None => declined
      | Some type =>
          let* dc := importDeclContextOf decl in
          match dc with
          | None => declined
          | Some dc =>
              (* Map this indirect field to a Swift variable. *)
              let* var := newVarDecl name type dc in
              imported var
          end
      end.

Definition VisitFunctionDecl (decl : ClangDeclId) (f : ClangFunction)
  : M Visited :=
  let decl := fn_mostRecentDecl f in
  match cd_kind (getClangDecl ctx decl) with
  | CK_Function f =>
      (* We can't import a function without a prototype. *)
      if negb (fn_hasPrototype f) then declined
      (* We can't IRgen inline functions, so don't import them. *)
      else if fn_isInlined f || cd_alwaysInline (getClangDecl ctx decl)
      then declined
      else
        let* dc := importDeclContextOf decl in
        match dc with
        | None => declined
        | Some dc =>
            (* Import the function type. *)
            let* '(type, argPatterns, bodyPatterns) :=
              importFunctionType env importDecl (fn_resultType f)
                (fn_params f) (fn_isVariadic f) [] [] None false in
            match type with
            | None => declined
            | Some type =>
                let* '(_, resultTy) := castToFunctionType type in
                let name :=
                  importName env (cd_name (getClangDecl ctx decl)) "" in
                if Identifier_empty name then declined
                else
                  let* result :=
                    newFuncDecl name type argPatterns bodyPatterns resultTy dc in
                  setVarDeclContexts argPatterns (DCDecl result);;
                  setVarDeclContexts bodyPatterns (DCDecl result);;
                  imported result
            end
        end
  | _ => undefined
  end.

Definition VisitFieldDecl (decl : ClangDeclId) (f : ClangField) : M Visited :=
  (* Fields are imported as variables. *)
  let name := importName env (cd_name (getClangDecl ctx decl)) "" in
  if Identifier_empty name then declined
  else
    let* type := importType (field_type f) ITK_Normal in
    match type with
    | None => declined
    | Some type =>
        let* dc := importDeclContextOf decl in
        match dc with
        | None => declined
        | Some dc =>
            let* result := newVarDecl name type dc in
            (* Handle attributes. *)
            when (cd_IBOutlet (getClangDecl ctx decl))
                 (modifyDecl result (addFlag Attr_IBOutlet));;
            imported result
        end
    end.

Definition VisitVarDecl (decl : ClangDeclId) (type : ClangType) : M Visited :=
  (* Swift does not have static variables in structs/classes yet. *)
  if bool_decide (is_Some (isRecord (cd_declContext (getClangDecl ctx decl))))
  then declined
  else
    (* Variables are imported as... variables. *)
    let name := importName env (cd_name (getClangDecl ctx decl)) "" in
    if Identifier_empty name then declined
    else
      let* type := importType type ITK_Normal in
      match type with
      | None => declined
      | Some type =>
          let* dc := importDeclContextOf decl in
          match dc with
          | None => declined
          | Some dc =>
              let* var := newVarDecl name type dc in
              imported var
          end
      end.

(** Add the implicit 'self' pattern to the given list of patterns. *)
Definition addImplicitSelfParameter (selfTy : Ty) (args : list Pattern)
  : M (DeclId * list Pattern) :=
  let* selfVar :=
    newVarDecl "self"%string selfTy (DCModule (firstClangModule env)) in
  let selfPat := PTyped (PNamed selfVar selfTy) selfTy in
  ret (selfVar, args ++ [selfPat]).

(** The index pattern of a thunk: a clone of [indices] inside a
    one-element tuple. *)
Definition cloneIndices (indices : Pattern) : M Pattern :=
  (* Clone the indices for the thunk. *)
  let* indices := Pattern_clone indices in
  let* boundName := Pattern_getBoundName indices in
  ret (PTuple [indices] (TyTuple [(Pattern_getType indices, boundName)])).

(** Build a thunk for an Objective-C getter.  [indices], if non-null, are
    the indices for a subscript getter; null indicates a getter thunk for
    a property getter. *)
Definition buildGetterThunk (getter : option DeclId) (dc : DeclContext)
  (indices : option Pattern) : M DeclId :=
  match getter with
  | None => undefined
  | Some getter =>
      let* g := getDecl getter in
      (* Figure out the element type, by looking through 'self' and the
         normal parameters. *)
      let* gTy := requireType (d_type g) in
      let* '(_, gRes) := castToFunctionType gTy in
      let* '(_, elementTy) := castToFunctionType gRes in
      (* Form the argument patterns: 'self' *)
      let* selfTy := getDeclaredTypeOfContext dc in
      let* selfTy := requireType selfTy in
      let* '(_, getterArgs) := addImplicitSelfParameter selfTy [] in
      (* index, for subscript operations. *)
      let* getterArgs :=
        match indices with
        | Some indices =>
            let* pat := cloneIndices indices in ret (getterArgs ++ [pat])
        | None => ret getterArgs
        end in
      (* empty tuple *)
      let getterArgs := getterArgs ++ [PTuple [] TupleType_getEmpty] in
      (* Form the type of the getter. *)
      let getterType :=
        foldr (λ arg t, TyFunction (Pattern_getType arg) t)
              elementTy getterArgs in
      (* Create the getter thunk. *)
      let* thunk := newFuncDecl ""%string getterType getterArgs getterArgs
                                elementTy (d_declContext g) in
      setVarDeclContexts getterArgs (DCDecl thunk);;
      modifyDecl thunk (addFlag Flag_IsObjC);;
      ret thunk
  end.

(** Build a thunk for an Objective-C setter.  Objective-C subscript
    setters are imported with a function type such as
    [(this) -> (value, index) -> ()] while Swift subscript setters are
    curried as [(this) -> (index)(value) -> ()]. *)
Definition buildSetterThunk (setter : DeclId) (dc : DeclContext)
  (indices : option Pattern) : M DeclId :=
  let* s := getDecl setter in
  (* cast<TuplePattern>(setter->getBodyParamPatterns()[1]) *)
  let* tuple :=
    match d_bodyParamPatterns s !! 1 with
    | Some (PTuple fields _) => ret fields
    | _ => undefined
    end in
  (* Form the argument patterns: 'self' *)
  let* selfTy := getDeclaredTypeOfContext dc in
  let* selfTy := requireType selfTy in
  let* '(_, setterArgs) := addImplicitSelfParameter selfTy [] in
  (* index, for subscript operations. *)
  let* setterArgs :=
    match indices with
    | Some indices =>
        let* pat := cloneIndices indices in ret (setterArgs ++ [pat])
    | None => ret setterArgs
    end in
  (* value *)
  let* valuePattern :=
    match tuple !! 0 with
    | Some p => Pattern_clone p
    | None => undefined
    end in
  let* valueName := Pattern_getBoundName valuePattern in
  let setterArgs :=
    setterArgs ++
    [PTuple [valuePattern]
            (TyTuple [(Pattern_getType valuePattern, valueName)])] in
  (* Form the type of the setter. *)
  let setterType :=
    foldr (λ arg t, TyFunction (Pattern_getType arg) t)
          TupleType_getEmpty setterArgs in
  (* Create the setter thunk. *)
  let* thunk := newFuncDecl ""%string setterType setterArgs setterArgs
                            TupleType_getEmpty dc in
  setVarDeclContexts setterArgs (DCDecl thunk);;
  modifyDecl thunk (addFlag Flag_IsObjC);;
  ret thunk.

(** The accessor that goes with the one being imported: looked up on the
    interface and imported. *)
Definition importCounterpart (interface : ClangDeclId) (sel : Selector)
  : M (option DeclId) :=
  match lookupMethod ctx interface sel true with
  | Some objcAccessor =>
      let* accessor := importDecl (Some objcAccessor) in
      cast_or_null FuncDecl accessor
  | None => ret None
  end.

(** "Find the setter ... Don't allow static setters." *)
Definition findSetter (interface : ClangDeclId) (sel : Selector)
  : M (option DeclId) :=
  let* setter := importCounterpart interface sel in
  match setter with
  | Some s =>
      let* d := getDecl s in
      if isStatic d then ret None else ret (Some s)
  | None => ret None
  end.

(** "Find the getter ... Don't allow static getters ... Swift doesn't
    have write-only subscripting": null when the subscript is given
    up. *)
Definition findGetter (interface : ClangDeclId) (sel : Selector)
  : M (option DeclId) :=
  let* getter := importCounterpart interface sel in
  match getter with
  | Some g =>
      let* d := getDecl g in
      if isStatic d then ret None else ret (Some g)
  | None => ret None
  end.

(** The first subscript among the results of the lookup whose index
    types, labels aside, are those of [indicesTy]. *)
Definition findOverriddenSubscript (lookup : list DeclId) (indicesTy : Ty)
  : M (option DeclId) :=
  foldM (λ (found : option DeclId) result,
           match found with
           | Some _ => ret found
           | None =>
               let* parentSub := getDecl result in
               if negb (bool_decide (d_kind parentSub = SubscriptDecl))
               then ret None
               else
                 let unlabeledIndices := getUnlabeledType indicesTy in
                 match d_argParamPatterns parentSub !! 0 with
                 | None => undefined
                 | Some parentIndices =>
                     if Ty_isEqual unlabeledIndices
                          (getUnlabeledType (Pattern_getType parentIndices))
                     then ret (Some result) else ret None
                 end
           end) lookup None.

(** What the first part of [importSubscript] settles: the getter and the
    setter (which can be null), or that there is no subscript. *)
Definition subscriptAccessors (decl : DeclId) (selector : Selector)
  (interface : ClangDeclId) : M (option (DeclId * option DeclId)) :=
  if bool_decide (selector = objectAtIndexedSubscript) then
    (* getter = cast<FuncDecl>(decl); find the setter *)
    let* setter := findSetter interface setObjectAtIndexedSubscript in
    ret (Some (decl, setter))
  else if bool_decide (selector = setObjectAtIndexedSubscript) then
    (* setter = cast<FuncDecl>(decl); find the getter *)
    let* getter := findGetter interface objectAtIndexedSubscript in
    match getter with
    | Some getter => ret (Some (getter, Some decl))
    | None => ret None
    end
  else if bool_decide (selector = objectForKeyedSubscript) then
    let* setter := findSetter interface setObjectForKeyedSubscript in
    ret (Some (decl, setter))
  else if bool_decide (selector = setObjectForKeyedSubscript) then
    let* getter := findGetter interface objectForKeyedSubscript in
    match getter with
    | Some getter => ret (Some (getter, Some decl))
    | None => ret None
    end
  else undefined.

(** Given either the getter or setter for a subscript operation, create
    the Swift subscript declaration. *)
Definition importSubscript (decl : DeclId) (objcMethod : ClangObjCMethod)
  (dc : DeclContext) : M (option DeclId) :=
  if negb (meth_isInstanceMethod objcMethod) then undefined
  else
  match meth_classInterface objcMethod with
  | None => ret None
  | Some interface =>
  let* isFunc := isa FuncDecl decl in
  if negb isFunc then undefined else
  let* accessors :=
    subscriptAccessors decl (meth_selector objcMethod) interface in
  match accessors with
  | None => ret None
  | Some (getter, setter) =>
  (* Check whether we've already created a subscript operation for this
     getter/setter pair. *)
  let* known := indexSubscripts (Some getter, setter) in
  match known with
  | Some subscript => ret (Some subscript)
  | None =>
  (* Compute the element type, looking through the implicit 'self'
     parameter and the normal function parameters. *)
  let* g := getDecl getter in
  let* gTy := requireType (d_type g) in
  let* '(_, gRes) := castToFunctionType gTy in
  let* '(_, elementTy) := castToFunctionType gRes in
  (* Find the getter indices and make sure they match. *)
  let* getterArg :=
    match d_argParamPatterns g !! 1 with
    | Some p => ret p
    | None => undefined
    end in
  let tuple := asTuplePattern getterArg in
  if bool_decide (is_Some tuple ∧ length (default [] tuple) ≠ 1)
  then ret None else
  let* getterIndices :=
    match tuple with
    | Some (p :: _) => ret p
    | _ => undefined
    end in
  (* Check the form of the setter. *)
  let* setterIndices :=
    match setter with
    | None => ret (Some None)
    | Some setter =>
        let* s := getDecl setter in
        let* setterArg :=
          match d_bodyParamPatterns s !! 1 with
          | Some p => ret p
          | None => undefined
          end in
        match asTuplePattern setterArg with
        | None => ret None
        | Some [value; index] =>
            (* The setter must accept elements of the same type as the
               getter returns. *)
            if negb (Ty_isEqual elementTy (Pattern_getType value))
            then ret None
            (* The setter must use the same indices as the getter. *)
            else if negb (Ty_isEqual (Pattern_getType index)
                                     (Pattern_getType getterIndices))
            then ret None
            else ret (Some (Some index))
        | Some _ => ret None
        end
    end in
  match setterIndices with
  | None => ret None
  | Some setterIndices =>
  let* getterThunk := buildGetterThunk (Some getter) dc (Some getterIndices) in
  let* setterThunk :=
    match setter, setterIndices with
    | Some setter, Some setterIndices =>
        let* t := buildSetterThunk setter dc (Some setterIndices) in
        ret (Some t)
    | _, _ => ret None
    end in
  (* Build the subscript declaration. *)
  let* gt := getDecl getterThunk in
  let* argPatterns :=
    match d_argParamPatterns gt !! 1 with
    | Some p => Pattern_clone p
    | None => undefined
    end in
  let name := "__subscript"%string in
  let* subscript :=
    allocate (set_setter setterThunk
                (set_getter (Some getterThunk)
                   (set_bodyResultType (Some elementTy)
                      (set_argParamPatterns [argPatterns]
                         (defaultDecl SubscriptDecl name dc))))) in
  setVarDeclContexts [argPatterns] dc;;
  modifyDecl subscript
    (set_type (Some (TyFunction (Pattern_getType argPatterns) elementTy)));;
  makeAccessor getterThunk subscript;;
  match setterThunk with
  | Some setterThunk => makeAccessor setterThunk subscript
  | None => ret tt
  end;;
  modifyDecl subscript (addFlag Flag_IsObjC);;
  (* Determine whether this subscript operation overrides another
     subscript operation. *)
  let* containerTy := getDeclaredTypeOfContext dc in
  let* st := getState in
  let lookup := lookupQualified env (arena st) containerTy name in
  let* parentSub :=
    findOverriddenSubscript lookup (Pattern_getType argPatterns) in
  match parentSub with
  | Some parentSub =>
      (* The index types match.  This is an override, so mark it as
         such. *)
      modifyDecl subscript (set_overridden (Some parentSub));;
      let* parent := getDecl parentSub in
      match d_getter parent with
      | Some parentGetter =>
          modifyDecl getterThunk (set_overridden (Some parentGetter))
      | None => ret tt
      end;;
      match d_setter parent, setterThunk with
      | Some parentSetter, Some setterThunk =>
          modifyDecl setterThunk (set_overridden (Some parentSetter))
      | _, _ => ret tt
      end
  | None => ret tt
  end;;
  (* Note that we've created this subscript. *)
  setSubscripts (Some getter, setter) subscript;;
  setSubscripts (Some getterThunk, None) subscript;;
  ret (Some subscript)
  end end end end.

(** Given an imported method, try to import it as a constructor. *)
Definition importConstructor (decl : DeclId) (objcMethodId : ClangDeclId)
  (objcMethod : ClangObjCMethod) (dc : DeclContext) : M (option DeclId) :=
  (* Figure out the type of the container. *)
  let* containerTy := getDeclaredTypeOfContext dc in
  let* containerTy := requireType containerTy in
  (* Only methods in the 'init' family can become constructors. *)
  match meth_family objcMethod with
  | OMF_init =>
      if negb (isReallyInitMethod objcMethod) then undefined else
      (* Make sure we have a usable 'alloc' method.  Otherwise, we can't
         build this constructor anyway. *)
      let* interface :=
        if isObjCProtocolDecl (cd_declContext (getClangDecl ctx objcMethodId))
        then
          (* For a protocol method, look into the context in which we'll
             be mirroring the method to find 'alloc'. *)
          let* classDecl := getAsClassDecl containerTy in
          match classDecl with
          | None => ret None
          | Some classDecl =>
              let* c := getDecl classDecl in
              match d_clangNode c with
              | Some i =>
                  if bool_decide (is_Some (asObjCInterfaceDecl i))
                  then ret (Some i) else ret None
              | None => ret None
              end
          end
        else
          (* For non-protocol methods, just look for the interface. *)
          ret (meth_classInterface objcMethod) in
      match interface with
      | None => ret None
      | Some interface =>
      (* Find the 'alloc' class method. *)
      match lookupMethod ctx interface (getNullarySelector "alloc") false with
      | None => ret None
      | Some allocMethod =>
      (* Import the 'alloc' class method. *)
      let* alloc := importDecl (Some allocMethod) in
      let* alloc := cast_or_null FuncDecl alloc in
      match alloc with
      | None => ret None
      | Some alloc =>
      let name := "init"%string in
      (* Add the implicit 'self' parameter patterns. *)
      let* selfTy := getSelfTypeForContext dc in
      let* selfTy := requireType selfTy in
      let selfMetaTy := TyMetaType selfTy in
      let* selfMetaVar :=
        newVarDecl "self"%string selfMetaTy (DCModule (firstClangModule env)) in
      let selfPat := PTyped (PNamed selfMetaVar selfMetaTy) selfMetaTy in
      (* Import the type that this method will have. *)
      let* '(type, argPatterns, bodyPatterns) :=
        importFunctionType env importDecl (meth_resultType objcMethod)
          (meth_params objcMethod) (meth_isVariadic objcMethod)
          [selfPat] [selfPat] (Some (meth_selector objcMethod)) true in
      let* type := requireType type in
      (* A constructor returns an object of the type, not 'id'. *)
      let* '(input, _) := castToFunctionType type in
      let type := TyFunction input selfTy in
      (* Add the 'self' parameter to the function types. *)
      let allocType := TyFunction selfMetaTy type in
      let initType := TyFunction selfTy type in
      let* selfVar := newVarDecl "self"%string selfTy dc in
      (* Create the actual constructor. *)
      match last argPatterns, last bodyPatterns with
      | Some argPattern, Some bodyPattern =>
          let* result :=
            allocate
              (set_allocSelfExpr
                 (* Call alloc on the metatype, then cast the result to
                    'self'. *)
                 (Some (UnconditionalCheckedCastExpr
                          (CallExpr
                             (DotSyntaxCallExpr (DeclRefExpr alloc)
                                                (MetatypeExpr selfMetaTy))
                             (TupleExpr []))
                          selfTy Downcast))
                 (set_clangNode (Some objcMethodId)
                    (addFlag Flag_IsObjC
                       (set_initializerType (Some initType)
                          (set_type (Some allocType)
                             (set_implicitSelf (Some selfVar)
                                (set_bodyParamPatterns [bodyPattern]
                                   (set_argParamPatterns [argPattern]
                                      (defaultDecl ConstructorDecl name dc))))))))) in
          modifyDecl selfVar (set_declContext (DCDecl result));;
          setVarDeclContexts argPatterns (DCDecl result);;
          setVarDeclContexts bodyPatterns (DCDecl result);;
          (* Inform the context that we have external definitions. *)
          addedExternalDecl result;;
          ret (Some result)
      | _, _ => undefined
      end
      end end end
  | _ => undefined   (* "Caller did not filter non-constructor methods" *)
  end.

(** Given an imported method, try to import it as some kind of special
    declaration, e.g., a constructor or subscript. *)
Definition importSpecialMethod (decl : DeclId) (dc : DeclContext)
  : M (option DeclId) :=
  (* Check whether there's a method associated with this declaration. *)
  let* d := getDecl decl in
  match d_clangNode d with
  | None => ret None
  | Some objcMethodId =>
      match asObjCMethodDecl objcMethodId with
      | None => ret None
      | Some objcMethod =>
          (* Only consider Objective-C methods... *)
          match meth_family objcMethod with
          | OMF_None =>
              (* Check for one of the subscripting selectors. *)
              if meth_isInstanceMethod objcMethod
                 && (bool_decide (meth_selector objcMethod = objectAtIndexedSubscript)
                     || bool_decide (meth_selector objcMethod = setObjectAtIndexedSubscript)
                     || bool_decide (meth_selector objcMethod = objectForKeyedSubscript)
                     || bool_decide (meth_selector objcMethod = setObjectForKeyedSubscript))
              then importSubscript decl objcMethod dc
              else ret None
          | OMF_init =>
              (* An init instance method can be a constructor. *)
              if isReallyInitMethod objcMethod
              then importConstructor decl objcMethodId objcMethod dc
              else ret None
          | _ =>
              (* None of these methods have special consideration. *)
              ret None
          end
      end
  end.

Definition VisitObjCMethodDecl_in (decl : ClangDeclId)
  (m : ClangObjCMethod) (dc : DeclContext) : M (option DeclId) :=
  (* The name of the method is the first part of the selector. *)
  let name :=
    importName env (getIdentifierInfoForSlot (meth_selector m) 0) "" in
  if Identifier_empty name then ret None
  else
    (* assert(dc->getDeclaredTypeOfContext() && "Method in non-type context?") *)
    let* declared := getDeclaredTypeOfContext dc in
    let* _ := requireType declared in
    (* Add the implicit 'self' parameter patterns. *)
    let* selfTy := getSelfTypeForContext dc in
    let* selfTy := requireType selfTy in
    let selfTy :=
      if negb (meth_isInstanceMethod m) then TyMetaType selfTy else selfTy in
    let* selfVar :=
      newVarDecl "self"%string selfTy (DCModule (firstClangModule env)) in
    let selfPat := PTyped (PNamed selfVar selfTy) selfTy in
    (* Import the type that this method will have. *)
    let* '(type, argPatterns, bodyPatterns) :=
      importFunctionType env importDecl (meth_resultType m) (meth_params m)
        (meth_isVariadic m) [selfPat] [selfPat] (Some (meth_selector m))
        false in
    match type with
    | None => ret None
    | Some type =>
        let* '(_, resultTy) := castToFunctionType type in
        (* Add the 'self' parameter to the function type. *)
        let type := TyFunction selfTy type in
        let* result :=
          newFuncDecl name type argPatterns bodyPatterns resultTy dc in
        setVarDeclContexts argPatterns (DCDecl result);;
        setVarDeclContexts bodyPatterns (DCDecl result);;
        (* Mark this as an Objective-C method. *)
        modifyDecl result (λ d, addFlag Flag_IsObjC (addFlag Attr_ObjC d));;
        (* Mark class methods as static. *)
        when (negb (meth_isInstanceMethod m))
             (modifyDecl result (addFlag Flag_Static));;
        (* If this method overrides another method, mark it as such. *)
        let* selfClass := getAsClassDecl selfTy in
        match selfClass with
        | None => ret tt
        | Some selfClass =>
            let* c := getDecl selfClass in
            match d_superclass c with
            | None => ret tt
            | Some superTy =>
                let* superDecl := getAsClassDecl superTy in
                match superDecl with
                | None => undefined   (* superTy->castTo<ClassType>() *)
                | Some superDecl =>
                    let* s := getDecl superDecl in
                    match d_clangNode s with
                    | None => ret tt
                    | Some superObjCClass =>
                        if negb (bool_decide
                                   (is_Some (asObjCInterfaceDecl superObjCClass)))
                        then ret tt
                        else
                          match lookupMethod ctx superObjCClass
                                  (meth_selector m) (meth_isInstanceMethod m) with
                          | None => ret tt
                          | Some superObjCMethod =>
                              (* We found a method that we've overridden.
                                 Import it. *)
                              let* superMethod :=
                                if isObjCProtocolDecl
                                     (cd_declContext
                                        (getClangDecl ctx superObjCMethod))
                                then importMirroredDecl (Some superObjCMethod)
                                                        (DCDecl superDecl)
                                else importDecl (Some superObjCMethod) in
                              let* superMethod :=
                                cast_or_null FuncDecl superMethod in
                              match superMethod with
                              | Some superMethod =>
                                  modifyDecl result
                                    (set_overridden (Some superMethod))
                              | None => ret tt
                              end
                          end
                    end
                end
            end
        end;;
        (* Handle attributes. *)
        when (cd_IBAction (getClangDecl ctx decl))
             (modifyDecl result (addFlag Attr_IBAction));;
        (* Check whether there's some special method to import. *)
        setClangNode result (getCanonicalDecl decl);;
        let* known := indexImportedDecl (getCanonicalDecl decl) in
        when (negb (bool_decide (is_Some known)))
             (setImportedDecl (getCanonicalDecl decl) (Some result));;
        (if negb (bool_decide (meth_family m = OMF_init))
            || negb (isReallyInitMethod m)
         then let* _ := importSpecialMethod result dc in ret tt
         else ret tt);;
        ret (Some result)
    end.

Definition VisitObjCMethodDecl (decl : ClangDeclId) (m : ClangObjCMethod)
  : M (option DeclId) :=
  let* dc := importDeclContextOf decl in
  match dc with
  | None => ret None
  | Some dc => VisitObjCMethodDecl_in decl m dc
  end.

(** Import the given Objective-C protocol list: the implicit protocols of
    a nominal declaration first, then the imports of the Clang protocols,
    without repetition. *)
Definition importObjCProtocols (decl : DeclId)
  (clangProtocols : list ClangDeclId) : M (list DeclId) :=
  let* d := getDecl decl in
  let* st := getState in
  let protocols :=
    if isNominalTypeDecl (d_kind d)
    then getImplicitProtocols env (arena st) decl else [] in
  foldM (λ (protocols : list DeclId) cp,
           let* proto := importDecl (Some cp) in
           let* proto := cast_or_null ProtocolDecl proto in
           match proto with
           | Some proto =>
               if bool_decide (proto ∈ protocols) then ret protocols
               else ret (protocols ++ [proto])
           | None => ret protocols
           end) clangProtocols protocols.

(** One turn of the loop of [importObjCMembers]: [m] is the declaration
    of the container at hand, [knownMembers] and [members] are the set
    and the list the loop has built so far. *)
Definition importObjCMember (swiftContext : DeclContext)
  (acc : list DeclId * list DeclId) (m : ClangDeclId)
  : M (list DeclId * list DeclId) :=
  let '(knownMembers, members) := acc in
  if negb (isNamedDecl m) then ret acc
  else
    let* member := importDecl (Some m) in
    match member with
    | None => ret acc
    | Some member =>
        match asObjCMethodDecl m with
        | None => ret (knownMembers, members ++ [member])
        | Some objcMethod =>
            (* If this member is a method that is a getter or setter for a
               property that was imported, don't add it to the list of
               members so it won't be found by name lookup. *)
            let* property :=
              match meth_propertyDecl objcMethod with
              | Some property => importDecl (Some property)
              | None => ret None
              end in
            if bool_decide (is_Some property) then ret acc
            else
              (* If there is a special declaration associated with this
                 member, add it now. *)
              let* special := importSpecialMethod member swiftContext in
              match special with
              | Some special =>
                  let '(knownMembers, members) :=
                    if bool_decide (special ∈ knownMembers)
                    then (knownMembers, members)
                    else (special :: knownMembers, members ++ [special]) in
                  (* If we imported a constructor, the underlying init
                     method is not visible. *)
                  let* isCtor := isa ConstructorDecl special in
                  if isCtor then ret (knownMembers, members)
                  else ret (knownMembers, members ++ [member])
              | None => ret (knownMembers, members ++ [member])
              end
        end
    end.

(** Import members of the given Objective-C container and add them to the
    list of corresponding Swift members. *)
Definition importObjCMembers (decls : list ClangDeclId)
  (swiftContext : DeclContext) (members : list DeclId) : M (list DeclId) :=
  let* '(_, members) :=
    foldM (importObjCMember swiftContext) decls ([], members) in
  ret members.

(** Import the members of all of the protocols to which the given
    Objective-C class, category, or extension explicitly conforms into
    the given list of members, so long as the the method was not already
    declared in the class. *)
Definition importMirroredProtocolMembers (decl : ClangDeclId)
  (dc : DeclContext) (protocols : list DeclId) (members : list DeclId)
  : M (list DeclId) :=
  foldM (λ members proto,
    let* p := getDecl proto in
    foldM (λ members member,
      let* func := getDecl member in
      if negb (bool_decide (d_kind func = FuncDecl)) then ret members
      else
        match d_clangNode func with
        | None => ret members
        | Some objcMethodId =>
            match asObjCMethodDecl objcMethodId with
            | None => ret members
            | Some objcMethod =>
                if bool_decide
                     (is_Some (getMethod ctx decl (meth_selector objcMethod)
                                         (meth_isInstanceMethod objcMethod)))
                then ret members
                else
                  let* imported :=
                    importMirroredDecl (Some objcMethodId) dc in
                  match imported with
                  | None => ret members
                  | Some imported =>
                      let members := members ++ [imported] in
                      (* Import any special methods based on this
                         member. *)
                      let* special := importSpecialMethod imported dc in
                      match special with
                      | Some special => ret (members ++ [special])
                      | None => ret members
                      end
                  end
            end
        end) (d_members p) members) protocols members.

(** Determine whether the given Objective-C class has an instance or
    class method with the given selector directly declared (i.e., not in
    a superclass or protocol). *)
Definition hasMethodShallow (sel : Selector) (isInstance : bool)
  (objcClass : ClangDeclId) (c : ClangObjCContainer) : bool :=
  bool_decide (is_Some (getMethod ctx objcClass sel isInstance))
  || existsb (λ cat, bool_decide (is_Some (getMethod ctx cat sel isInstance)))
             (objc_visibleCategories c).

Definition containerDecls (container : ClangDeclId) : list ClangDeclId :=
  match cd_kind (getClangDecl ctx container) with
  | CK_ObjCCategory c | CK_ObjCProtocol c | CK_ObjCInterface c => objc_decls c
  | _ => []
  end.

(** The body of the lambda [inheritConstructors]: the methods of
    [container], in order. *)
Definition inheritConstructors (objcClass : ClangDeclId)
  (c : ClangObjCContainer) (dc : DeclContext)
  (acc : list Selector * list DeclId) (container : ClangDeclId)
  : M (list Selector * list DeclId) :=
  foldM (λ '(knownSelectors, members) meth,
    match asObjCMethodDecl meth with
    | None => ret (knownSelectors, members)
    | Some m =>
        if bool_decide (meth_family m = OMF_init)
           && isReallyInitMethod m
           && negb (hasMethodShallow (meth_selector m)
                                     (meth_isInstanceMethod m) objcClass c)
           && negb (bool_decide (meth_selector m ∈ knownSelectors))
        then
          let knownSelectors := meth_selector m :: knownSelectors in
          let* imported := importDecl (Some meth) in
          match imported with
          | None => ret (knownSelectors, members)
          | Some imported =>
              let* special := importConstructor imported meth m dc in
              match special with
              | Some special => ret (knownSelectors, members ++ [special])
              | None => ret (knownSelectors, members)
              end
          end
        else ret (knownSelectors, members)
    end) (containerDecls container) acc.

(** The loop over [curObjCClass] and its superclasses, with a bound on
    its iterations. *)
Fixpoint inheritFromClasses (fuel : nat) (objcClass : ClangDeclId)
  (c : ClangObjCContainer) (dc : DeclContext)
  (curObjCClass : option ClangDeclId) (acc : list Selector * list DeclId)
  : M (list Selector * list DeclId) :=
  match curObjCClass with
  | None => ret acc
  | Some cur =>
      match fuel with
      | 0 => outOfFuel
      | S fuel' =>
          match asObjCInterfaceDecl cur with
          | None => undefined
          | Some curC =>
              let* acc := inheritConstructors objcClass c dc acc cur in
              let* acc :=
                foldM (inheritConstructors objcClass c dc)
                      (objc_visibleCategories curC) acc in
              inheritFromClasses fuel' objcClass c dc (objc_superClass curC) acc
          end
      end
  end.

(** Import constructors from our superclasses (and their
    categories/extensions), effectively "inheriting" constructors. *)
Definition importInheritedConstructors (objcClass : ClangDeclId)
  (c : ClangObjCContainer) (dc : DeclContext) (members : list DeclId)
  : M (list DeclId) :=
  let* '(_, members) :=
    inheritFromClasses walk objcClass c dc (Some objcClass) ([], members) in
  ret members.

Definition VisitObjCCategoryDecl (decl : ClangDeclId)
  (c : ClangObjCContainer) : M Visited :=
  (* Objective-C categories and extensions map to Swift extensions.
     Find the Swift class being extended. *)
  let* objcClass := importDecl (objc_classInterface c) in
  let* objcClass := cast_or_null ClassDecl objcClass in
  match objcClass with
  | None => declined
  | Some objcClass =>
      let* dc := importDeclContextOf decl in
      match dc with
      | None => declined
      | Some dc =>
          (* Create the extension declaration and record it. *)
          let* result :=
            allocate (set_type (Some (TyNominal objcClass))
                        (defaultDecl ExtensionDecl ""%string dc)) in
          modifyDecl objcClass
            (λ d, set_extensions (d_extensions d ++ [result]) d);;
          setImportedDecl (getCanonicalDecl decl) (Some result);;
          setClangNode result (getCanonicalDecl decl);;
          let* protocols :=
            importObjCProtocols result (objc_referencedProtocols c) in
          modifyDecl result (set_protocols protocols);;
          modifyDecl result (addFlag Flag_CheckedInheritanceClause);;
          (* Import each of the members. *)
          let* members := importObjCMembers (objc_decls c) (DCDecl result) [] in
          (* Import mirrored declarations for protocols to which this
             category or extension conforms. *)
          let* r := getDecl result in
          let* members :=
            importMirroredProtocolMembers decl (DCDecl result)
                                          (d_protocols r) members in
          modifyDecl result (set_members members);;
          imported result
      end
  end.

Definition VisitObjCProtocolDecl (decl : ClangDeclId)
  (c : ClangObjCContainer) : M Visited :=
  match objc_definition c with
  | None => forwardDeclaration
  | Some decl =>
      match cd_kind (getClangDecl ctx decl) with
      | CK_ObjCProtocol c =>
          (* Append "Proto" to protocol names. *)
          let name :=
            importName env (cd_name (getClangDecl ctx decl)) "Proto" in
          if Identifier_empty name then declined
          else
            let* dc := importDeclContextOf decl in
            match dc with
            | None => declined
            | Some dc =>
                (* Create the protocol declaration and record it. *)
                let* result := allocate (defaultDecl ProtocolDecl name dc) in
                computeType result;;
                setImportedDecl (getCanonicalDecl decl) (Some result);;
                setClangNode result (getCanonicalDecl decl);;
                modifyDecl result (addFlag Flag_CircularityChecked);;
                (* Import protocols this protocol conforms to. *)
                let* protocols :=
                  importObjCProtocols result (objc_referencedProtocols c) in
                modifyDecl result (set_protocols protocols);;
                modifyDecl result (addFlag Flag_CheckedInheritanceClause);;
                (* Note that this is an Objective-C and class protocol. *)
                modifyDecl result
                  (λ d, addFlag Flag_IsObjC
                          (addFlag Attr_ClassProtocol (addFlag Attr_ObjC d)));;
                (* Add the implicit 'Self' associated type. *)
                let* selfDecl :=
                  allocate (addFlag Flag_Implicit
                              (defaultDecl AssociatedTypeDecl "Self"%string
                                           (DCDecl result))) in
                modifyDecl selfDecl (set_type (Some (TyArchetype selfDecl)));;
                modifyDecl result (set_members [selfDecl]);;
                (* Import each of the members. *)
                let* members :=
                  importObjCMembers (objc_decls c) (DCDecl result) [selfDecl] in
                modifyDecl result (set_members members);;
                (* Add the protocol decl to ExternalDefinitions so that
                   IRGen can emit metadata for it. *)
                addedExternalDecl result;;
                imported result
            end
      | _ => undefined
      end
  end.

Definition VisitObjCInterfaceDecl (decl : ClangDeclId)
  (c : ClangObjCContainer) : M Visited :=
  match objc_definition c with
  | None => forwardDeclaration
  | Some decl =>
      match cd_kind (getClangDecl ctx decl) with
      | CK_ObjCInterface c =>
          let name := importName env (cd_name (getClangDecl ctx decl)) "" in
          if Identifier_empty name then declined
          else
            let* dc := importDeclContextOf decl in
            match dc with
            | None => declined
            | Some dc =>
                (* Create the class declaration and record it. *)
                let* result := allocate (defaultDecl ClassDecl name dc) in
                computeType result;;
                setImportedDecl (getCanonicalDecl decl) (Some result);;
                setClangNode result (getCanonicalDecl decl);;
                modifyDecl result (addFlag Flag_CircularityChecked);;
                (* If this Objective-C class has a supertype, import it. *)
                let* superOk :=
                  match objc_superClass c with
                  | Some objcSuper =>
                      let* super := importDecl (Some objcSuper) in
                      let* super := cast_or_null ClassDecl super in
                      match super with
                      | None => ret false
                      | Some super =>
                          modifyDecl result
                            (set_superclass (Some (TyNominal super)));;
                          ret true
                      end
                  | None => ret true
                  end in
                if negb superOk then declined
                else
                  (* Import protocols this class conforms to. *)
                  let* protocols :=
                    importObjCProtocols result (objc_referencedProtocols c) in
                  modifyDecl result (set_protocols protocols);;
                  modifyDecl result (addFlag Flag_CheckedInheritanceClause);;
                  (* Note that this is an Objective-C class. *)
                  modifyDecl result
                    (λ d, addFlag Flag_IsObjC (addFlag Attr_ObjC d));;
                  (* Import each of the members. *)
                  let* members :=
                    importObjCMembers (objc_decls c) (DCDecl result) [] in
                  (* Import inherited constructors. *)
                  let* members :=
                    importInheritedConstructors decl c (DCDecl result) members in
                  (* Import mirrored declarations for protocols to which
                     this class conforms. *)
                  let* r := getDecl result in
                  let* members :=
                    importMirroredProtocolMembers decl (DCDecl result)
                                                  (d_protocols r) members in
                  modifyDecl result (set_members members);;
                  (* Pass the class to the type checker to create an
                     implicit destructor. *)
                  addedExternalDecl result;;
                  imported result
            end
      | _ => undefined
      end
  end.

Definition VisitObjCPropertyDecl (decl : ClangDeclId)
  (p : ClangObjCProperty) : M Visited :=
  (* For now, don't import properties in protocols, because IRGen can't
     handle the thunks we generate. *)
  if isObjCProtocolDecl (cd_declContext (getClangDecl ctx decl))
  then declined
  else
    let* dc := importDeclContextOf decl in
    match dc with
    | None => declined
    | Some dc =>
        let name := importName env (cd_name (getClangDecl ctx decl)) "" in
        if Identifier_empty name then declined
        else
          (* Check whether there is a function with the same name as this
             property.  If so, suppress the property. *)
          let* containerTy := getDeclaredTypeOfContext dc in
          let* st := getState in
          let lookup := lookupQualified env (arena st) containerTy name in
          let* scan :=
            foldM (λ '(isFunc, overridden) result,
                     if (isFunc : bool) then ret (isFunc, overridden)
                     else
                       let* d := getDecl result in
                       if bool_decide (d_kind d = FuncDecl)
                       then ret (true, overridden)
                       else if bool_decide (d_kind d = VarDecl)
                       then ret (false, Some result)
                       else ret (false, overridden))
                  lookup (false, None) in
          let '(isFunc, overridden) := scan in
          if isFunc then declined
          else
            let* type := importType (prop_type p) ITK_Property in
            match type with
            | None => declined
            | Some type =>
                (* Import the getter. *)
                let* getter := importDecl (prop_getterMethodDecl p) in
                let* getter := cast_or_null FuncDecl getter in
                if negb (bool_decide (is_Some getter))
                   && bool_decide (is_Some (prop_getterMethodDecl p))
                then declined
                else
                  (* Import the setter, if there is one. *)
                  let* setter := importDecl (prop_setterMethodDecl p) in
                  let* setter := cast_or_null FuncDecl setter in
                  if negb (bool_decide (is_Some setter))
                     && bool_decide (is_Some (prop_setterMethodDecl p))
                  then declined
                  else
                    let* result := newVarDecl name type dc in
                    (* Build thunks. *)
                    let* getterThunk := buildGetterThunk getter dc None in
                    makeAccessor getterThunk result;;
                    let* setterThunk :=
                      match setter with
                      | Some setter =>
                          let* t := buildSetterThunk setter dc None in
                          makeAccessor t result;;
                          ret (Some t)
                      | None => ret None
                      end in
                    (* Turn this into a computed property. *)
                    setComputedAccessors result (Some getterThunk) setterThunk;;
                    modifyDecl result (addFlag Flag_IsObjC);;
                    (* Handle attributes. *)
                    when (cd_IBOutlet (getClangDecl ctx decl))
                         (modifyDecl result (addFlag Attr_IBOutlet));;
                    match overridden with
                    | Some overridden =>
                        modifyDecl result (set_overridden (Some overridden))
                    | None => ret tt
                    end;;
                    imported result
            end
    end.

(** [converter.Visit(decl)]: the dispatch on the kind of [decl], with the
    converter's [forwardDeclaration] flag after the visit. *)
Definition Visit (decl : ClangDeclId) : M Visited :=
  match cd_kind (getClangDecl ctx decl) with
  | CK_Declined _ => declined
  | CK_TypedefName underlying => VisitTypedefNameDecl decl underlying
  | CK_Enum e => VisitEnumDecl decl e
  | CK_Record r => VisitRecordDecl decl r
  | CK_EnumConstant initVal => VisitEnumConstantDecl decl initVal
  | CK_IndirectField chain ty => VisitIndirectFieldDecl decl chain ty
  | CK_Function f => VisitFunctionDecl decl f
  | CK_Field f | CK_ObjCIvar f => VisitFieldDecl decl f
  | CK_Var ty => VisitVarDecl decl ty
  | CK_ObjCMethod m =>
      let* result := VisitObjCMethodDecl decl m in ret (result, false)
  | CK_ObjCCategory c => VisitObjCCategoryDecl decl c
  | CK_ObjCProtocol c => VisitObjCProtocolDecl decl c
  | CK_ObjCInterface c => VisitObjCInterfaceDecl decl c
  | CK_ObjCProperty p => VisitObjCPropertyDecl decl p
  end.
End Visitors.

(** ** The entry points *)

(** "Note that the decl was imported from Clang": the assertion and the
    [setClangNode] on a non-null result. *)
Definition noteImported (result canon : ClangDeclId) : M unit :=
  let* d := getDecl result in
  match d_clangNode d with
  | Some c => if bool_decide (c = canon) then ret tt else undefined
  | None => ret tt
  end;;
  setClangNode result canon.

(** [Implementation::importDecl], given the visitor to run on a miss. *)
Definition importDeclWith (visit : ClangDeclId → M Visited)
  (decl : option ClangDeclId) : M (option DeclId) :=
  match decl with
  | None => ret None
  | Some decl =>
      let* known := findImportedDecl (getCanonicalDecl decl) in
      match known with
      | Some known => ret known
      | None =>
          let* '(result, hadForwardDeclaration) := visit decl in
          let canon := getCanonicalDecl decl in
          (* Note that the decl was imported from Clang.  Don't mark stdlib
             decls as imported. *)
          match result with
          | Some r =>
              let* d := getDecl r in
              if bool_decide (Some (d_declContext d)
                              = DCModule <$> getSwiftModule env)
              then ret tt
              else noteImported r canon
          | None => ret tt
          end;;
          when (bool_decide (is_Some result) || negb hadForwardDeclaration)
               (setImportedDecl canon result);;
          ret result
      end
  end.

(** [Implementation::importMirroredDecl], given the visitor of methods. *)
Definition importMirroredDeclWith
  (visit : ClangDeclId → ClangObjCMethod → DeclContext → M (option DeclId))
  (decl : option ClangDeclId) (dc : DeclContext) : M (option DeclId) :=
  match decl with
  | None => ret None
  | Some decl =>
      let* known := findImportedProtocolDecl (getCanonicalDecl decl, dc) in
      match known with
      | Some known => ret known
      | None =>
          match asObjCMethodDecl decl with
          | None => undefined
          | Some m =>
              let* result := visit decl m dc in
              let canon := getCanonicalDecl decl in
              match result with
              | Some r => noteImported r canon
              | None => ret tt
              end;;
              (* the converter has seen no forward declaration *)
              setImportedProtocolDecl (canon, dc) result;;
              ret result
          end
      end
  end.

(** The importer with a bound [fuel] on the depth of its recursion through
    [importDecl] and [importMirroredDecl]. *)
Fixpoint importDecl (fuel : nat) (decl : option ClangDeclId)
  : M (option DeclId) :=
  importDeclWith
    (match fuel with
     | 0 => λ _, outOfFuel
     | S fuel' => Visit (importDecl fuel') (importMirroredDecl fuel') fuel'
     end) decl
with importMirroredDecl (fuel : nat) (decl : option ClangDeclId)
  (dc : DeclContext) : M (option DeclId) :=
  importMirroredDeclWith
    (match fuel with
     | 0 => λ _ _ _, outOfFuel
     | S fuel' =>
         VisitObjCMethodDecl_in (importDecl fuel') (importMirroredDecl fuel')
     end) decl dc.
End Importer.

(** * Sample inputs *)

(** Small Clang ASTs and a simple set of collaborators, on which the
    importer is run in the statements below. *)
Module Samples.
Definition clangDecl (kind : ClangKind) (name : option string)
  (dc : ClangDC) (canon : ClangDeclId) : ClangDecl :=
  mkClangDecl kind name dc canon false false false.

(** What an id that the sample does not use stands for. *)
Definition unused : ClangDecl :=
  clangDecl (CK_Declined K_Import) None DC_TranslationUnit 0.

(** The queries of Clang over a table of declarations and a table of
    methods ([lookupMethod] and [getMethod] agree in the samples).  Every
    type is a 32 bit signed integer. *)
Definition sampleContext (decls : ClangDeclId → ClangDecl)
  (methods : ClangDeclId → Selector → bool → option ClangDeclId)
  : ClangASTContext :=
  {| getClangDecl := decls; LangOpts_ObjC1 := true;
     getTypeSize := λ _, 32%N;
     isUnsignedIntegerType := λ _, false;
     isSignedIntegerType := λ _, true;
     isFloatingType := λ _, false;
     getFloatTypeSemantics := λ _, Bogus;
     hasSameType_ObjCBuiltinBoolTy := λ _, false;
     getAsPointerType := λ _, None;
     isSpecificBuiltinType_ObjCSel := λ _, false;
     lookupMethod := methods; getMethod := methods |}.

Definition noMethods : ClangDeclId → Selector → bool → option ClangDeclId :=
  λ _ _ _, None.

(** A function type importer for the samples: every parameter must have a
    builtin type; the parameters become one tuple pattern, with variables
    of their own for the argument and for the body patterns. *)
Definition sampleParamPattern (params : list ClangParam)
  : M (option (list Pattern * list (Ty * Identifier))) :=
  foldM (λ acc p,
           match acc, param_type p with
           | Some (pats, elts), CT_Builtin b =>
               let name := default ""%string (param_name p) in
               let* var := allocate (set_type (Some (TyBuiltin b))
                                       (defaultDecl VarDecl name (DCModule 0))) in
               ret (Some (pats ++ [PTyped (PNamed var (TyBuiltin b)) (TyBuiltin b)],
                          elts ++ [(TyBuiltin b, name)]))
           | _, _ => ret None
           end) params (Some ([], [])).

Definition sampleFunctionType
  (importDecl : option ClangDeclId → M (option DeclId))
  (resultType : ClangType) (params : list ClangParam) (isVariadic : bool)
  (argPatterns bodyPatterns : list Pattern) (selector : option Selector)
  (isConstructor : bool) : M (option Ty * list Pattern * list Pattern) :=
  match resultType with
  | CT_Builtin r =>
      let* args := sampleParamPattern params in
      let* body := sampleParamPattern params in
      match args, body with
      | Some (apats, elts), Some (bpats, _) =>
          ret (Some (TyFunction (TyTuple elts) (TyBuiltin r)),
               argPatterns ++ [PTuple apats (TyTuple elts)],
               bodyPatterns ++ [PTuple bpats (TyTuple elts)])
      | _, _ => ret (None, argPatterns, bodyPatterns)
      end
  | _ => ret (None, argPatterns, bodyPatterns)
  end.

(** The table of well-known types of the samples. *)
Definition sampleMappedTypes : list MappedType :=
  [ MAP_TYPE "int32_t" SignedInt 32 "swift" "Int32" 1 false;
    MAP_TYPE "SEL" ObjCSel 0 "ObjectiveC" "ObjCSel" 1 false ].

(** Names import as they are; declarations at the top level belong to
    module 0, which is also [firstClangModule]; the standard library is
    module 1 and is the only module there is. *)
Definition sampleEnv : ImporterEnv :=
  {| importName := λ name suffix,
       match name with
       | Some n => (n +:+ suffix)%string
       | None => ""%string
       end;
     firstClangModule := 0;
     getSwiftModule := Some 1;
     getNamedModule := λ _, None;
     getNamedSwiftType := λ _ _, None;
     getClangModuleForDecl := λ _, Some 0;
     MappedTypes := sampleMappedTypes;
     MappedLanguages_ObjC1 := 1;
     MappedLanguages_All := 3;
     importBuiltinType := λ b _, Some (TyBuiltin b);
     importOtherType := λ _ _ _, ret None;
     importFunctionType := sampleFunctionType;
     lookupQualified := λ _ _ _, [];
     UnqualifiedLookup := λ _ _ _, [];
     getImplicitProtocols := λ _ _, [];
     getRedeclContext := λ dc, dc |}.

(** The importer before any import. *)
Definition initialState : ImporterState :=
  {| arena := []; ImportedDecls := ∅; ImportedProtocolDecls := ∅;
     Subscripts := ∅; SpecialTypedefNames := ∅; ExternalDecls := [] |}.

(** [enum Color { Red = 0, Green = 1, Blue = 2 };] *)
Definition colorDecls (d : ClangDeclId) : ClangDecl :=
  match d with
  | 0 => clangDecl (CK_Enum (mkClangEnum (Some 0) None (CT_Builtin 0) [1; 2; 3]))
                   (Some "Color"%string) DC_TranslationUnit 0
  | 1 => clangDecl (CK_EnumConstant 0) (Some "Red"%string) (DC_Decl 0) 1
  | 2 => clangDecl (CK_EnumConstant 1) (Some "Green"%string) (DC_Decl 0) 2
  | 3 => clangDecl (CK_EnumConstant 2) (Some "Blue"%string) (DC_Decl 0) 3
  | _ => unused
  end.
Definition colorContext := sampleContext colorDecls noMethods.

(** [struct Point;] and, later, [struct Point { int x; };]: declaration 0
    is the forward declaration and the canonical one, declaration 1 the
    definition. *)
Definition pointRecord (definition : option ClangDeclId) (decls : list ClangDeclId)
  : ClangKind :=
  CK_Record (mkClangRecord false false false definition None decls).
Definition pointDefinedDecls (d : ClangDeclId) : ClangDecl :=
  match d with
  | 0 => clangDecl (pointRecord (Some 1) []) (Some "Point"%string)
                   DC_TranslationUnit 0
  | 1 => clangDecl (pointRecord (Some 1) [2]) (Some "Point"%string)
                   DC_TranslationUnit 0
  | 2 => clangDecl (CK_Field (mkClangField (CT_Builtin 0) false))
                   (Some "x"%string) (DC_Decl 1) 2
  | _ => unused
  end.
Definition pointDefinedContext := sampleContext pointDefinedDecls noMethods.

(** [union U;] and, later, [union U { int x; };]. *)
Definition unionRecord (definition : option ClangDeclId) (decls : list ClangDeclId)
  : ClangKind :=
  CK_Record (mkClangRecord true false false definition None decls).
Definition unionDefinedDecls (d : ClangDeclId) : ClangDecl :=
  match d with
  | 0 => clangDecl (unionRecord (Some 0) [1]) (Some "U"%string)
                   DC_TranslationUnit 0
  | 1 => clangDecl (CK_Field (mkClangField (CT_Builtin 0) false))
                   (Some "x"%string) (DC_Decl 0) 1
  | _ => unused
  end.
Definition unionDefinedContext := sampleContext unionDefinedDecls noMethods.
(** An interface [Container] (declaration 0) with
    [-(id)objectAtIndexedSubscript:(NSInteger)idx] (declaration 1) and
    [-(void)setObject:(id)obj atIndexedSubscript:(NSInteger)idx]
    (declaration 2).  The builtin types 0, 7 and 9 stand for [NSInteger],
    [id] and [void]. *)
Definition instanceMethod (sel : Selector) (family : ObjCMethodFamily)
  (result : ClangType) (params : list ClangParam)
  (property : option ClangDeclId) : ClangKind :=
  CK_ObjCMethod (mkClangObjCMethod sel true family result params false
                                   (Some 0) property).
Definition classMethod (sel : Selector) (family : ObjCMethodFamily)
  (result : ClangType) : ClangKind :=
  CK_ObjCMethod (mkClangObjCMethod sel false family result [] false
                                   (Some 0) None).
Definition interface (decls : list ClangDeclId) : ClangKind :=
  CK_ObjCInterface (mkClangObjCContainer (Some 0) None None [] decls []).
Definition indexedGetter : ClangKind :=
  instanceMethod objectAtIndexedSubscript OMF_None (CT_Builtin 7)
    [mkClangParam (Some "idx"%string) (CT_Builtin 0)] None.
Definition indexedSetter : ClangKind :=
  instanceMethod setObjectAtIndexedSubscript OMF_None (CT_Builtin 9)
    [mkClangParam (Some "obj"%string) (CT_Builtin 7);
     mkClangParam (Some "idx"%string) (CT_Builtin 0)] None.
Definition containerDecls (d : ClangDeclId) : ClangDecl :=
  match d with
  | 0 => clangDecl (interface [1; 2]) (Some "Container"%string)
                   DC_TranslationUnit 0
  | 1 => clangDecl indexedGetter None (DC_Decl 0) 1
  | 2 => clangDecl indexedSetter None (DC_Decl 0) 2
  | _ => unused
  end.
Definition containerMethods (i : ClangDeclId) (sel : Selector) (isInstance : bool)
  : option ClangDeclId :=
  if bool_decide (i = 0) && isInstance then
    if bool_decide (sel = objectAtIndexedSubscript) then Some 1
    else if bool_decide (sel = setObjectAtIndexedSubscript) then Some 2
    else None
  else None.
Definition containerContext := sampleContext containerDecls containerMethods.

(** The same interface without the getter. *)
Definition writeOnlyDecls (d : ClangDeclId) : ClangDecl :=
  match d with
  | 0 => clangDecl (interface [2]) (Some "Container"%string)
                   DC_TranslationUnit 0
  | 2 => clangDecl indexedSetter None (DC_Decl 0) 2
  | _ => unused
  end.
Definition writeOnlyMethods (i : ClangDeclId) (sel : Selector) (isInstance : bool)
  : option ClangDeclId :=
  if bool_decide (i = 0) && isInstance
     && bool_decide (sel = setObjectAtIndexedSubscript)
  then Some 2 else None.
Definition writeOnlyContext := sampleContext writeOnlyDecls writeOnlyMethods.

(** An interface [Widget] (declaration 0) with a property [size]
    (declaration 1), its getter [-size] (declaration 2), the initializer
    [-initWithSize:] (declaration 3), the class method [+alloc]
    (declaration 4) and the plain method [-reset] (declaration 5). *)
Definition widgetDecls (d : ClangDeclId) : ClangDecl :=
  match d with
  | 0 => clangDecl (interface [1; 2; 3; 4; 5]) (Some "Widget"%string)
                   DC_TranslationUnit 0
  | 1 => clangDecl (CK_ObjCProperty
                      (mkClangObjCProperty (CT_Builtin 0) (Some 2) None))
                   (Some "size"%string) (DC_Decl 0) 1
  | 2 => clangDecl (instanceMethod (mkSelector 0 [Some "size"%string]) OMF_None
                      (CT_Builtin 0) [] (Some 1)) None (DC_Decl 0) 2
  | 3 => clangDecl (instanceMethod (mkSelector 1 [Some "initWithSize"%string])
                      OMF_init (CT_Builtin 7)
                      [mkClangParam (Some "size"%string) (CT_Builtin 0)] None)
                   None (DC_Decl 0) 3
  | 4 => clangDecl (classMethod (getNullarySelector "alloc") OMF_alloc
                      (CT_Builtin 7)) None (DC_Decl 0) 4
  | 5 => clangDecl (instanceMethod (mkSelector 0 [Some "reset"%string]) OMF_None
                      (CT_Builtin 9) [] None) None (DC_Decl 0) 5
  | _ => unused
  end.
Definition widgetMethods (i : ClangDeclId) (sel : Selector) (isInstance : bool)
  : option ClangDeclId :=
  if bool_decide (i = 0) then
    if isInstance then
      if bool_decide (sel = mkSelector 0 [Some "size"%string]) then Some 2
      else if bool_decide (sel = mkSelector 1 [Some "initWithSize"%string])
      then Some 3
      else if bool_decide (sel = mkSelector 0 [Some "reset"%string]) then Some 5
      else None
    else if bool_decide (sel = getNullarySelector "alloc") then Some 4
    else None
  else None.
Definition widgetContext := sampleContext widgetDecls widgetMethods.

(** A record [Outer] (declaration 0) whose member is the enumeration
    [Mode] (declaration 1) with the enumerator [Fast = 1] (declaration 2).
    The context of [Mode] is the record, as for a nested enumeration of
    C++. *)
Definition nestedDecls (d : ClangDeclId) : ClangDecl :=
  match d with
  | 0 => clangDecl (CK_Record (mkClangRecord false false false (Some 0) None [1]))
                   (Some "Outer"%string) DC_TranslationUnit 0
  | 1 => clangDecl (CK_Enum (mkClangEnum (Some 1) None (CT_Builtin 0) [2]))
                   (Some "Mode"%string) (DC_Decl 0) 1
  | 2 => clangDecl (CK_EnumConstant 1) (Some "Fast"%string) (DC_Decl 1) 2
  | _ => unused
  end.
Definition nestedContext := sampleContext nestedDecls noMethods.

(** The same record with an enumeration that has no name:
    [struct Outer { enum { Fast = 1 }; };]. *)
Definition anonymousDecls (d : ClangDeclId) : ClangDecl :=
  match d with
  | 0 => clangDecl (CK_Record (mkClangRecord false false false (Some 0) None [1]))
                   (Some "Outer"%string) DC_TranslationUnit 0
  | 1 => clangDecl (CK_Enum (mkClangEnum (Some 1) None (CT_Builtin 0) [2]))
                   None (DC_Decl 0) 1
  | 2 => clangDecl (CK_EnumConstant 1) (Some "Fast"%string) (DC_Decl 1) 2
  | _ => unused
  end.
Definition anonymousContext := sampleContext anonymousDecls noMethods.

(** An interface [Box] (declaration 0) that conforms to the protocol
    [Sizable] (declaration 2) and declares the class method [+alloc]
    (declaration 1); the protocol declares [-initWithSize:]
    (declaration 3), the interface does not. *)
Definition sizableDecls (d : ClangDeclId) : ClangDecl :=
  match d with
  | 0 => clangDecl (CK_ObjCInterface
                      (mkClangObjCContainer (Some 0) None None [2] [1] []))
                   (Some "Box"%string) DC_TranslationUnit 0
  | 1 => clangDecl (classMethod (getNullarySelector "alloc") OMF_alloc
                      (CT_Builtin 7)) None (DC_Decl 0) 1
  | 2 => clangDecl (CK_ObjCProtocol
                      (mkClangObjCContainer (Some 2) None None [] [3] []))
                   (Some "Sizable"%string) DC_TranslationUnit 2
  | 3 => clangDecl (CK_ObjCMethod
                      (mkClangObjCMethod
                         (mkSelector 1 [Some "initWithSize"%string]) true
                         OMF_init (CT_Builtin 7)
                         [mkClangParam (Some "size"%string) (CT_Builtin 0)]
                         false None None))
                   None (DC_Decl 2) 3
  | _ => unused
  end.
Definition sizableMethods (i : ClangDeclId) (sel : Selector) (isInstance : bool)
  : option ClangDeclId :=
  if bool_decide (i = 0) && negb isInstance
     && bool_decide (sel = getNullarySelector "alloc") then Some 1
  else if bool_decide (i = 2) && isInstance
          && bool_decide (sel = mkSelector 1 [Some "initWithSize"%string])
  then Some 3
  else None.
Definition sizableContext := sampleContext sizableDecls sizableMethods.
End Samples.

(** * Properties *)

(** ** Selector words *)

Lemma string_get_None (s : string) (n : nat) :
  String.get n s = None ↔ String.length s ≤ n.
Proof.
  revert n; induction s as [|a s IH]; intros [|n]; simpl; try (split; [lia|done]).
  - split; [done|lia].
  - rewrite IH. lia.
Qed.

Lemma string_prefix_length (w s : string) :
  String.prefix w s = true → String.length w ≤ String.length s.
Proof.
  revert s; induction w as [|a w IH]; intros [|b s]; simpl; try lia; try done.
  destruct (ascii_dec a b); [|done]. intros H%IH. lia.
Qed.

(** [startsWithWord name word] holds exactly when [word] is a prefix of
    [name] and the character of [name] that follows it, if any, is not a
    lowercase letter. *)
Lemma startsWithWord_spec (name word : string) :
  startsWithWord name word = true ↔
  String.prefix word name = true ∧
  ∀ c, String.get (String.length word) name = Some c → islower c = false.
Proof.
  unfold startsWithWord. split.
  - destruct (Nat.ltb_spec (String.length name) (String.length word)); [done|].
    intros [Hnext Hpre]%andb_true_iff. split; [done|]. intros c Hc.
    apply orb_true_iff in Hnext as [Heq%Nat.eqb_eq|Hlow].
    + assert (String.get (String.length word) name = None) as Hn
        by (apply string_get_None; lia).
      congruence.
    + rewrite Hc in Hlow. by apply negb_true_iff.
  - intros [Hpre Hnext]. pose proof (string_prefix_length _ _ Hpre) as Hlen.
    destruct (Nat.ltb_spec (String.length name) (String.length word)); [lia|].
    rewrite Hpre, andb_true_r.
    destruct (String.get (String.length word) name) as [c|] eqn:Hc.
    + rewrite (Hnext c eq_refl). apply orb_true_r.
    + apply string_get_None in Hc. apply orb_true_iff. left.
      apply Nat.eqb_eq. lia.
Qed.

(** C3.  An Objective-C method is "really an initializer" if and only if it
    is an instance method, the first component of its selector is not null,
    that component starts with the characters "init", and the character that
    follows "init" in it, if there is one, is not a lowercase letter.  In
    particular an instance method whose first selector component is
    "initialize" is not recognized, and one whose first component is
    "initWithCapacity" is. *)
Theorem isReallyInitMethod_iff :
  (∀ m : ClangObjCMethod,
     isReallyInitMethod m = true ↔
     meth_isInstanceMethod m = true ∧
     ∃ first : string,
       getIdentifierInfoForSlot (meth_selector m) 0 = Some first ∧
       String.prefix "init" first = true ∧
       ∀ c, String.get 4 first = Some c → islower c = false) ∧
  (∀ m : ClangObjCMethod,
     getIdentifierInfoForSlot (meth_selector m) 0 = Some "initialize"%string →
     isReallyInitMethod m = false) ∧
  (∀ m : ClangObjCMethod,
     meth_isInstanceMethod m = true →
     getIdentifierInfoForSlot (meth_selector m) 0
     = Some "initWithCapacity"%string →
     isReallyInitMethod m = true).
Proof.
  split; [|split].
  - intros m. unfold isReallyInitMethod.
    destruct (meth_isInstanceMethod m); simpl.
    + destruct (getIdentifierInfoForSlot (meth_selector m) 0) as [first|].
      * rewrite (startsWithWord_spec first "init"). simpl String.length.
        split.
        -- intros [? ?]. split; [done|]. by exists first.
        -- intros [_ (f & [= <-] & ? & ?)]. done.
      * split; [done|]. by intros [_ (f & [=] & _)].
    + split; [done|]. by intros [[=] _].
  - intros m Hslot. unfold isReallyInitMethod. rewrite Hslot.
    by destruct (meth_isInstanceMethod m).
  - intros m Hinst Hslot. unfold isReallyInitMethod. by rewrite Hinst, Hslot.
Qed.

(** ** Enumeration kinds *)

(** C7.  The classification of an enumeration is a function of its usable
    name alone (its imported name or, when it has none of its own, the
    imported name of the typedef that names it): two enumerations with the
    same usable name, in whatever ASTs, classify alike; the classification is
    never [Enum]; an enumeration with no declared name and no typedef name
    classifies as [Constants]; an enumeration with a name, declared or given
    by a typedef, that imports as a non-empty identifier classifies as
    [Options]. *)
Theorem classifyEnum_by_usable_name :
  (∀ ctx1 ctx2 env1 env2 d1 d2,
     importTagName ctx1 env1 d1 (getTypedefNameForAnonDecl ctx1 d1)
     = importTagName ctx2 env2 d2 (getTypedefNameForAnonDecl ctx2 d2) →
     classifyEnum ctx1 env1 d1 = classifyEnum ctx2 env2 d2) ∧
  (∀ ctx env decl, classifyEnum ctx env decl ≠ Enum) ∧
  (∀ ctx env decl,
     cd_name (getClangDecl ctx decl) = None →
     getTypedefNameForAnonDecl ctx decl = None →
     classifyEnum ctx env decl = Constants) ∧
  (∀ ctx env decl n,
     cd_name (getClangDecl ctx decl) = Some n →
     importName env (Some n) "" ≠ ""%string →
     classifyEnum ctx env decl = Options) ∧
  (∀ ctx env decl td,
     cd_name (getClangDecl ctx decl) = None →
     getTypedefNameForAnonDecl ctx decl = Some td →
     importName env (cd_name (getClangDecl ctx td)) "" ≠ ""%string →
     classifyEnum ctx env decl = Options).
Proof.
  assert (∀ i : Identifier, i ≠ ""%string → Identifier_empty i = false) as Hne.
  { intros i Hi. unfold Identifier_empty. by apply String.eqb_neq. }
  repeat split.
  - intros * Heq. unfold classifyEnum. by rewrite Heq.
  - intros *. unfold classifyEnum. by case_match.
  - intros * Hname Htd. unfold classifyEnum, importTagName.
    by rewrite Hname, Htd.
  - intros * Hname Himp. unfold classifyEnum, importTagName.
    rewrite Hname. by rewrite Hne.
  - intros * Hname Htd Himp. unfold classifyEnum, importTagName.
    rewrite Hname, Htd. by rewrite Hne.
Qed.

(** ** Running the importer: basic facts *)

Lemma bind_Done {A B} (m : M A) (k : A → M B) st b st' :
  bind m k st = Done b st' ↔ ∃ a st1, m st = Done a st1 ∧ k a st1 = Done b st'.
Proof.
  unfold bind. destruct (m st) as [a st1| |]; split.
  - intros H. by exists a, st1.
  - by intros (? & ? & [= -> ->] & ?).
  - done.
  - by intros (? & ? & [=] & _).
  - done.
  - by intros (? & ? & [=] & _).
Qed.

Lemma bind_run {A B} (m : M A) (k : A → M B) st a st1 :
  m st = Done a st1 → bind m k st = k a st1.
Proof. unfold bind. by intros ->. Qed.

Lemma bind_assoc {A B C} (m : M A) (f : A → M B) (g : B → M C) st :
  bind (bind m f) g st = bind m (λ a, bind (f a) g) st.
Proof. unfold bind. by destruct (m st). Qed.

Lemma bind_ret {A B} (a : A) (k : A → M B) st : bind (ret a) k st = k a st.
Proof. done. Qed.

Lemma bool_decide_is_Some_Some {A} (a : A) : bool_decide (is_Some (Some a)) = true.
Proof. by apply bool_decide_eq_true_2. Qed.

Lemma bool_decide_is_Some_None {A} : bool_decide (is_Some (@None A)) = false.
Proof. apply bool_decide_eq_false_2. by intros [? [=]]. Qed.

(** Reduces the tests on results that are known. *)
Ltac run_simpl :=
  rewrite ?bool_decide_is_Some_Some, ?bool_decide_is_Some_None;
  cbn [negb andb orb].

(** Runs the first step of the sequence in the goal, given its outcome. *)
Ltac run_with H :=
  rewrite ?bind_assoc; rewrite (bind_run _ _ _ _ _ H); run_simpl.

Lemma ret_Done {A} (a b : A) st st' : ret a st = Done b st' ↔ a = b ∧ st = st'.
Proof. unfold ret. split; [by intros [= -> ->]|by intros [-> ->]]. Qed.

Lemma getDecl_Done id st d st' :
  getDecl id st = Done d st' ↔ arena st !! id = Some d ∧ st' = st.
Proof.
  unfold getDecl. destruct (arena st !! id); split; try done.
  - by intros [= -> ->].
  - by intros [[= ->] ->].
  - by intros [[=] _].
Qed.

Lemma modifyDecl_Done id f st u st' :
  modifyDecl id f st = Done u st' ↔
  ∃ d, arena st !! id = Some d ∧
       st' = set_arena (<[id := f d]> (arena st)) st.
Proof.
  unfold modifyDecl. destruct (arena st !! id) as [d|]; split; try done.
  - intros [= _ <-]. by exists d.
  - intros (d' & [= <-] & ->). by destruct u.
  - by intros (? & [=] & _).
Qed.

Lemma allocate_Done d st id st' :
  allocate d st = Done id st' ↔
  id = length (arena st) ∧ st' = set_arena (arena st ++ [d]) st.
Proof. unfold allocate. split; [by intros [= <- <-]|by intros [-> ->]]. Qed.

Lemma modifyState_Done f st u st' :
  modifyState f st = Done u st' ↔ st' = f st.
Proof.
  unfold modifyState. split; [by intros [= _ <-]|intros ->; by destruct u].
Qed.

Lemma getState_Done st s st' : getState st = Done s st' ↔ s = st ∧ st' = st.
Proof. unfold getState. split; [by intros [= <- <-]|by intros [-> ->]]. Qed.

Lemma isa_Done k id st b st' :
  isa k id st = Done b st' ↔
  ∃ d, arena st !! id = Some d ∧ b = bool_decide (d_kind d = k) ∧ st' = st.
Proof.
  unfold isa. rewrite bind_Done. split.
  - intros (d & st1 & [Hd ->]%getDecl_Done & [<- <-]%ret_Done). by exists d.
  - intros (d & Hd & -> & ->). exists d, st. by rewrite getDecl_Done, ret_Done.
Qed.

Lemma when_Done c m st u st' :
  when c m st = Done u st' ↔ if c then m st = Done u st' else st' = st.
Proof.
  unfold when. destruct c; [done|]. rewrite ret_Done. destruct u.
  split; [by intros [_ <-]|by intros ->].
Qed.

(** Splits a hypothesis that a sequence of steps has run to its end into one
    hypothesis for each step, and reads off what the steps on the arena and
    on the state have done. *)
Ltac inv_run H :=
  repeat match type of H with
  | bind _ _ _ = Done _ _ =>
      let a := fresh "a" in let st := fresh "st" in let H1 := fresh "Hrun" in
      apply bind_Done in H as (a & st & H1 & H); inv_run H1
  | ret _ _ = Done _ _ => apply ret_Done in H as [? ?]; simplify_eq
  | getDecl _ _ = Done _ _ => apply getDecl_Done in H as [H ?]; subst
  | getState _ = Done _ _ => apply getState_Done in H as [? ?]; subst
  | modifyDecl _ _ _ = Done _ _ =>
      let d := fresh "d" in apply modifyDecl_Done in H as (d & H & ?); subst
  | allocate _ _ = Done _ _ => apply allocate_Done in H as [? ?]; subst
  | modifyState _ _ = Done _ _ => apply modifyState_Done in H; subst
  | isa _ _ _ = Done _ _ =>
      let d := fresh "d" in apply isa_Done in H as (d & H & ? & ?); subst
  | Done _ _ = Done _ _ => simplify_eq
  | OutOfFuel = Done _ _ => discriminate H
  | Undefined = Done _ _ => discriminate H
  | outOfFuel _ = Done _ _ => discriminate H
  | undefined _ = Done _ _ => discriminate H
  end.

(** *** A visitor that does not raise the forward-declaration flag *)

Definition neverForward (m : M (option DeclId * bool)) : Prop :=
  ∀ st r b st', m st = Done (r, b) st' → b = false.

Lemma neverForward_ret r : neverForward (ret (r, false)).
Proof. by intros st r' b st' [[= _ <-] _]%ret_Done. Qed.

Lemma neverForward_bind {A} (m : M A) k :
  (∀ a, neverForward (k a)) → neverForward (bind m k).
Proof. intros Hk st r b st' (a & st1 & _ & H)%bind_Done. by eapply Hk. Qed.

Lemma neverForward_undefined : neverForward undefined.
Proof. by intros st r b st' [=]. Qed.

Ltac never_forward :=
  repeat first
    [ apply neverForward_ret
    | apply neverForward_undefined
    | apply neverForward_bind; intros
    | match goal with
      | |- neverForward (match ?x with _ => _ end) => destruct x
      | |- neverForward (if ?c then _ else _) => destruct c
      end ].

Section ForwardFlag.
Context (ctx : ClangASTContext) (env : ImporterEnv).
Context (importDecl' : option ClangDeclId → M (option DeclId)).
Context (importMirroredDecl' : option ClangDeclId → DeclContext →
                               M (option DeclId)).
Context (walk : nat).

(** The declarations on which the converter raises its
    [forwardDeclaration] flag: an enumeration, a protocol or an interface
    without a definition, and a record without a definition that is not a
    union, a Microsoft interface, or an anonymous struct or union. *)
Definition isForwardOnly (decl : ClangDeclId) : bool :=
  match cd_kind (getClangDecl ctx decl) with
  | CK_Enum e => negb (bool_decide (is_Some (enum_definition e)))
  | CK_Record r =>
      negb (rec_isUnion r) && negb (rec_isInterface r)
      && negb (rec_isAnonymousStructOrUnion r)
      && negb (bool_decide (is_Some (rec_definition r)))
  | CK_ObjCProtocol c | CK_ObjCInterface c =>
      negb (bool_decide (is_Some (objc_definition c)))
  | _ => false
  end.

Lemma Visit_forward decl st :
  isForwardOnly decl = true →
  Visit ctx env importDecl' importMirroredDecl' walk decl st
  = Done (None, true) st.
Proof.
  unfold isForwardOnly, Visit. destruct (cd_kind _) as [| |e|r| | | | | | | | |c|c|]; try done.
  - unfold VisitEnumDecl. by destruct (enum_definition e).
  - unfold VisitRecordDecl.
    destruct (rec_isUnion r), (rec_isInterface r),
      (rec_isAnonymousStructOrUnion r), (rec_definition r); done.
  - unfold VisitObjCProtocolDecl. by destruct (objc_definition c).
  - unfold VisitObjCInterfaceDecl. by destruct (objc_definition c).
Qed.

Lemma Visit_not_forward decl :
  isForwardOnly decl = false →
  neverForward (Visit ctx env importDecl' importMirroredDecl' walk decl).
Proof.
  unfold isForwardOnly, Visit. intros Hfwd.
  destruct (cd_kind _) as [| |e|r| | | | | | | | |c|c|].
  all: unfold declined, forwardDeclaration, imported, VisitTypedefNameDecl,
    VisitEnumDecl, VisitRecordDecl, VisitEnumConstantDecl,
    VisitIndirectFieldDecl, VisitFunctionDecl, VisitFieldDecl, VisitVarDecl,
    VisitObjCCategoryDecl, VisitObjCProtocolDecl, VisitObjCInterfaceDecl,
    VisitObjCPropertyDecl, declined, forwardDeclaration, imported in *;
    cbv beta zeta.
  all: try (never_forward; fail).
  - destruct (enum_definition e); [|done]. never_forward.
  - destruct (rec_isUnion r), (rec_isInterface r),
      (rec_isAnonymousStructOrUnion r); try (never_forward; fail).
    destruct (rec_definition r); [|done]. never_forward.
  - destruct (objc_definition c); [|done]. never_forward.
  - destruct (objc_definition c); [|done]. never_forward.
Qed.
End ForwardFlag.

(** ** The declaration cache *)

Section Cache.
Context (ctx : ClangASTContext) (env : ImporterEnv).

Lemma importDecl_unfold fuel decl :
  importDecl ctx env fuel decl
  = importDeclWith ctx env
      (match fuel with
       | 0 => λ _, outOfFuel
       | S fuel' =>
           Visit ctx env (importDecl ctx env fuel')
                 (importMirroredDecl ctx env fuel') fuel'
       end) decl.
Proof. by destruct fuel. Qed.

(** A hit: the cached value is returned and nothing changes. *)
Lemma importDeclWith_hit visit decl st r :
  ImportedDecls st !! getCanonicalDecl ctx decl = Some r →
  importDeclWith ctx env visit (Some decl) st = Done r st.
Proof.
  intros Hhit. unfold importDeclWith, findImportedDecl, bind. by rewrite Hhit.
Qed.

Lemma importDecl_hit fuel decl st r :
  ImportedDecls st !! getCanonicalDecl ctx decl = Some r →
  importDecl ctx env fuel (Some decl) st = Done r st.
Proof. rewrite importDecl_unfold. apply importDeclWith_hit. Qed.

Lemma noteImported_cache result canon st u st' :
  noteImported result canon st = Done u st' →
  ImportedDecls st' = ImportedDecls st.
Proof.
  unfold noteImported, setClangNode. intros H. inv_run H.
  destruct (d_clangNode a); [case_bool_decide|]; by inv_run Hrun0.
Qed.

(** A miss: the visitor runs; its result is entered in the cache unless it
    is null and the converter has seen a forward declaration, and then
    nothing is done after the visit. *)
Lemma importDeclWith_miss visit decl st r st' :
  ImportedDecls st !! getCanonicalDecl ctx decl = None →
  importDeclWith ctx env visit (Some decl) st = Done r st' →
  ∃ fwd st1,
    visit decl st = Done (r, fwd) st1 ∧
    if bool_decide (is_Some r) || negb fwd
    then ImportedDecls st' !! getCanonicalDecl ctx decl = Some r
    else st' = st1.
Proof.
  intros Hmiss. unfold importDeclWith, findImportedDecl, bind at 1.
  rewrite Hmiss. intros H.
  apply bind_Done in H as ([r' fwd] & st1 & Hvisit & H).
  apply bind_Done in H as ([] & st2 & Hnote & H).
  apply bind_Done in H as ([] & st3 & Hset & H). inv_run H.
  exists fwd, st1. split; [done|].
  assert (ImportedDecls st2 = ImportedDecls st1) as Hsame.
  { destruct r as [r|]; [|by inv_run Hnote].
    inv_run Hnote. case_bool_decide; [by inv_run Hnote|].
    by eapply noteImported_cache. }
  apply when_Done in Hset.
  destruct (bool_decide (is_Some r) || negb fwd) eqn:Hcached.
  - unfold setImportedDecl in Hset. inv_run Hset. simpl.
    apply lookup_insert_eq.
  - subst st'. apply orb_false_iff in Hcached as [Hr _].
    destruct r; [done|]. by inv_run Hnote.
Qed.

(** C1.  Calling [importDecl] on a declaration a second time returns the
    same value as the first call did (the same declaration of the arena,
    or null both times) and leaves the state as the first call left it:
    nothing is allocated, so the second call produces no duplicate. *)
Theorem importDecl_twice fuel decl st r st' fuel' :
  importDecl ctx env fuel decl st = Done r st' →
  fuel ≤ fuel' →
  importDecl ctx env fuel' decl st' = Done r st'.
Proof.
  intros Hfirst Hfuel. destruct decl as [decl|]; cycle 1.
  { rewrite importDecl_unfold in Hfirst. rewrite importDecl_unfold.
    simpl in *. by inv_run Hfirst. }
  destruct (ImportedDecls st !! getCanonicalDecl ctx decl) as [known|] eqn:Hc.
  { rewrite (importDecl_hit _ _ _ _ Hc) in Hfirst. inv_run Hfirst.
    by apply importDecl_hit. }
  rewrite importDecl_unfold in Hfirst.
  apply importDeclWith_miss in Hfirst as (fwd & st1 & Hvisit & Hafter); [|done].
  destruct fuel as [|fuel]; [done|].
  destruct (bool_decide (is_Some r) || negb fwd) eqn:Hcached.
  { by apply importDecl_hit. }
  subst st'. apply orb_false_iff in Hcached as [Hr Hfwd].
  apply negb_false_iff in Hfwd as ->.
  destruct r as [r|]; [done|].
  destruct (isForwardOnly ctx decl) eqn:Hforward.
  - rewrite Visit_forward in Hvisit by done. inv_run Hvisit.
    destruct fuel' as [|fuel']; [lia|].
    rewrite importDecl_unfold. unfold importDeclWith, findImportedDecl.
    unfold bind at 1. rewrite Hc. erewrite bind_run by by apply Visit_forward.
    done.
  - by apply Visit_not_forward in Hvisit.
Qed.
End Cache.

(** The sample enumeration is imported, and imported again. *)
Lemma importDecl_twice_Color :
  ∃ r st',
    importDecl Samples.colorContext Samples.sampleEnv 3 (Some 0)
               Samples.initialState = Done (Some r) st' ∧
    importDecl Samples.colorContext Samples.sampleEnv 3 (Some 0) st'
    = Done (Some r) st'.
Proof.
  destruct (importDecl Samples.colorContext Samples.sampleEnv 3 (Some 0)
                       Samples.initialState) as [[r|] st'| |] eqn:Hfirst;
    try (vm_compute in Hfirst; discriminate Hfirst).
  exists r, st'. split; [reflexivity|].
  apply (importDecl_twice _ _ 3 (Some 0) Samples.initialState (Some r) st' 3 Hfirst).
  lia.
Defined.




(** ** Well-known types *)

(** The module in which [getSwiftStdlibType] looks for the Swift type of a
    table entry. *)
Definition mappedModule (env : ImporterEnv) (e : MappedType) : option ModuleId :=
  if String.eqb "swift" (SWIFT_MODULE_NAME e) then getSwiftModule env
  else getNamedModule env (SWIFT_MODULE_NAME e).

(** C4, where the code departs from it.  Let the name of a typedef match a
    table entry of kind [ObjCSel] that applies to the language and whose bit
    width is zero or the size of the underlying type.  If the underlying
    type is not a pointer type at all, it is not a pointer to the builtin
    selector type, yet the [ObjCSel] case of the switch lets it through:
    when the Swift module of the entry is missing the error flag is set. *)
Theorem getSwiftStdlibType_ObjCSel_not_pointer ctx env underlyingType Name e :
  find (λ e, String.eqb Name (C_TYPE_NAME e)) (MappedTypes env) = Some e →
  C_TYPE_KIND e = ObjCSel →
  LANGUAGES e = MappedLanguages_All env ∨ LangOpts_ObjC1 ctx = true →
  C_TYPE_BITWIDTH e = 0%N ∨ C_TYPE_BITWIDTH e = getTypeSize ctx underlyingType →
  getAsPointerType ctx underlyingType = None →
  mappedModule env e = None →
  getSwiftStdlibType ctx env underlyingType Name
  = Some {| stdlib_type := None; stdlib_name := ""; IsError := true |}.
Proof.
  intros Hfind Hkind Hlang Hwidth Hptr Hmod. unfold getSwiftStdlibType.
  rewrite Hfind.
  assert (negb (LANGUAGES e =? MappedLanguages_All env)%N
          && negb (N.land (LANGUAGES e) (MappedLanguages_ObjC1 env) =? 0)%N
          && negb (LangOpts_ObjC1 ctx) = false) as ->.
  { destruct Hlang as [->| ->].
    - by rewrite N.eqb_refl.
    - by rewrite andb_false_r. }
  assert (negb (C_TYPE_BITWIDTH e =? 0)%N
          && negb (C_TYPE_BITWIDTH e =? getTypeSize ctx underlyingType)%N
          = false) as ->.
  { destruct Hwidth as [->| ->]; [done|].
    by rewrite N.eqb_refl, andb_false_r. }
  rewrite Hkind. cbn [checkCTypeKind]. rewrite Hptr.
  unfold mappedModule in Hmod. by rewrite Hmod.
Qed.

(** [typedef int SEL;] when the module ObjectiveC is not loaded: the typedef
    is reported as a well-known type that could not be found. *)
Lemma getSwiftStdlibType_int_SEL :
  getSwiftStdlibType (Samples.sampleContext Samples.colorDecls Samples.noMethods)
                     Samples.sampleEnv (CT_Builtin 0) "SEL"
  = Some {| stdlib_type := None; stdlib_name := ""; IsError := true |}.
Proof.
  apply (getSwiftStdlibType_ObjCSel_not_pointer _ Samples.sampleEnv _ _
           (MAP_TYPE "SEL" ObjCSel 0 "ObjectiveC" "ObjCSel" 1 false)).
  - reflexivity.
  - reflexivity.
  - right. reflexivity.
  - left. reflexivity.
  - reflexivity.
  - reflexivity.
Defined.

(** ** Subscripts *)

(** Decides the equations between the four subscripting selectors that
    stand in the goal. *)
Ltac decide_selectors :=
  repeat match goal with
  | |- context [bool_decide (?a = ?b)] =>
      first [ replace (bool_decide (a = b)) with true by reflexivity
            | replace (bool_decide (a = b)) with false by reflexivity ]
  end; cbv iota.

Section Subscripts.
Context (ctx : ClangASTContext) (env : ImporterEnv).
Context (importDecl' : option ClangDeclId → M (option DeclId)).

(** The selector of the getter that goes with a subscript setter. *)
Definition getterSelectorFor (setterSel : Selector) : option Selector :=
  if bool_decide (setterSel = setObjectAtIndexedSubscript)
  then Some objectAtIndexedSubscript
  else if bool_decide (setterSel = setObjectForKeyedSubscript)
  then Some objectForKeyedSubscript
  else None.

(** The interface has no importable instance method with the selector
    [sel]: the lookup finds nothing, or the import of what it finds, run
    from [st], returns null; [st'] is the state after this. *)
Definition noImportableMethod (interface : ClangDeclId) (sel : Selector)
  (st st' : ImporterState) : Prop :=
  match lookupMethod ctx interface sel true with
  | None => st' = st
  | Some objcGetter => importDecl' (Some objcGetter) st = Done None st'
  end.

Lemma importCounterpart_absent interface sel st st' :
  noImportableMethod interface sel st st' →
  importCounterpart ctx importDecl' interface sel st = Done None st'.
Proof.
  unfold noImportableMethod, importCounterpart.
  destruct (lookupMethod ctx interface sel true); [|by intros ->].
  intros Himport. by rewrite (bind_run _ _ _ _ _ Himport).
Qed.

(** C6.  Let [decl] be the function imported for an instance method whose
    selector is [setObject:atIndexedSubscript:] or
    [setObject:forKeyedSubscript:], on an interface that has no importable
    instance method with the matching getter selector.  Then
    [importSubscript] returns null, and it stops right after the attempt to
    find the getter: nothing is allocated for a subscript. *)
Theorem importSubscript_setter_alone decl d objcMethod dc interface
    getterSel st st' :
  meth_isInstanceMethod objcMethod = true →
  meth_classInterface objcMethod = Some interface →
  getterSelectorFor (meth_selector objcMethod) = Some getterSel →
  arena st !! decl = Some d →
  d_kind d = FuncDecl →
  noImportableMethod interface getterSel st st' →
  importSubscript ctx env importDecl' decl objcMethod dc st = Done None st'.
Proof.
  intros Hinst Hiface Hsel Hdecl Hkind Habsent.
  unfold importSubscript. rewrite Hinst, Hiface. cbn [negb].
  assert (isa FuncDecl decl st = Done true st) as Hisa.
  { apply isa_Done. exists d. by rewrite Hkind, bool_decide_eq_true_2. }
  rewrite (bind_run _ _ _ _ _ Hisa). cbn [negb].
  assert (subscriptAccessors ctx importDecl' decl (meth_selector objcMethod)
            interface st = Done None st') as Hacc.
  { apply importCounterpart_absent in Habsent.
    unfold getterSelectorFor in Hsel.
    repeat case_bool_decide; try done.
    all: match goal with H : meth_selector _ = _ |- _ => rewrite H end.
    all: unfold subscriptAccessors; decide_selectors; injection Hsel as <-.
    all: unfold findGetter; by run_with Habsent. }
  by rewrite (bind_run _ _ _ _ _ Hacc).
Qed.
End Subscripts.

(** The setter of the sample interface that has no getter gives no
    subscript: the function imported for it is declaration 0 of the
    arena. *)
Lemma importSubscript_setter_alone_Container :
  ∃ objcMethod,
    asObjCMethodDecl Samples.writeOnlyContext 2 = Some objcMethod ∧
    importSubscript Samples.writeOnlyContext Samples.sampleEnv
      (importDecl Samples.writeOnlyContext Samples.sampleEnv 3) 0 objcMethod
      (DCModule 0)
      (set_arena [defaultDecl FuncDecl "setObject" (DCModule 0)]
                 Samples.initialState)
    = Done None (set_arena [defaultDecl FuncDecl "setObject" (DCModule 0)]
                           Samples.initialState).
Proof.
  eexists. split; [reflexivity|].
  apply (importSubscript_setter_alone Samples.writeOnlyContext
           Samples.sampleEnv _ 0 (defaultDecl FuncDecl "setObject" (DCModule 0))
           _ (DCModule 0) 0 objectAtIndexedSubscript);
    reflexivity.
Defined.

(** The kinds of the declarations of the arena, for reading off what an
    import has allocated. *)
Definition subscriptsOf (st : ImporterState) : list DeclId :=
  List.filter (λ i, match arena st !! i with
                    | Some d => bool_decide (d_kind d = SubscriptDecl)
                    | None => false
                    end) (seq 0 (length (arena st))).

(** C5, where the code departs from it.  On a fresh importer, import the
    getter [objectAtIndexedSubscript:] of the sample interface, then its
    setter.  The import of the getter first imports the interface, which
    imports the getter itself and synthesizes the subscript 19 from the
    function 4; the visit of the getter, resumed, does not look in the cache
    again: it makes a second function 23 for the getter, which replaces 4 in
    the cache, and synthesizes a second subscript 32 for the pair (23, 10).
    So there are two subscript declarations for the one pair of methods; the
    one memoized for the imported getter and setter is 32, and the one
    among the members of the class is 19. *)
Lemma importDecl_getter_first_two_subscripts :
  ∃ st1 st2,
    importDecl Samples.containerContext Samples.sampleEnv 6 (Some 1)
               Samples.initialState = Done (Some 23) st1 ∧
    importDecl Samples.containerContext Samples.sampleEnv 6 (Some 2) st1
    = Done (Some 10) st2 ∧
    subscriptsOf st2 = [19; 32] ∧
    Subscripts st2 !! (Some 23, Some 10) = Some (Some 32) ∧
    Subscripts st2 !! (Some 4, Some 10) = Some (Some 19) ∧
    d_members <$> arena st2 !! 0 = Some [19; 4; 10].
Proof.
  eexists; eexists.
  split; [vm_compute; reflexivity|].
  split; [vm_compute; reflexivity|].
  repeat split; vm_compute; reflexivity.
Qed.

(** ** Members of Objective-C containers *)

Section Members.
Context (ctx : ClangASTContext) (env : ImporterEnv).
Context (importDecl' : option ClangDeclId → M (option DeclId)).

(** What one turn of the loop of [importObjCMembers] has obtained from the
    importer: the import of the declaration, the import of the property the
    declaration is an accessor of, the special declaration synthesized from
    the imported method, and whether that one is a constructor.  Where the
    turn does not come to a call, the entry is null. *)
Record Turn := mkTurn {
  turn_member : option DeclId;
  turn_property : option DeclId;
  turn_special : option DeclId;
  turn_constructor : bool
}.

(** The turn of the declaration [m] takes the importer from [st] to [st'],
    and [t] is what its calls have returned. *)
Definition turnRan (swiftContext : DeclContext) (m : ClangDeclId)
  (st : ImporterState) (t : Turn) (st' : ImporterState) : Prop :=
  if negb (isNamedDecl ctx m) then t = mkTurn None None None false ∧ st' = st
  else
    ∃ st1,
      importDecl' (Some m) st = Done (turn_member t) st1 ∧
      match turn_member t, asObjCMethodDecl ctx m with
      | Some member, Some objcMethod =>
          ∃ st2,
            match meth_propertyDecl objcMethod with
            | Some property =>
                importDecl' (Some property) st1 = Done (turn_property t) st2
            | None => turn_property t = None ∧ st2 = st1
            end ∧
            match turn_property t with
            | Some _ =>
                turn_special t = None ∧ turn_constructor t = false ∧ st' = st2
            | None =>
                importSpecialMethod ctx env importDecl' member swiftContext st2
                = Done (turn_special t) st' ∧
                match turn_special t with
                | Some special =>
                    isa ConstructorDecl special st'
                    = Done (turn_constructor t) st'
                | None => turn_constructor t = false
                end
            end
      | _, _ =>
          turn_property t = None ∧ turn_special t = None ∧
          turn_constructor t = false ∧ st' = st1
      end.

(** The turns of the declarations [decls], one after the other. *)
Inductive turnsRan (swiftContext : DeclContext)
  : list ClangDeclId → ImporterState → list Turn → ImporterState → Prop :=
  | turnsRan_nil st : turnsRan swiftContext [] st [] st
  | turnsRan_cons m decls st t st1 turns st' :
      turnRan swiftContext m st t st1 →
      turnsRan swiftContext decls st1 turns st' →
      turnsRan swiftContext (m :: decls) st (t :: turns) st'.

(** What a turn shows in the member list: the special declaration, and the
    imported declaration itself unless it is the accessor of an imported
    property or a constructor was synthesized from it. *)
Definition shown (t : Turn) (x : DeclId) : Prop :=
  turn_special t = Some x ∨
  (turn_member t = Some x ∧ turn_property t = None ∧
   turn_constructor t = false).

(** One turn: what it adds is what it shows, apart from a special
    declaration that the loop has added before. *)
Lemma importObjCMember_turn swiftContext knownMembers members m st
    knownMembers' members' st' :
  importObjCMember ctx env importDecl' swiftContext (knownMembers, members) m st
  = Done (knownMembers', members') st' →
  ∃ t added,
    turnRan swiftContext m st t st' ∧ members' = members ++ added ∧
    (∀ x, x ∈ added → shown t x) ∧
    (∀ x, shown t x → x ∈ knownMembers ∨ x ∈ added) ∧
    (∀ x, x ∈ knownMembers' → x ∈ knownMembers ∨ x ∈ added).
Proof.
  unfold importObjCMember, turnRan, shown. intros H.
  destruct (negb (isNamedDecl ctx m)) eqn:Hnamed.
  { apply ret_Done in H as [[= <- <-] ->].
    exists (mkTurn None None None false), []. rewrite app_nil_r.
    split; [done|]. split; [done|].
    split; [by intros x Hx%elem_of_nil|]. split; [|by left].
    by intros x [[=]|[[=] _]]. }
  apply bind_Done in H as ([member|] & st1 & Himport & H); cycle 1.
  { apply ret_Done in H as [[= <- <-] ->].
    exists (mkTurn None None None false), []. rewrite app_nil_r.
    split; [by exists st'|]. split; [done|].
    split; [by intros x Hx%elem_of_nil|]. split; [|by left].
    by intros x [[=]|[[=] _]]. }
  destruct (asObjCMethodDecl ctx m) as [objcMethod|] eqn:Hmethod; cycle 1.
  { apply ret_Done in H as [[= <- <-] ->].
    exists (mkTurn (Some member) None None false), [member].
    split; [by exists st'|]. split; [done|]. split.
    { intros x ->%list_elem_of_singleton. by right. }
    split; [|by left].
    intros x [[=]|[[= ->] _]]. right. apply list_elem_of_here. }
  apply bind_Done in H as (property & st2 & Hproperty & H).
  assert (match meth_propertyDecl objcMethod with
          | Some p => importDecl' (Some p) st1 = Done property st2
          | None => property = None ∧ st2 = st1
          end) as Hprop.
  { destruct (meth_propertyDecl objcMethod); [done|].
    by apply ret_Done in Hproperty as [<- <-]. }
  clear Hproperty. destruct property as [property|].
  { rewrite bool_decide_is_Some_Some in H.
    apply ret_Done in H as [[= <- <-] ->].
    exists (mkTurn (Some member) (Some property) None false), [].
    rewrite app_nil_r.
    cbn [turn_member turn_property turn_special turn_constructor].
    split; [exists st1; split; [done|]; by exists st'|]. split; [done|].
    split; [by intros x Hx%elem_of_nil|]. split; [|by left].
    by intros x [[=]|[_ [[=] _]]]. }
  rewrite bool_decide_is_Some_None in H.
  apply bind_Done in H as ([special|] & st3 & Hspecial & H); cycle 1.
  { apply ret_Done in H as [[= <- <-] ->].
    exists (mkTurn (Some member) None None false), [member].
    cbn [turn_member turn_property turn_special turn_constructor].
    split; [exists st1; split; [done|]; by exists st2|]. split; [done|]. split.
    { intros x ->%list_elem_of_singleton. by right. }
    split; [|by left].
    intros x [[=]|[[= ->] _]]. right. apply list_elem_of_here. }
  destruct (bool_decide (special ∈ knownMembers)) eqn:Hknown.
  - apply bool_decide_eq_true_1 in Hknown.
    apply bind_Done in H as (isCtor & st4 & Hisa & H).
    pose proof Hisa as (d & _ & _ & ->)%isa_Done.
    destruct isCtor; apply ret_Done in H as [[= <- <-] ->].
    + exists (mkTurn (Some member) None (Some special) true), [].
      rewrite app_nil_r.
      cbn [turn_member turn_property turn_special turn_constructor].
      split; [exists st1; split; [done|]; by exists st2|]. split; [done|].
      split; [by intros x Hx%elem_of_nil|]. split; [|by left].
      intros x [[= ->]|[_ [_ [=]]]]. by left.
    + exists (mkTurn (Some member) None (Some special) false), [member].
      cbn [turn_member turn_property turn_special turn_constructor].
      split; [exists st1; split; [done|]; by exists st2|]. split; [done|].
      split. { intros x ->%list_elem_of_singleton. by right. }
      split; [|by left].
      intros x [[= ->]|[[= ->] _]]; [by left|].
      right. apply list_elem_of_here.
  - apply bind_Done in H as (isCtor & st4 & Hisa & H).
    pose proof Hisa as (d & _ & _ & ->)%isa_Done.
    destruct isCtor; apply ret_Done in H as [[= <- <-] ->].
    + exists (mkTurn (Some member) None (Some special) true), [special].
      cbn [turn_member turn_property turn_special turn_constructor].
      split; [exists st1; split; [done|]; by exists st2|]. split; [done|].
      split. { intros x ->%list_elem_of_singleton. by left. }
      split.
      { intros x [[= ->]|[_ [_ [=]]]]. right. apply list_elem_of_here. }
      intros x [->|Hx]%elem_of_cons; [right; apply list_elem_of_here|by left].
    + exists (mkTurn (Some member) None (Some special) false), [special; member].
      cbn [turn_member turn_property turn_special turn_constructor].
      split; [exists st1; split; [done|]; by exists st2|].
      split; [by rewrite <- app_assoc|].
      split.
      { intros x [->|[->|[]%elem_of_nil]%elem_of_cons]%elem_of_cons;
          [by left|by right]. }
      split.
      { intros x [[= ->]|[[= ->] _]]; right; set_solver. }
      intros x [->|Hx]%elem_of_cons; [right; apply list_elem_of_here|by left].
Qed.

(** The loop over the declarations, from any set of known members. *)
Lemma importObjCMembers_turns swiftContext decls :
  ∀ knownMembers members st knownMembers' members' st',
    foldM (importObjCMember ctx env importDecl' swiftContext) decls
          (knownMembers, members) st
    = Done (knownMembers', members') st' →
    ∃ turns added,
      turnsRan swiftContext decls st turns st' ∧ members' = members ++ added ∧
      (∀ x, x ∈ added → ∃ t, t ∈ turns ∧ shown t x) ∧
      (∀ t x, t ∈ turns → shown t x → x ∈ knownMembers ∨ x ∈ added).
Proof.
  induction decls as [|m decls IH];
    intros knownMembers members st knownMembers' members' st' H; simpl in H.
  { apply ret_Done in H as [[= <- <-] ->]. exists [], [].
    rewrite app_nil_r. split; [constructor|]. split; [done|].
    split; [by intros x Hx%elem_of_nil|]. by intros t x Ht%elem_of_nil. }
  apply bind_Done in H as ([known1 members1] & st1 & Hturn & H).
  apply importObjCMember_turn in Hturn
    as (t & a & Hran & -> & Ha & Hshown & Hknown).
  apply IH in H as (turns & added & Hturns & -> & Hadded & Hall).
  exists (t :: turns), (a ++ added).
  split; [by econstructor|]. split; [by rewrite app_assoc|]. split.
  - intros x [Hx|Hx]%elem_of_app.
    + exists t. split; [apply list_elem_of_here|by apply Ha].
    + destruct (Hadded x Hx) as (t' & Ht' & Hx').
      exists t'. split; [by apply list_elem_of_further|done].
  - intros t' x [->|Ht']%elem_of_cons Hx.
    + destruct (Hshown x Hx); [by left|]. right. apply elem_of_app. by left.
    + destruct (Hall t' x Ht' Hx) as [Hk|Hk].
      * destruct (Hknown x Hk); [by left|]. right. apply elem_of_app. by left.
      * right. apply elem_of_app. by right.
Qed.

(** C9.  The member list that [importObjCMembers] gives is the list it was
    given followed by what the turns of the declarations of the container
    have added, and a declaration is among the added ones exactly when some
    turn shows it: as the special declaration synthesized from the method of
    the turn, or as the import of the declaration of the turn, provided that
    this declaration is not the accessor of a property whose import gave a
    declaration and that no constructor was synthesized from it.  So the
    turn of the getter or setter of an imported property adds nothing, and
    the turn of an init method with a constructor adds the constructor and
    not the imported method. *)
Theorem importObjCMembers_hides decls swiftContext members st members' st' :
  importObjCMembers ctx env importDecl' decls swiftContext members st
  = Done members' st' →
  ∃ turns added,
    turnsRan swiftContext decls st turns st' ∧
    members' = members ++ added ∧
    ∀ x, x ∈ added ↔
         ∃ t, t ∈ turns ∧
              (turn_special t = Some x ∨
               (turn_member t = Some x ∧ turn_property t = None ∧
                turn_constructor t = false)).
Proof.
  unfold importObjCMembers. intros H.
  apply bind_Done in H as ([known members1] & st1 & H & Hret).
  apply ret_Done in Hret as [<- <-].
  apply importObjCMembers_turns in H
    as (turns & added & Hturns & -> & Hadded & Hall).
  exists turns, added. split; [done|]. split; [done|].
  intros x. split; [apply Hadded|].
  intros (t & Ht & Hx). destruct (Hall t x Ht Hx) as [[]%elem_of_nil|]; done.
Qed.
End Members.

(** The state of the importer after the import of the sample interface
    [Widget]. *)
Definition widgetState : ImporterState :=
  match importDecl Samples.widgetContext Samples.sampleEnv 6 (Some 0)
                   Samples.initialState with
  | Done _ st => st
  | _ => Samples.initialState
  end.

(** The members of the sample interface, imported once more after the
    interface: the property [size] is the variable 3, and the function 2 of
    its getter [-size] is not in the list; the function 9 of [-initWithSize:]
    is not in the list either, the constructor 23 stands in for it; the
    functions 11 and 18 of [+alloc] and [-reset] are there. *)
Lemma importObjCMembers_hides_Widget :
  ImportedDecls widgetState !! 2 = Some (Some 2) ∧
  ImportedDecls widgetState !! 3 = Some (Some 9) ∧
  ∃ st',
    importObjCMembers Samples.widgetContext Samples.sampleEnv
      (importDecl Samples.widgetContext Samples.sampleEnv 6) [1; 2; 3; 4; 5]
      (DCDecl 0) [] widgetState = Done [3; 23; 11; 18] st' ∧
    d_kind <$> arena st' !! 23 = Some ConstructorDecl ∧
    ∃ turns added,
      turnsRan Samples.widgetContext Samples.sampleEnv
        (importDecl Samples.widgetContext Samples.sampleEnv 6) (DCDecl 0)
        [1; 2; 3; 4; 5] widgetState turns st' ∧
      [3; 23; 11; 18] = [] ++ added ∧
      ∀ x, x ∈ added ↔
           ∃ t, t ∈ turns ∧
                (turn_special t = Some x ∨
                 (turn_member t = Some x ∧ turn_property t = None ∧
                  turn_constructor t = false)).
Proof.
  split; [by vm_compute|]. split; [by vm_compute|].
  assert (∃ st',
            importObjCMembers Samples.widgetContext Samples.sampleEnv
              (importDecl Samples.widgetContext Samples.sampleEnv 6)
              [1; 2; 3; 4; 5] (DCDecl 0) [] widgetState
            = Done [3; 23; 11; 18] st' ∧
            d_kind <$> arena st' !! 23 = Some ConstructorDecl)
    as (st' & Hrun & Hkind)
    by (eexists; split; vm_compute; reflexivity).
  exists st'. split; [exact Hrun|]. split; [exact Hkind|].
  exact (importObjCMembers_hides Samples.widgetContext Samples.sampleEnv
           (importDecl Samples.widgetContext Samples.sampleEnv 6)
           [1; 2; 3; 4; 5] (DCDecl 0) [] widgetState [3; 23; 11; 18] st' Hrun).
Defined.

(** C9 as stated fails for the member list of a class as a whole: the
    interface [Box] conforms to the protocol [Sizable] and does not declare
    [-initWithSize:] itself, so [importMirroredProtocolMembers] mirrors the
    method of the protocol into the class and enters both the function 12
    made for it and the constructor 17 synthesized from that function.  The
    members of the class are [+alloc], that function and that
    constructor. *)
Lemma mirrored_init_beside_constructor :
  ∃ st',
    importDecl Samples.sizableContext Samples.sampleEnv 6 (Some 0)
               Samples.initialState = Done (Some 0) st' ∧
    d_members <$> arena st' !! 0 = Some [8; 12; 17] ∧
    ImportedProtocolDecls st' !! (3, DCDecl 0) = Some (Some 12) ∧
    (λ d, (d_kind d, d_clangNode d)) <$> arena st' !! 12
    = Some (FuncDecl, Some 3) ∧
    (λ d, (d_kind d, d_clangNode d)) <$> arena st' !! 17
    = Some (ConstructorDecl, Some 3).
Proof.
  eexists. split; [vm_compute; reflexivity|].
  repeat split; vm_compute; reflexivity.
Qed.

(** ** Running the importer forward *)

(** [runs m st Q]: from [st], [m] runs to its end, and its value and final
    state satisfy [Q]. *)
Definition runs {A} (m : M A) (st : ImporterState)
  (Q : A → ImporterState → Prop) : Prop :=
  ∃ a st', m st = Done a st' ∧ Q a st'.

Lemma runs_ret {A} (a : A) st Q : Q a st → runs (ret a) st Q.
Proof. intros. by exists a, st. Qed.

Lemma runs_bind {A B} (m : M A) (k : A → M B) st Q :
  runs m st (λ a st', runs (k a) st' Q) → runs (bind m k) st Q.
Proof.
  intros (a & st1 & Hm & b & st2 & Hk & HQ). exists b, st2. split; [|done].
  by rewrite (bind_run _ _ _ _ _ Hm).
Qed.

Lemma runs_Done {A} (m : M A) st a st' (Q : A → ImporterState → Prop) :
  m st = Done a st' → Q a st' → runs m st Q.
Proof. intros. by exists a, st'. Qed.

Lemma runs_inv {A} (m : M A) st a st' (Q : A → ImporterState → Prop) :
  runs m st Q → m st = Done a st' → Q a st'.
Proof. intros (a' & st'' & H1 & HQ) H2. congruence. Qed.

Lemma runs_eq {A} (m : M A) st a st' :
  runs m st (λ b st'', b = a ∧ st'' = st') → m st = Done a st'.
Proof. by intros (b & st'' & H & -> & ->). Qed.

Lemma runs_allocate d st Q :
  Q (length (arena st)) (set_arena (arena st ++ [d]) st) → runs (allocate d) st Q.
Proof. intros. by eapply runs_Done. Qed.

Lemma runs_getDecl id d st Q :
  arena st !! id = Some d → Q d st → runs (getDecl id) st Q.
Proof. intros H HQ. eapply runs_Done; [|done]. by apply getDecl_Done. Qed.

Lemma runs_modifyDecl id f d st Q :
  arena st !! id = Some d → Q tt (set_arena (<[id := f d]> (arena st)) st) →
  runs (modifyDecl id f) st Q.
Proof. intros H HQ. eapply runs_Done; [|done]. apply modifyDecl_Done. eauto. Qed.

Lemma runs_modifyState f st Q : Q tt (f st) → runs (modifyState f) st Q.
Proof. intros. by eapply runs_Done. Qed.

Lemma runs_getState st Q : Q st st → runs getState st Q.
Proof. intros. by eapply runs_Done. Qed.

Lemma runs_isa k id d st Q :
  arena st !! id = Some d → Q (bool_decide (d_kind d = k)) st → runs (isa k id) st Q.
Proof. intros H HQ. eapply runs_Done; [|done]. apply isa_Done. eauto. Qed.

Lemma runs_findImportedDecl canon st Q :
  Q (ImportedDecls st !! canon) st → runs (findImportedDecl canon) st Q.
Proof. intros. by eapply runs_Done. Qed.

Lemma lookup_arena_0 {A} (l new : list A) : (l ++ new) !! length l = new !! 0.
Proof. rewrite lookup_app_r by lia. f_equal. lia. Qed.
Lemma lookup_arena_k {A} (l new : list A) k : (l ++ new) !! (length l + k) = new !! k.
Proof. rewrite lookup_app_r by lia. f_equal. lia. Qed.
Lemma insert_arena_0 {A} (l new : list A) x :
  <[length l := x]> (l ++ new) = l ++ <[0 := x]> new.
Proof. by rewrite <-(insert_app_r l new 0), Nat.add_0_r. Qed.

(** Brings the state in the goal into the form of a record whose arena is
    the initial arena followed by a list of new declarations. *)
Ltac state_simpl :=
  cbn [arena ImportedDecls ImportedProtocolDecls Subscripts SpecialTypedefNames
       ExternalDecls set_arena set_ImportedDecls set_ImportedProtocolDecls
       set_Subscripts set_SpecialTypedefNames set_ExternalDecls];
  rewrite <- ?app_assoc; cbn [app];
  rewrite ?length_app; cbn [length];
  repeat first [rewrite insert_app_r | rewrite insert_arena_0];
  cbn [insert list_insert].

Ltac arena_lookup :=
  state_simpl;
  first [ rewrite lookup_arena_k; reflexivity
        | rewrite lookup_arena_0; reflexivity
        | eassumption ].

(** Computes the fields of declarations that are written out. *)
Ltac decl_simpl :=
  cbn [d_kind d_name d_declContext d_type d_clangNode d_flags d_members
       d_protocols d_superclass d_extensions d_overridden d_argParamPatterns
       d_bodyParamPatterns d_bodyResultType d_body d_getter d_setter
       d_accessorOf d_implicitSelf d_initializerType d_allocSelfExpr
       set_declContext set_type set_clangNode set_flags set_members
       set_protocols set_superclass set_extensions set_overridden
       set_argParamPatterns set_bodyParamPatterns set_bodyResultType set_body
       set_getter set_setter set_accessorOf set_implicitSelf
       set_initializerType set_allocSelfExpr defaultDecl addFlag].

(** One step of the importer from a state that is written out: a primitive
    of the monad is run, a helper of the importer is unfolded, a test on
    known data is decided. *)
Ltac run_step :=
  cbv [set_arena set_ImportedDecls set_ImportedProtocolDecls set_Subscripts
       set_SpecialTypedefNames set_ExternalDecls];
  state_simpl;
  lazymatch goal with
  | |- runs (bind _ _) _ _ => apply runs_bind
  | |- runs (ret _) _ _ => apply runs_ret
  | |- runs (allocate _) _ _ => apply runs_allocate
  | |- runs (getDecl _) _ _ => eapply runs_getDecl; [arena_lookup|]
  | |- runs (isa _ _) _ _ => eapply runs_isa; [arena_lookup|]
  | |- runs (modifyDecl _ _) _ _ => eapply runs_modifyDecl; [arena_lookup|]
  | |- runs (modifyState _) _ _ => apply runs_modifyState
  | |- runs getState _ _ => apply runs_getState
  | |- runs (findImportedDecl _) _ _ => apply runs_findImportedDecl
  | |- runs (when _ _) _ _ =>
      rewrite ?bool_decide_is_Some_Some, ?bool_decide_is_Some_None;
      cbn [orb negb when]
  | |- runs (setImportedDecl _ _) _ _ => unfold setImportedDecl
  | |- runs (setClangNode _ _) _ _ => unfold setClangNode
  | |- runs (computeType _) _ _ => unfold computeType
  | |- runs (addedExternalDecl _) _ _ => unfold addedExternalDecl
  | |- runs (newVarDecl _ _ _) _ _ => unfold newVarDecl
  | |- runs (newFuncDecl _ _ _ _ _ _) _ _ => unfold newFuncDecl
  | |- runs (makeAccessor _ _) _ _ => unfold makeAccessor
  | |- runs (setComputedAccessors _ _ _) _ _ => unfold setComputedAccessors
  | |- runs (noteImported _ _) _ _ => unfold noteImported
  | |- runs (match d_clangNode _ with _ => _ end) _ _ => progress decl_simpl
  | |- runs (setVarDeclContexts _ _) _ _ =>
      cbn [setVarDeclContexts forM_ foldM setVarDeclContext]
  | |- runs (foldM _ _ _) _ _ => progress cbn [foldM]
  | |- runs (requireType _) _ _ => decl_simpl; progress cbn [requireType]
  | |- runs (if ?c then _ else _) _ _ =>
      let v := eval vm_compute in c in
      lazymatch v with
      | true => change c with true
      | false => change c with false
      end; cbv iota
  | |- runs (let '(_, _) := _ in _) _ _ => cbv iota beta
  end; state_simpl.

Ltac run_steps := repeat run_step; state_simpl.

(** Two states that are written out are equal when their fields are. *)
Ltac state_eq :=
  cbv [set_arena set_ImportedDecls set_ImportedProtocolDecls set_Subscripts
       set_SpecialTypedefNames set_ExternalDecls];
  cbn [arena ImportedDecls ImportedProtocolDecls Subscripts
       SpecialTypedefNames ExternalDecls];
  rewrite ?insert_insert_eq, ?Nat.add_1_r; try reflexivity.

Lemma runs_setVarDeclContexts_empty dc st Q :
  Q tt st → runs (setVarDeclContexts [PTuple [] TupleType_getEmpty] dc) st Q.
Proof. intros. by eapply runs_Done. Qed.


Lemma foldM_state {A B} (f : B → A → M B) (P : ImporterState → ImporterState → Prop) :
  (∀ st, P st st) → (∀ a b c, P a b → P b c → P a c) →
  (∀ b x st b' st', f b x st = Done b' st' → P st st') →
  ∀ l b st b' st', foldM f l b st = Done b' st' → P st st'.
Proof.
  intros Hrefl Htrans Hf l. induction l as [|x l IH]; intros b st b' st' H.
  - simpl in H. inv_run H. apply Hrefl.
  - simpl in H. apply bind_Done in H as (b1 & st1 & H1 & H2).
    eapply Htrans; [by eapply Hf|by eapply IH].
Qed.

Lemma foundFuncDecls_state results st found st' :
  foundFuncDecls results st = Done found st' → st' = st.
Proof.
  unfold foundFuncDecls.
  apply (foldM_state _ (λ a b, b = a)); [done|congruence|].
  intros b x s b' s' H. destruct x; inv_run H; [|done].
  by destruct (bool_decide _); inv_run H.
Qed.

Section Constants.
Context (env : ImporterEnv).

Lemma valueLiteral_state value st r st' :
  valueLiteral env value st = Done r st' → st' = st.
Proof.
  assert (∀ p lit, printedLiteral env p lit st = Done r st' → st' = st) as Hp.
  { intros p lit H. unfold printedLiteral, negateLiteral in H.
    destruct (negb _); inv_run H; [done|].
    destruct (bool_decide _); inv_run H; [done|].
    match goal with H : foundFuncDecls _ _ = _ |- _ =>
      apply foundFuncDecls_state in H as -> end.
    by repeat case_match; inv_run H. }
  destruct value; simpl; eauto. done.
Qed.

(** The declarations [createConstant] leaves in the arena: the constant, a
    computed variable whose getter is [getter], and the getter, which
    returns [expr]. *)
Definition constantVarDecl (name : Identifier) (dc : DeclContext) (type : Ty)
  (getter : DeclId) : Decl :=
  addFlag Flag_Computed
    (set_setter None
       (set_getter (Some getter)
          (set_type (Some type) (defaultDecl VarDecl name dc)))).

Definition constantGetterType (dc : DeclContext) (type : Ty) : Decl :=
  set_bodyResultType (Some type)
    (set_bodyParamPatterns [PTuple [] TupleType_getEmpty]
       (set_argParamPatterns [PTuple [] TupleType_getEmpty]
          (set_type (Some (TyFunction TupleType_getEmpty type))
             (defaultDecl FuncDecl "" dc)))).

Definition constantGetterDecl (dc : DeclContext) (type : Ty) (var : DeclId)
  (expr : Expr) : Decl :=
  set_accessorOf (Some var)
    (set_body (Some [ReturnStmt (Some expr)]) (constantGetterType dc type)).

(** The state in which [createConstant] builds the literal: the variable
    and the getter are there, not yet connected. *)
Definition constantPending (name : Identifier) (dc : DeclContext) (type : Ty)
  (st : ImporterState) : ImporterState :=
  set_arena (arena st ++ [set_type (Some type) (defaultDecl VarDecl name dc);
                          constantGetterType dc type]) st.

(** The state [createConstant] leaves when the literal is [expr]. *)
Definition constantCreated (name : Identifier) (dc : DeclContext) (type : Ty)
  (expr : Expr) (st : ImporterState) : ImporterState :=
  set_ExternalDecls (ExternalDecls st ++ [S (length (arena st))])
    (set_arena
       (arena st ++
        [constantVarDecl name dc type (S (length (arena st)));
         constantGetterDecl dc type (length (arena st)) expr]) st).

Lemma createConstant_Some name dc type value convertKind lit st :
  valueLiteral env value (constantPending name dc type st)
  = Done (Some lit) (constantPending name dc type st) →
  createConstant env name dc type value convertKind st
  = Done (Some (length (arena st)))
         (constantCreated name dc type (convertConstant convertKind type lit) st).
Proof.
  intros Hlit. apply runs_eq. destruct st as [A I P S T E].
  unfold createConstant. run_steps.
  eapply runs_Done; [apply Hlit|].
  unfold constantPending, constantGetterType. run_steps.
  split; [done|].
  unfold constantCreated, constantVarDecl, constantGetterDecl, constantGetterType.
  cbn [foldr Pattern_getType]. state_eq.
Qed.

Lemma createConstant_None name dc type value convertKind st :
  valueLiteral env value (constantPending name dc type st)
  = Done None (constantPending name dc type st) →
  createConstant env name dc type value convertKind st
  = Done None (constantPending name dc type st).
Proof.
  intros Hlit. apply runs_eq. destruct st as [A I P S T E].
  unfold createConstant. run_steps.
  eapply runs_Done; [apply Hlit|]. by run_steps.
Qed.

Lemma createConstant_stuck name dc type value convertKind st :
  (∀ r st', valueLiteral env value (constantPending name dc type st)
            ≠ Done r st') →
  ∀ r st', createConstant env name dc type value convertKind st ≠ Done r st'.
Proof.
  intros Hlit r st' H. destruct st as [A I P S T E].
  unfold createConstant, newVarDecl, newFuncDecl in H.
  apply bind_Done in H as (v & st1 & Hv & H). inv_run Hv.
  apply bind_Done in H as (f & st2 & Hf & H). inv_run Hf.
  apply bind_Done in H as (u & st3 & Hu & H).
  apply (runs_inv _ _ _ _ _ (runs_setVarDeclContexts_empty _ _ (λ _ s, s = _) eq_refl)) in Hu as ->.
  apply bind_Done in H as (e & st4 & He & H).
  revert He. cbn. rewrite <- app_assoc. apply Hlit.
Qed.

Lemma createConstant_Done name dc type value convertKind st r st' :
  createConstant env name dc type value convertKind st = Done r st' →
  match r with
  | Some var =>
      ∃ lit, var = length (arena st) ∧
             st' = constantCreated name dc type
                     (convertConstant convertKind type lit) st
  | None => st' = constantPending name dc type st
  end.
Proof.
  intros H.
  destruct (valueLiteral env value (constantPending name dc type st))
    as [[lit|] st3| |] eqn:Hlit.
  - pose proof (valueLiteral_state _ _ _ _ Hlit) as ->.
    rewrite (createConstant_Some _ _ _ _ convertKind _ _ Hlit) in H.
    simplify_eq. eauto.
  - pose proof (valueLiteral_state _ _ _ _ Hlit) as ->.
    rewrite (createConstant_None _ _ _ _ convertKind _ Hlit) in H.
    by simplify_eq.
  - exfalso. eapply createConstant_stuck; [|done]. by rewrite Hlit.
  - exfalso. eapply createConstant_stuck; [|done]. by rewrite Hlit.
Qed.
End Constants.


(** ** Enumerators *)

Section EnumConstants.
Context (ctx : ClangASTContext) (env : ImporterEnv).
Context (importDecl' : option ClangDeclId → M (option DeclId)).
Context (walk : nat).

(** [nearestFileContext dc c]: going up from [dc], [dc] included, [c] is the
    first declaration context that is a file context. *)
Inductive nearestFileContext : ClangDC → ClangDC → Prop :=
| nearest_here dc :
    isFileContext ctx dc = true → nearestFileContext dc dc
| nearest_parent d c :
    isFileContext ctx (DC_Decl d) = false →
    nearestFileContext (cd_declContext (getClangDecl ctx d)) c →
    nearestFileContext (DC_Decl d) c.

Lemma enclosingFileContext_Done fuel dc st c st' :
  enclosingFileContext ctx fuel dc st = Done c st' →
  st' = st ∧ nearestFileContext dc c.
Proof.
  revert dc. induction fuel as [|fuel IH]; intros dc H; simpl in H.
  - destruct (isFileContext ctx dc) eqn:Hfile.
    + inv_run H. split; [done|by constructor].
    + by destruct dc.
  - destruct (isFileContext ctx dc) eqn:Hfile.
    + inv_run H. split; [done|by constructor].
    + destruct dc as [|d]; [done|].
      apply IH in H as [-> H]. split; [done|by constructor].
Qed.

Lemma importDeclContext_translation_unit dc st r st' :
  isTranslationUnit ctx dc = true →
  importDeclContext ctx env importDecl' dc st = Done r st' →
  r = Some (DCModule (firstClangModule env)) ∧ st' = st.
Proof. unfold importDeclContext. intros -> H. by inv_run H. Qed.

(** C10.  Take an enumerator whose enumeration classifies as "bare
    constants" or "option-set", and a visit of it that returns a
    declaration.  Then the visit has walked from the context of the
    enumeration up to the nearest file context [clangDC], has imported
    [clangDC] as [dc], which is the module of the importer when [clangDC] is
    the translation unit, and has then imported the type of the
    enumeration.  If after that the cache has an entry for the enumerator,
    the visit returns it and creates nothing; otherwise the result is a new
    variable whose declaration context is [dc]: the import of the file
    context, whatever record or enumeration lies between. *)
Theorem VisitEnumConstantDecl_file_scope decl initVal clangEnum st result fwd st' :
  cd_declContext (getClangDecl ctx decl) = DC_Decl clangEnum →
  classifyEnum ctx env clangEnum ≠ Enum →
  VisitEnumConstantDecl ctx env importDecl' walk decl initVal st
  = Done (Some result, fwd) st' →
  ∃ clangDC dc st1 type st2,
    nearestFileContext (cd_declContext (getClangDecl ctx clangEnum)) clangDC ∧
    importDeclContext ctx env importDecl' clangDC st = Done (Some dc) st1 ∧
    (isTranslationUnit ctx clangDC = true →
     dc = DCModule (firstClangModule env)) ∧
    importType ctx env importDecl' (getTagDeclType clangEnum) ITK_Normal st1
    = Done (Some type) st2 ∧
    match ImportedDecls st2 !! getCanonicalDecl ctx decl with
    | Some known => known = Some result ∧ st' = st2
    | None =>
        result = length (arena st2) ∧
        ∃ d, arena st' !! result = Some d ∧ d_kind d = VarDecl ∧
             d_declContext d = dc ∧ d_type d = Some type
    end.
Proof.
  intros Hctx Hclass H. unfold VisitEnumConstantDecl in H.
  rewrite Hctx in H.
  destruct (Identifier_empty _); [by inv_run H|].
  destruct (cd_kind (getClangDecl ctx clangEnum)); try done.
  destruct (classifyEnum ctx env clangEnum); [| |done].
  all: apply bind_Done in H as (clangDC & st0 & Hwalk & H).
  all: apply enclosingFileContext_Done in Hwalk as [-> Hnearest].
  all: apply bind_Done in H as ([dc|] & st1 & Hdc & H); [|by inv_run H].
  all: apply bind_Done in H as ([type|] & st2 & Htype & H); [|by inv_run H].
  all: exists clangDC, dc, st1, type, st2.
  all: split; [done|]; split; [done|]; split.
  1,3: intros Htu.
  1,2: by destruct (importDeclContext_translation_unit _ _ _ _ Htu Hdc)
         as [[= ->] _].
  all: split; [done|].
  all: unfold findImportedDecl in H; unfold bind at 1 in H.
  all: destruct (ImportedDecls st2 !! getCanonicalDecl ctx decl) as [known|];
    [by inv_run H|].
  all: apply bind_Done in H as (r & st3 & Hcreate & H).
  all: unfold setImportedDecl in H; inv_run H.
  all: apply createConstant_Done in Hcreate as (lit & -> & ->).
  all: split; [done|]; eexists; split;
    [cbn; rewrite lookup_app_r by lia; by rewrite Nat.sub_diag|done].
Qed.
End EnumConstants.

(** In [struct Outer { enum { Fast = 1 }; };] the constant [Fast] belongs
    to the module, not to [Outer]. *)
Lemma VisitEnumConstantDecl_file_scope_Fast :
  ∃ result fwd st',
    VisitEnumConstantDecl Samples.anonymousContext Samples.sampleEnv
      (importDecl Samples.anonymousContext Samples.sampleEnv 3) 3 2 1
      Samples.initialState = Done (Some result, fwd) st' ∧
    ∃ d, arena st' !! result = Some d ∧ d_declContext d = DCModule 0.
Proof.
  destruct (VisitEnumConstantDecl Samples.anonymousContext Samples.sampleEnv
              (importDecl Samples.anonymousContext Samples.sampleEnv 3) 3 2 1
              Samples.initialState) as [[[result|] fwd] st'| |] eqn:Hvisit;
    try (vm_compute in Hvisit; discriminate Hvisit).
  exists result, fwd, st'. split; [reflexivity|].
  destruct (VisitEnumConstantDecl_file_scope Samples.anonymousContext
              Samples.sampleEnv _ 3 2 1 1 Samples.initialState result fwd st'
              eq_refl ltac:(discriminate) Hvisit)
    as (clangDC & dc & st1 & type & st2 & Hnearest & Hdc & Htu & Htype & Hresult).
  change (cd_declContext _) with (DC_Decl 0) in Hnearest.
  inversion Hnearest as [|d c Hrecord Hparent]; subst; [discriminate|].
  change (cd_declContext _) with DC_TranslationUnit in Hparent.
  inversion Hparent; subst.
  rewrite (Htu eq_refl) in *.
  vm_compute in Hdc. injection Hdc as <-.
  vm_compute in Htype. injection Htype as <- <-.
  vm_compute in Hresult. destruct Hresult as [_ (d & Hd & _ & Hcontext & _)].
  by exists d.
Defined.

(** ** Option sets *)

Section OptionSets.
Context (ctx : ClangASTContext) (env : ImporterEnv).

Lemma enclosingFileContext_here fuel dc st :
  isFileContext ctx dc = true →
  enclosingFileContext ctx fuel dc st = Done dc st.
Proof. intros H. destruct fuel; simpl; by rewrite H. Qed.

Definition enumeratorName (ec : ClangDeclId) : Identifier :=
  importName env (cd_name (getClangDecl ctx ec)) "".

(** The declaration context of what is imported from the translation
    unit. *)
Definition moduleContext : DeclContext := DCModule (firstClangModule env).

(** What [importDecl] does to a new declaration [d] imported from [canon]:
    declarations of the Swift module are not marked as imported. *)
Definition noted (canon : ClangDeclId) (d : Decl) : Decl :=
  if bool_decide (Some (d_declContext d) = DCModule <$> getSwiftModule env)
  then d else set_clangNode (Some canon) d.

(** The state after the import of the enumerator [ec] as a constant of type
    [type] whose value is built from [lit]. *)
Definition importedEnumerator (type : Ty) (lit : ClangDeclId → Expr)
  (ec : ClangDeclId) (st : ImporterState) : ImporterState :=
  let n := length (arena st) in
  set_ImportedDecls
    (<[getCanonicalDecl ctx ec := Some n]> (ImportedDecls st))
    (set_ExternalDecls (ExternalDecls st ++ [S n])
       (set_arena
          (arena st ++
           [noted (getCanonicalDecl ctx ec)
              (constantVarDecl (enumeratorName ec) moduleContext type (S n));
            constantGetterDecl moduleContext type n
              (convertConstant CCK_Construction type (lit ec))]) st)).

Lemma importDecl_enumerator fuel decl e structDecl s ec v lit st :
  cd_kind (getClangDecl ctx decl) = CK_Enum e →
  classifyEnum ctx env decl = Options →
  isTranslationUnit ctx (cd_declContext (getClangDecl ctx decl)) = true →
  cd_kind (getClangDecl ctx ec) = CK_EnumConstant v →
  cd_declContext (getClangDecl ctx ec) = DC_Decl decl →
  Identifier_empty (enumeratorName ec) = false →
  ImportedDecls st !! getCanonicalDecl ctx decl = Some (Some structDecl) →
  arena st !! structDecl = Some s →
  isNominalTypeDecl (d_kind s) = true →
  ImportedDecls st !! getCanonicalDecl ctx ec = None →
  (∀ st2, arena st `prefix_of` arena st2 →
          valueLiteral env (APValue_Int v) st2 = Done (Some (lit ec)) st2) →
  importDecl ctx env (S fuel) (Some ec) st
  = Done (Some (length (arena st)))
         (importedEnumerator (TyNominal structDecl) lit ec st).
Proof.
  intros Hkind Hclass Htu Hconst Hctx Hname Hstruct Hs Hnominal Hmiss Hlit.
  apply runs_eq. rewrite importDecl_unfold. unfold importDeclWith.
  apply runs_bind, runs_findImportedDecl. rewrite Hmiss.
  apply runs_bind. unfold Visit. rewrite Hconst.
  unfold VisitEnumConstantDecl. fold (enumeratorName ec).
  rewrite Hname, Hctx, Hkind, Hclass.
  apply runs_bind. eapply runs_Done.
  { apply enclosingFileContext_here. unfold isFileContext. by rewrite Htu. }
  apply runs_bind. unfold importDeclContext. rewrite Htu. apply runs_ret.
  apply runs_bind. unfold importType, getTagDeclType. rewrite Hclass.
  apply runs_bind. eapply runs_Done; [by apply importDecl_hit|].
  apply runs_bind. eapply runs_getDecl; [done|]. rewrite Hnominal.
  apply runs_ret.
  apply runs_bind, runs_findImportedDecl. rewrite Hmiss.
  apply runs_bind. eapply runs_Done.
  { apply createConstant_Some, Hlit. by apply prefix_app_r. }
  destruct st as [A I P S T E].
  unfold constantCreated, setImportedDecl, importedEnumerator, noted.
  run_steps.
  change (d_declContext (constantVarDecl _ ?dc _ _)) with dc.
  unfold moduleContext.
  destruct (bool_decide (Some (DCModule (firstClangModule env)) = _)).
  - run_steps. split; [done|]. state_eq.
  - unfold constantVarDecl. run_steps. split; [done|]. state_eq.
Qed.

Fixpoint importedEnumerators (type : Ty) (lit : ClangDeclId → Expr)
  (ecs : list ClangDeclId) (st : ImporterState) : ImporterState :=
  match ecs with
  | [] => st
  | ec :: ecs =>
      importedEnumerators type lit ecs (importedEnumerator type lit ec st)
  end.

(** The constants of the enumerators, two declarations apart. *)
Fixpoint enumeratorIds (n : nat) (ecs : list ClangDeclId) : list DeclId :=
  match ecs with
  | [] => []
  | _ :: ecs => n :: enumeratorIds (S (S n)) ecs
  end.

(** An enumerator of [decl] that [VisitEnumConstantDecl] can turn into a
    constant: it has a name, and the literal for its value can be built, as
    [lit ec], in every state that extends the arena of [st]. *)
Definition importableEnumerator (decl : ClangDeclId)
  (lit : ClangDeclId → Expr) (st : ImporterState) (ec : ClangDeclId) : Prop :=
  cd_declContext (getClangDecl ctx ec) = DC_Decl decl ∧
  Identifier_empty (enumeratorName ec) = false ∧
  ∃ v, cd_kind (getClangDecl ctx ec) = CK_EnumConstant v ∧
       ∀ st2, arena st `prefix_of` arena st2 →
              valueLiteral env (APValue_Int v) st2 = Done (Some (lit ec)) st2.

Lemma importEach_enumerators fuel decl e structDecl s lit ecs :
  cd_kind (getClangDecl ctx decl) = CK_Enum e →
  classifyEnum ctx env decl = Options →
  isTranslationUnit ctx (cd_declContext (getClangDecl ctx decl)) = true →
  isNominalTypeDecl (d_kind s) = true →
  ∀ st members,
    Forall (importableEnumerator decl lit st) ecs →
    NoDup (getCanonicalDecl ctx <$> ecs) →
    Forall (λ ec, ImportedDecls st !! getCanonicalDecl ctx ec = None) ecs →
    ImportedDecls st !! getCanonicalDecl ctx decl = Some (Some structDecl) →
    arena st !! structDecl = Some s →
    foldM (λ members m,
             let* member := importDecl ctx env (S fuel) (Some m) in
             match member with
             | None => ret members
             | Some member => ret (members ++ [member])
             end) ecs members st
    = Done (members ++ enumeratorIds (length (arena st)) ecs)
           (importedEnumerators (TyNominal structDecl) lit ecs st).
Proof.
  intros Hkind Hclass Htu Hnominal.
  induction ecs as [|ec ecs IH]; intros st members Hecs Hdup Hmiss Hstruct Hs.
  { simpl. by rewrite app_nil_r. }
  apply Forall_cons in Hecs as [(Hctx & Hname & v & Hconst & Hlit) Hecs].
  apply Forall_cons in Hmiss as [Hmiss Hmisses].
  rewrite fmap_cons in Hdup. apply list.NoDup_cons in Hdup as [Hfresh Hdup].
  cbn [foldM]. erewrite bind_run; cycle 1.
  { erewrite bind_run by by eapply importDecl_enumerator. reflexivity. }
  rewrite IH; clear IH.
  - f_equal. cbn [enumeratorIds]. rewrite <- app_assoc. cbn [app].
    do 3 f_equal. destruct st. cbn. rewrite length_app. cbn. lia.
  - eapply Forall_impl; [exact Hecs|].
    intros ec' (? & ? & v' & ? & Hlit'). repeat split; try done.
    exists v'. split; [done|]. intros st2 Hprefix. apply Hlit'.
    etrans; [|done]. destruct st. cbn. by apply prefix_app_r.
  - done.
  - apply Forall_forall. intros ec' Hin. destruct st. cbn.
    rewrite lookup_insert_ne.
    + rewrite Forall_forall in Hmisses. by apply Hmisses.
    + intros Heq. apply Hfresh. rewrite Heq. by apply list_elem_of_fmap_2.
  - destruct st. cbn in *. rewrite lookup_insert_ne; [done|]. congruence.
  - destruct st. cbn in *. by apply lookup_app_l_Some.
Qed.

Lemma classifyEnum_Options_name decl e :
  cd_kind (getClangDecl ctx decl) = CK_Enum e →
  classifyEnum ctx env decl = Options →
  Identifier_empty (importTagName ctx env decl (enum_typedefNameForAnonDecl e))
  = false.
Proof.
  unfold classifyEnum, getTypedefNameForAnonDecl. intros ->.
  by destruct (Identifier_empty _).
Qed.

(** The module a declaration of the translation unit is imported into. *)
Definition moduleOf (decl : ClangDeclId) : DeclContext :=
  match getClangModuleForDecl env decl with
  | Some M => DCModule M
  | None => moduleContext
  end.

Lemma importDeclContextOf_translation_unit importDecl' decl st :
  isTranslationUnit ctx (cd_declContext (getClangDecl ctx decl)) = true →
  importDeclContextOf ctx env importDecl' decl st = Done (Some (moduleOf decl)) st.
Proof.
  intros Htu. unfold importDeclContextOf, moduleOf, importDeclContext.
  rewrite Htu. by destruct (getClangModuleForDecl env decl).
Qed.

(** The declarations made for an option set named [name], from [n] on: the
    struct, the variable for the value, its pattern binding, the [self] and
    the parameter of the constructor, and the constructor. *)
Definition optionSetDecls (n : DeclId) (name : Identifier) (dc : DeclContext)
  (canon : ClangDeclId) (underlyingType : Ty) : list Decl :=
  let paramTy := TyTuple [(underlyingType, "value"%string)] in
  let paramPattern :=
    PTuple [PTyped (PNamed (n + 4) underlyingType) underlyingType] paramTy in
  let fnTy := TyFunction paramTy (TyNominal n) in
  [ set_clangNode (Some canon)
      (set_members [n + 5; n + 2; n + 1]
         (set_type (Some (TyMetaType (TyNominal n)))
            (defaultDecl StructDecl name dc)));
    set_type (Some underlyingType) (defaultDecl VarDecl "value" (DCDecl n));
    set_argParamPatterns [PTyped (PNamed (n + 1) underlyingType) underlyingType]
      (defaultDecl PatternBindingDecl "" (DCDecl n));
    set_declContext (DCDecl (n + 5))
      (set_type (Some (TyNominal n)) (defaultDecl VarDecl "self" (DCDecl n)));
    set_declContext (DCDecl (n + 5))
      (set_type (Some underlyingType) (defaultDecl VarDecl "value" (DCDecl n)));
    set_body
      (Some [ExprStmt (AssignExpr (MemberRefExpr (DeclRefExpr (n + 3)) (n + 1))
                                  (DeclRefExpr (n + 4)))])
      (set_initializerType (Some (TyFunction (TyNominal n) fnTy))
         (set_type (Some (TyFunction (TyMetaType (TyNominal n)) fnTy))
            (set_implicitSelf (Some (n + 3))
               (set_bodyParamPatterns [paramPattern]
                  (set_argParamPatterns [paramPattern]
                     (defaultDecl ConstructorDecl "init" (DCDecl n))))))) ].

(** The state after the visit of the option set [decl] has made the struct
    and entered it in the cache, before it imports the enumerators. *)
Definition importedOptionSet (decl : ClangDeclId) (e : ClangEnum)
  (underlyingType : Ty) (st : ImporterState) : ImporterState :=
  let n := length (arena st) in
  set_ImportedDecls
    (<[getCanonicalDecl ctx decl := Some n]> (ImportedDecls st))
    (set_ExternalDecls (ExternalDecls st ++ [n + 5])
       (set_arena
          (arena st ++
           optionSetDecls n
             (importTagName ctx env decl (enum_typedefNameForAnonDecl e))
             (moduleOf decl) (getCanonicalDecl ctx decl) underlyingType) st)).

Fixpoint enumeratorDecls (type : Ty) (lit : ClangDeclId → Expr) (n : nat)
  (ecs : list ClangDeclId) : list Decl :=
  match ecs with
  | [] => []
  | ec :: ecs =>
      noted (getCanonicalDecl ctx ec)
        (constantVarDecl (enumeratorName ec) moduleContext type (S n))
      :: constantGetterDecl moduleContext type n
           (convertConstant CCK_Construction type (lit ec))
      :: enumeratorDecls type lit (S (S n)) ecs
  end.

Lemma importedEnumerators_arena type lit ecs st :
  arena (importedEnumerators type lit ecs st)
  = arena st ++ enumeratorDecls type lit (length (arena st)) ecs.
Proof.
  revert st. induction ecs as [|ec ecs IH]; intros st; simpl.
  { by rewrite app_nil_r. }
  rewrite IH. destruct st as [A I P S T E]. cbn.
  rewrite <- app_assoc, length_app. cbn.
  by replace (length A + 2) with (Datatypes.S (Datatypes.S (length A))) by lia.
Qed.

Lemma importedEnumerators_cache_other type lit ecs st canon :
  canon ∉ getCanonicalDecl ctx <$> ecs →
  ImportedDecls (importedEnumerators type lit ecs st) !! canon
  = ImportedDecls st !! canon.
Proof.
  revert st. induction ecs as [|ec ecs IH]; intros st Hfresh; [done|].
  rewrite fmap_cons in Hfresh. apply not_elem_of_cons in Hfresh as [Hne Hfresh].
  simpl. rewrite IH by done. destruct st. cbn. by rewrite lookup_insert_ne.
Qed.

Lemma importedEnumerators_cache type lit ecs : ∀ st k ec,
  NoDup (getCanonicalDecl ctx <$> ecs) →
  ecs !! k = Some ec →
  ImportedDecls (importedEnumerators type lit ecs st) !! getCanonicalDecl ctx ec
  = Some (Some (length (arena st) + 2 * k)).
Proof.
  induction ecs as [|ec' ecs IH]; intros st k ec Hdup Hk; [done|].
  rewrite fmap_cons in Hdup. apply list.NoDup_cons in Hdup as [Hfresh Hdup].
  destruct k as [|k]; simpl in Hk.
  - injection Hk as ->. simpl.
    rewrite importedEnumerators_cache_other by done.
    destruct st. cbn. rewrite lookup_insert_eq. do 2 f_equal. lia.
  - simpl. rewrite (IH _ k ec) by done. destruct st. cbn.
    rewrite length_app. cbn. do 2 f_equal. lia.
Qed.

Lemma enumeratorDecls_lookup type lit ecs : ∀ n k ec,
  ecs !! k = Some ec →
  enumeratorDecls type lit n ecs !! (2 * k)
  = Some (noted (getCanonicalDecl ctx ec)
            (constantVarDecl (enumeratorName ec) moduleContext type
                             (S (n + 2 * k)))) ∧
  enumeratorDecls type lit n ecs !! (S (2 * k))
  = Some (constantGetterDecl moduleContext type (n + 2 * k)
            (convertConstant CCK_Construction type (lit ec))).
Proof.
  induction ecs as [|ec' ecs IH]; intros n k ec Hk; [done|].
  destruct k as [|k]; simpl in Hk.
  - injection Hk as ->. simpl. by rewrite Nat.add_0_r.
  - replace (2 * Datatypes.S k) with (Datatypes.S (Datatypes.S (2 * k))) by lia.
    cbn [enumeratorDecls lookup list_lookup].
    destruct (IH (Datatypes.S (Datatypes.S n)) k ec Hk) as [Hvar Hgetter].
    replace (n + Datatypes.S (Datatypes.S (2 * k)))
      with (Datatypes.S (Datatypes.S n) + 2 * k) by lia.
    done.
Qed.

Lemma enumeratorDecls_no_struct type lit n ecs :
  List.filter (λ d, bool_decide (d_kind d = StructDecl))
              (enumeratorDecls type lit n ecs) = [].
Proof.
  revert n. induction ecs as [|ec ecs IH]; intros n; [done|].
  cbn [enumeratorDecls List.filter]. rewrite IH. unfold noted.
  by destruct (bool_decide (Some _ = _)).
Qed.

Lemma importDecl_option_set_state fuel decl e b underlyingType lit st :
  cd_kind (getClangDecl ctx decl) = CK_Enum e →
  enum_definition e = Some decl →
  classifyEnum ctx env decl = Options →
  isTranslationUnit ctx (cd_declContext (getClangDecl ctx decl)) = true →
  enum_integerType e = CT_Builtin b →
  importBuiltinType env b ITK_Normal = Some underlyingType →
  ImportedDecls st !! getCanonicalDecl ctx decl = None →
  Forall (importableEnumerator decl lit st) (enum_enumerators e) →
  NoDup (getCanonicalDecl ctx <$> enum_enumerators e) →
  Forall (λ ec, ImportedDecls st !! getCanonicalDecl ctx ec = None)
         (enum_enumerators e) →
  getCanonicalDecl ctx decl ∉ getCanonicalDecl ctx <$> enum_enumerators e →
  importDecl ctx env (S (S fuel)) (Some decl) st
  = Done (Some (length (arena st)))
         (importedEnumerators (TyNominal (length (arena st))) lit
            (enum_enumerators e) (importedOptionSet decl e underlyingType st)).
Proof.
  intros Hkind Hdef Hclass Htu Hinteger Hbuiltin Hmiss Hecs Hdup Hmisses Hfresh.
  apply runs_eq. rewrite importDecl_unfold. unfold importDeclWith.
  apply runs_bind, runs_findImportedDecl. rewrite Hmiss.
  apply runs_bind. unfold Visit. rewrite Hkind.
  unfold VisitEnumDecl. rewrite Hdef, Hkind.
  rewrite (classifyEnum_Options_name _ _ Hkind Hclass).
  apply runs_bind. eapply runs_Done.
  { by apply importDeclContextOf_translation_unit. }
  rewrite Hclass, Hinteger. unfold importType. rewrite Hbuiltin.
  unfold importedOptionSet, optionSetDecls.
  destruct st as [A I P S T E].
  unfold createValueConstructor.
  run_steps. cbn [map].
  unfold importEach. eapply runs_Done.
  { eapply (importEach_enumerators fuel decl e (length A) _ lit _ Hkind Hclass
              Htu); cycle 1.
    - eapply Forall_impl; [exact Hecs|].
      intros ec' (? & ? & v' & ? & Hlit'). repeat split; try done.
      exists v'. split; [done|]. intros st2 Hprefix. apply Hlit'.
      etrans; [|done]. cbn. by apply prefix_app_r.
    - done.
    - apply Forall_forall. intros ec' Hin. cbn.
      rewrite lookup_insert_ne.
      + rewrite Forall_forall in Hmisses. by apply Hmisses.
      + intros Heq. apply Hfresh. rewrite Heq. by apply list_elem_of_fmap_2.
    - cbn. by rewrite lookup_insert_eq.
    - cbn. by rewrite lookup_arena_0.
    - done. }
  match goal with
  | |- runs _ (importedEnumerators ?type ?lit ?ecs ?st1) _ =>
      pose proof (importedEnumerators_arena type lit ecs st1) as Harena;
      pose proof (importedEnumerators_cache_other type lit ecs st1 _ Hfresh)
        as Hcache;
      remember (importedEnumerators type lit ecs st1) as X eqn:HX
  end.
  destruct X as [A' I' P' S' T' E'].
  cbn in Harena, Hcache. rewrite lookup_insert_eq in Hcache.
  assert (∃ s, A' !! length A = Some s ∧
               d_clangNode s = Some (getCanonicalDecl ctx decl))
    as (s & Hs & Hnode).
  { eexists. rewrite Harena, <- app_assoc, lookup_arena_0. done. }
  clear Harena. unfold imported. run_steps.
  destruct (bool_decide (Some (d_declContext s) = _)).
  - run_steps. split; [done|]. etrans; [|exact HX]. by rewrite insert_id.
  - run_steps. rewrite Hnode. rewrite bool_decide_eq_true_2 by done.
    run_steps. split; [done|]. etrans; [|exact HX].
    rewrite insert_id by done.
    rewrite list_insert_id; [done|]. rewrite Hs. f_equal.
    destruct s. cbn in *. by rewrite Hnode.
Qed.

Lemma isNegativePrinted_pretty (v : Z) :
  (0 ≤ v)%Z → isNegativePrinted (pretty v) = false.
Proof.
  intros Hv. destruct v as [|p|p]; [done| |lia].
  unfold pretty, pretty_Z, pretty, pretty_positive, pretty, pretty_N.
  case_decide; [done|].
  destruct (pretty_N_go (N.pos p) "") as [|c rest] eqn:Hgo; [done|].
  simpl. case_bool_decide as Hc; [|done]. subst c.
  by destruct (pretty_N_go_ne_dash (N.pos p) "" rest).
Qed.

(** The literal of an enumerator whose value is not negative. *)
Definition enumeratorLiteral (ec : ClangDeclId) : Expr :=
  match cd_kind (getClangDecl ctx ec) with
  | CK_EnumConstant v => IntegerLiteralExpr (pretty v)
  | _ => IntegerLiteralExpr ""
  end.

Lemma importableEnumerator_nonneg decl st ec v :
  cd_declContext (getClangDecl ctx ec) = DC_Decl decl →
  Identifier_empty (enumeratorName ec) = false →
  cd_kind (getClangDecl ctx ec) = CK_EnumConstant v →
  (0 ≤ v)%Z →
  importableEnumerator decl enumeratorLiteral st ec.
Proof.
  intros Hctx Hname Hkind Hv. split; [done|]. split; [done|].
  exists v. split; [done|]. intros st2 _.
  unfold valueLiteral, printedLiteral, enumeratorLiteral.
  by rewrite Hkind, isNegativePrinted_pretty.
Qed.

Lemma lookup_app_at {A} (l new : list A) n k :
  length l = n → (l ++ new) !! (n + k) = new !! k.
Proof. intros <-. apply lookup_arena_k. Qed.

Lemma noted_kind canon d : d_kind (noted canon d) = d_kind d.
Proof. unfold noted. by destruct (bool_decide _). Qed.
Lemma noted_name canon d : d_name (noted canon d) = d_name d.
Proof. unfold noted. by destruct (bool_decide _). Qed.
Lemma noted_type canon d : d_type (noted canon d) = d_type d.
Proof. unfold noted. by destruct (bool_decide _). Qed.
Lemma noted_getter canon d : d_getter (noted canon d) = d_getter d.
Proof. unfold noted. by destruct (bool_decide _). Qed.

(** X30.  Let [decl] be the definition of an enumeration of the translation
    unit that classifies as an option set, whose integer type is a builtin
    type that translates to [underlyingType]; let neither it nor its
    enumerators be in the cache, and let every enumerator have a name and a
    value that is not negative.  Then the import of [decl] returns a new
    declaration [n], and of the declarations it has added to the arena
    exactly one is a struct, which is [n]: it has the name of the
    enumeration and its members are, in this order, a constructor of type
    [(underlyingType) -> n] (under the metatype), a pattern binding of the
    variable [n + 1], and [n + 1], a stored variable of type
    [underlyingType].  The import of the enumerator at position [k] returns
    the variable [n + 6 + 2 * k], which has the name of the enumerator and
    the type of the struct, and whose getter returns the call of the
    struct's metatype on the integer literal that prints the value of the
    enumerator. *)
Theorem importDecl_option_set_literals fuel decl e b underlyingType st n :
  cd_kind (getClangDecl ctx decl) = CK_Enum e →
  enum_definition e = Some decl →
  classifyEnum ctx env decl = Options →
  isTranslationUnit ctx (cd_declContext (getClangDecl ctx decl)) = true →
  enum_integerType e = CT_Builtin b →
  importBuiltinType env b ITK_Normal = Some underlyingType →
  ImportedDecls st !! getCanonicalDecl ctx decl = None →
  Forall (λ ec, cd_declContext (getClangDecl ctx ec) = DC_Decl decl ∧
                Identifier_empty (enumeratorName ec) = false ∧
                ∃ v, cd_kind (getClangDecl ctx ec) = CK_EnumConstant v ∧
                     (0 ≤ v)%Z)
         (enum_enumerators e) →
  NoDup (getCanonicalDecl ctx <$> enum_enumerators e) →
  Forall (λ ec, ImportedDecls st !! getCanonicalDecl ctx ec = None)
         (enum_enumerators e) →
  getCanonicalDecl ctx decl ∉ getCanonicalDecl ctx <$> enum_enumerators e →
  length (arena st) = n →
  ∃ st' new s,
    importDecl ctx env (S (S fuel)) (Some decl) st = Done (Some n) st' ∧
    arena st' = arena st ++ new ∧
    List.filter (λ d, bool_decide (d_kind d = StructDecl)) new = [s] ∧
    arena st' !! n = Some s ∧ d_kind s = StructDecl ∧
    d_name s = importTagName ctx env decl (enum_typedefNameForAnonDecl e) ∧
    d_members s = [n + 5; n + 2; n + 1] ∧
    (∃ c, arena st' !! (n + 5) = Some c ∧ d_kind c = ConstructorDecl ∧
          d_type c = Some (TyFunction (TyMetaType (TyNominal n))
                             (TyFunction (TyTuple [(underlyingType, "value"%string)])
                                         (TyNominal n)))) ∧
    (∃ p, arena st' !! (n + 2) = Some p ∧ d_kind p = PatternBindingDecl ∧
          d_argParamPatterns p
          = [PTyped (PNamed (n + 1) underlyingType) underlyingType]) ∧
    (∃ v, arena st' !! (n + 1) = Some v ∧ d_kind v = VarDecl ∧
          d_type v = Some underlyingType ∧ isComputed v = false) ∧
    ∀ k ec v, enum_enumerators e !! k = Some ec →
      cd_kind (getClangDecl ctx ec) = CK_EnumConstant v →
      (∀ fuel', importDecl ctx env fuel' (Some ec) st'
                = Done (Some (n + 6 + 2 * k)) st') ∧
      ∃ var getter,
        arena st' !! (n + 6 + 2 * k) = Some var ∧ d_kind var = VarDecl ∧
        d_name var = enumeratorName ec ∧ d_type var = Some (TyNominal n) ∧
        d_getter var = Some (S (n + 6 + 2 * k)) ∧
        arena st' !! S (n + 6 + 2 * k) = Some getter ∧
        d_body getter
        = Some [ReturnStmt
                  (Some (CallExpr (MetatypeExpr (TyMetaType (TyNominal n)))
                                  (IntegerLiteralExpr (pretty v))))].
Proof.
  intros Hkind Hdef Hclass Htu Hinteger Hbuiltin Hmiss Hvalues Hdup Hmisses
    Hfresh Hn.
  set (lit := enumeratorLiteral).
  assert (Forall (importableEnumerator decl lit st) (enum_enumerators e))
    as Hecs.
  { eapply Forall_impl; [exact Hvalues|].
    intros ec (Hctx & Hname & v & Hv & Hpos).
    by eapply importableEnumerator_nonneg. }
  pose proof (importDecl_option_set_state fuel _ _ _ _ _ _ Hkind Hdef Hclass
                Htu Hinteger Hbuiltin Hmiss Hecs Hdup Hmisses Hfresh) as Hrun.
  unfold importedOptionSet in Hrun. rewrite Hn in Hrun.
  set (decls := optionSetDecls n
         (importTagName ctx env decl (enum_typedefNameForAnonDecl e))
         (moduleOf decl) (getCanonicalDecl ctx decl) underlyingType) in *.
  assert (length decls = 6) as Hdecls by done.
  match type of Hrun with
  | _ = Done _ (importedEnumerators _ _ _ ?s) => set (st1 := s) in *
  end.
  set (st' := importedEnumerators (TyNominal n) lit (enum_enumerators e) st1)
    in *.
  assert (length (arena st1) = n + 6) as Hlength.
  { unfold st1. cbn. rewrite length_app. by rewrite Hn, Hdecls. }
  assert (arena st'
          = arena st ++ decls ++
            enumeratorDecls (TyNominal n) lit (n + 6) (enum_enumerators e))
    as Harena.
  { unfold st'. rewrite importedEnumerators_arena, Hlength.
    unfold st1. cbn. by rewrite <- app_assoc. }
  assert (∀ i d, decls !! i = Some d → arena st' !! (n + i) = Some d) as Hnew.
  { intros i d Hd. rewrite Harena, lookup_app_at by done.
    by apply lookup_app_l_Some. }
  assert (∀ i, arena st' !! (n + 6 + i)
               = enumeratorDecls (TyNominal n) lit (n + 6) (enum_enumerators e)
                 !! i) as Hconstants.
  { intros i. rewrite Harena, <- Nat.add_assoc, lookup_app_at by done.
    by rewrite lookup_app_at. }
  eexists st', _, _. split; [exact Hrun|]. split; [exact Harena|].
  split.
  { rewrite List.filter_app, enumeratorDecls_no_struct, app_nil_r. reflexivity. }
  split. { rewrite <- (Nat.add_0_r n) at 1. by apply Hnew. }
  split; [done|]. split; [done|]. split; [done|].
  split. { eexists. split; [by apply Hnew|]. done. }
  split. { eexists. split; [by apply Hnew|]. done. }
  split. { eexists. split; [by apply Hnew|]. done. }
  intros k ec v Hk Hv. split.
  { intros fuel'. apply importDecl_hit. unfold st'.
    rewrite (importedEnumerators_cache _ _ _ _ k) by done.
    by rewrite Hlength. }
  destruct (enumeratorDecls_lookup (TyNominal n) lit _ (n + 6) k ec Hk)
    as [Hvar Hgetter].
  eexists _, _. split; [by rewrite Hconstants|].
  rewrite noted_kind, noted_name, noted_type, noted_getter.
  split; [done|]. split; [done|]. split; [done|]. split; [done|].
  split.
  - replace (Datatypes.S (n + 6 + 2 * k)) with (n + 6 + Datatypes.S (2 * k))
      by lia.
    rewrite Hconstants. exact Hgetter.
  - cbn. unfold lit, enumeratorLiteral. by rewrite Hv.
Qed.
End OptionSets.

Lemma lookup_fmap_Some {A B} (f : A → B) (l : list A) i x y :
  l !! i = Some x → f x = y → f <$> l !! i = Some y.
Proof. by intros -> <-. Qed.

(** [enum Color { Red = 0, Green = 1, Blue = 2 };] gives the struct 0 and
    three constants of its type, 6, 8 and 10; the getter 9 of [Green]
    returns [Color(1)]. *)
Lemma importDecl_option_set_literals_Color :
  ∃ st',
    importDecl Samples.colorContext Samples.sampleEnv 2 (Some 0)
               Samples.initialState = Done (Some 0) st' ∧
    (d_kind <$> arena st' !! 0) = Some StructDecl ∧
    d_type <$> arena st' !! 6 = Some (Some (TyNominal 0)) ∧
    d_type <$> arena st' !! 8 = Some (Some (TyNominal 0)) ∧
    d_type <$> arena st' !! 10 = Some (Some (TyNominal 0)) ∧
    d_body <$> arena st' !! 9
    = Some (Some [ReturnStmt
                    (Some (CallExpr (MetatypeExpr (TyMetaType (TyNominal 0)))
                                    (IntegerLiteralExpr "1")))]).
Proof.
  destruct (importDecl_option_set_literals Samples.colorContext
              Samples.sampleEnv 0 0
              (mkClangEnum (Some 0) None (CT_Builtin 0) [1; 2; 3]) 0
              (TyBuiltin 0) Samples.initialState 0)
    as (st' & new & s & Hrun & _ & _ & Hs & Hstruct & _ & _ & _ & _ & _ &
        Hconstants).
  - reflexivity.
  - reflexivity.
  - reflexivity.
  - reflexivity.
  - reflexivity.
  - reflexivity.
  - reflexivity.
  - apply Forall_cons_2.
    { split; [reflexivity|]. split; [reflexivity|].
      exists 0%Z. split; [reflexivity|lia]. }
    apply Forall_cons_2.
    { split; [reflexivity|]. split; [reflexivity|].
      exists 1%Z. split; [reflexivity|lia]. }
    apply Forall_cons_2.
    { split; [reflexivity|]. split; [reflexivity|].
      exists 2%Z. split; [reflexivity|lia]. }
    apply Forall_nil_2.
  - change (NoDup [1; 2; 3]).
    repeat (apply list.NoDup_cons; split;
      [rewrite ?elem_of_cons, elem_of_nil; lia|]).
    apply NoDup_nil_2.
  - repeat constructor.
  - change (0 ∉ [1; 2; 3]). rewrite ?elem_of_cons, elem_of_nil. lia.
  - reflexivity.
  - exists st'. split; [exact Hrun|].
    split; [exact (lookup_fmap_Some _ _ _ _ _ Hs Hstruct)|].
    destruct (Hconstants 0 1 0%Z eq_refl eq_refl)
      as (_ & ? & ? & HRed & _ & _ & TRed & _).
    destruct (Hconstants 1 2 1%Z eq_refl eq_refl)
      as (_ & ? & ? & HGreen & _ & _ & TGreen & _ & HgetGreen & BGreen).
    destruct (Hconstants 2 3 2%Z eq_refl eq_refl)
      as (_ & ? & ? & HBlue & _ & _ & TBlue & _).
    split; [exact (lookup_fmap_Some _ _ _ _ _ HRed TRed)|].
    split; [exact (lookup_fmap_Some _ _ _ _ _ HGreen TGreen)|].
    split; [exact (lookup_fmap_Some _ _ _ _ _ HBlue TBlue)|].
    exact (lookup_fmap_Some _ _ _ _ _ HgetGreen BGreen).
Defined.

(** The structs among the declarations made for the Clang declaration
    [node]. *)
Definition structsFor (node : ClangDeclId) (st : ImporterState) : list DeclId :=
  List.filter (λ i, match arena st !! i with
                    | Some d => bool_decide (d_kind d = StructDecl)
                                && bool_decide (d_clangNode d = Some node)
                    | None => false
                    end) (seq 0 (length (arena st))).

(** C8, where the code departs from it.  The enumeration [Mode] of the
    sample is an option set, declared inside the record [Outer].  On a fresh
    importer, [VisitEnumDecl] first imports the context of [Mode]: the
    import of [Outer] imports its member [Mode], makes the struct 1 for it
    and imports the enumerator [Fast] as the constant 7 of that struct.  The
    visit of [Mode], resumed, does not look in the cache again: it makes a
    second struct 9, which replaces 1 in the cache and is what the import
    returns.  So there are two structs for the one enumeration; the member
    of [Outer] is the struct 1, the import of [Mode] is the struct 9, and
    the import of [Fast] is the constant 7, whose type is the struct 1 and
    not the struct that the import of its enumeration gives. *)
Lemma importDecl_nested_option_set_two_structs :
  classifyEnum Samples.nestedContext Samples.sampleEnv 1 = Options ∧
  ∃ st',
    importDecl Samples.nestedContext Samples.sampleEnv 6 (Some 1)
               Samples.initialState = Done (Some 9) st' ∧
    structsFor 1 st' = [1; 9] ∧
    ImportedDecls st' !! 1 = Some (Some 9) ∧
    d_members <$> arena st' !! 0 = Some [1] ∧
    importDecl Samples.nestedContext Samples.sampleEnv 6 (Some 2) st'
    = Done (Some 7) st' ∧
    d_type <$> arena st' !! 7 = Some (Some (TyNominal 1)).
Proof.
  split; [reflexivity|].
  eexists. split; [vm_compute; reflexivity|].
  repeat split; vm_compute; reflexivity.
Qed.

(** * Further properties of the importer *)

(** ** Well-known types *)

Section WellKnownTypeProperties.
Context (ctx : ClangASTContext) (env : ImporterEnv).

(** The table entry [getSwiftStdlibType] works with: the first line of the
    table with the name of the typedef. *)
Definition mappedEntry (Name : Identifier) : option MappedType :=
  find (λ e, String.eqb Name (C_TYPE_NAME e)) (MappedTypes env).

(** The entry applies to the language of the translation unit. *)
Definition appliesToLanguage (e : MappedType) : Prop :=
  LANGUAGES e = MappedLanguages_All env ∨
  N.land (LANGUAGES e) (MappedLanguages_ObjC1 env) = 0%N ∨
  LangOpts_ObjC1 ctx = true.

(** The entry fixes no width, or the width of the type. *)
Definition hasMappedWidth (e : MappedType) (ty : ClangType) : Prop :=
  C_TYPE_BITWIDTH e = 0%N ∨ C_TYPE_BITWIDTH e = getTypeSize ctx ty.

Lemma language_test e :
  negb (LANGUAGES e =? MappedLanguages_All env)%N
  && negb (N.land (LANGUAGES e) (MappedLanguages_ObjC1 env) =? 0)%N
  && negb (LangOpts_ObjC1 ctx) = false ↔ appliesToLanguage e.
Proof.
  unfold appliesToLanguage.
  destruct (N.eqb_spec (LANGUAGES e) (MappedLanguages_All env)),
    (N.eqb_spec (N.land (LANGUAGES e) (MappedLanguages_ObjC1 env)) 0),
    (LangOpts_ObjC1 ctx); simpl; intuition congruence.
Qed.

Lemma width_test e ty :
  negb (C_TYPE_BITWIDTH e =? 0)%N
  && negb (C_TYPE_BITWIDTH e =? getTypeSize ctx ty)%N = false
  ↔ hasMappedWidth e ty.
Proof.
  unfold hasMappedWidth.
  destruct (N.eqb_spec (C_TYPE_BITWIDTH e) 0),
    (N.eqb_spec (C_TYPE_BITWIDTH e) (getTypeSize ctx ty)); simpl;
    intuition congruence.
Qed.

(** X1.  The error flag is raised only for a typedef that has passed every
    check and whose Swift type cannot be had: the module is not there, or the
    module has no such type and the entry does not allow that. *)
Theorem getSwiftStdlibType_IsError underlyingType Name r :
  getSwiftStdlibType ctx env underlyingType Name = Some r →
  IsError r = true →
  stdlib_type r = None ∧ stdlib_name r = ""%string ∧
  ∃ e, mappedEntry Name = Some e ∧ appliesToLanguage e ∧
       hasMappedWidth e underlyingType ∧
       checkCTypeKind ctx (C_TYPE_KIND e) (C_TYPE_BITWIDTH e) underlyingType
       = ShapePass ∧
       match mappedModule env e with
       | None => True
       | Some M => getNamedSwiftType env M (SWIFT_TYPE_NAME e) = None ∧
                   CAN_BE_MISSING e = false
       end.
Proof.
  unfold getSwiftStdlibType, mappedEntry, mappedModule.
  destruct (find _ _) as [e|]; [|by intros [= <-]].
  destruct (negb (LANGUAGES e =? _)%N && _ && _) eqn:Hlang;
    [by intros [= <-]|].
  destruct (negb (C_TYPE_BITWIDTH e =? 0)%N && _) eqn:Hwidth;
    [by intros [= <-]|].
  apply language_test in Hlang. apply width_test in Hwidth.
  destruct (checkCTypeKind _ _ _ _) eqn:Hshape; [|by intros [= <-]|done].
  destruct (if String.eqb "swift" (SWIFT_MODULE_NAME e) then _ else _)
    as [M|] eqn:HM.
  - destruct (getNamedSwiftType env M (SWIFT_TYPE_NAME e)) as [ty|] eqn:Hty.
    + rewrite bool_decide_is_Some_Some. cbn [negb andb]. by intros [= <-].
    + rewrite bool_decide_is_Some_None. cbn [negb andb].
      destruct (CAN_BE_MISSING e) eqn:Hmissing; cbn [negb]; intros [= <-];
        [done|].
      intros _. repeat split. exists e. by rewrite HM.
  - intros [= <-] _. repeat split. exists e. by rewrite HM.
Qed.

(** The underlying type is not of the kind of the entry. *)
Definition kindMismatch (k : MappedCTypeKind) (ty : ClangType) : Prop :=
  match k with
  | UnsignedInt => isUnsignedIntegerType ctx ty = false
  | SignedInt => isSignedIntegerType ctx ty = false
  | FloatIEEEsingle | FloatIEEEdouble | FloatX87DoubleExtended =>
      isFloatingType ctx ty = false
  | ObjCBool => hasSameType_ObjCBuiltinBoolTy ctx ty = false
  | ObjCSel =>
      ∃ pointee, getAsPointerType ctx ty = Some pointee ∧
                 isSpecificBuiltinType_ObjCSel ctx pointee = false
  end.

(** X2.  A typedef is left alone, and no error is raised, when its name is not
    in the table, when its entry does not apply to the language, when the
    width of its type is not the width of the entry, or when its type is not
    of the kind of the entry. *)
Theorem getSwiftStdlibType_not_mapped underlyingType Name :
  match mappedEntry Name with
  | None => True
  | Some e => ¬ appliesToLanguage e ∨ ¬ hasMappedWidth e underlyingType ∨
              kindMismatch (C_TYPE_KIND e) underlyingType
  end →
  getSwiftStdlibType ctx env underlyingType Name = Some notMapped.
Proof.
  unfold getSwiftStdlibType, mappedEntry.
  destruct (find _ _) as [e|]; [|done].
  destruct (negb (LANGUAGES e =? _)%N && _ && _) eqn:Hlang; [done|].
  destruct (negb (C_TYPE_BITWIDTH e =? 0)%N && _) eqn:Hwidth; [done|].
  apply language_test in Hlang. apply width_test in Hwidth.
  intros [?|[?|Hkind]]; [done..|].
  unfold kindMismatch in Hkind. unfold checkCTypeKind.
  destruct (C_TYPE_KIND e); try by rewrite Hkind.
  destruct Hkind as (pointee & -> & ->). done.
Qed.

(** X3.  When every check passes and the module is there, the result is the
    type of that name in the module, which can be null if the entry allows it,
    together with the name, and there is no error. *)
Theorem getSwiftStdlibType_mapped underlyingType Name e M :
  mappedEntry Name = Some e →
  appliesToLanguage e →
  hasMappedWidth e underlyingType →
  checkCTypeKind ctx (C_TYPE_KIND e) (C_TYPE_BITWIDTH e) underlyingType
  = ShapePass →
  mappedModule env e = Some M →
  is_Some (getNamedSwiftType env M (SWIFT_TYPE_NAME e)) ∨
  CAN_BE_MISSING e = true →
  getSwiftStdlibType ctx env underlyingType Name
  = Some {| stdlib_type := getNamedSwiftType env M (SWIFT_TYPE_NAME e);
            stdlib_name := SWIFT_TYPE_NAME e; IsError := false |}.
Proof.
  unfold getSwiftStdlibType, mappedEntry, mappedModule.
  intros -> Hlang Hwidth -> HM Hfound.
  apply language_test in Hlang as ->. apply width_test in Hwidth as ->.
  rewrite HM.
  destruct Hfound as [[ty ->]| ->].
  - by rewrite bool_decide_is_Some_Some.
  - by rewrite andb_false_r.
Qed.
End WellKnownTypeProperties.

(** The sample translation unit on a target whose types are all 64 bits
    wide. *)
Definition wideContext : ClangASTContext :=
  {| getClangDecl := Samples.colorDecls; LangOpts_ObjC1 := true;
     getTypeSize := λ _, 64%N;
     isUnsignedIntegerType := λ _, false;
     isSignedIntegerType := λ _, true;
     isFloatingType := λ _, false;
     getFloatTypeSemantics := λ _, Bogus;
     hasSameType_ObjCBuiltinBoolTy := λ _, false;
     getAsPointerType := λ _, None;
     isSpecificBuiltinType_ObjCSel := λ _, false;
     lookupMethod := Samples.noMethods; getMethod := Samples.noMethods |}.

(** [typedef int SEL;] without the module ObjectiveC: the entry is found and
    its module is not. *)
Lemma getSwiftStdlibType_IsError_SEL :
  ∃ e, mappedEntry Samples.sampleEnv "SEL" = Some e ∧
       mappedModule Samples.sampleEnv e = None.
Proof.
  destruct (getSwiftStdlibType_IsError Samples.colorContext Samples.sampleEnv
              (CT_Builtin 0) "SEL" _ eq_refl eq_refl)
    as (_ & _ & e & Hentry & _ & _ & _ & _).
  exists e. split; [exact Hentry|].
  injection Hentry as <-. reflexivity.
Defined.

(** [typedef long int32_t;] where [long] has 64 bits is not [Int32]. *)
Lemma getSwiftStdlibType_not_mapped_int32_t :
  getSwiftStdlibType wideContext Samples.sampleEnv (CT_Builtin 0) "int32_t"
  = Some notMapped.
Proof.
  apply getSwiftStdlibType_not_mapped. right. left.
  intros [Hwidth|Hwidth]; discriminate Hwidth.
Defined.

(** An importer that has the standard library, module 1, with the structs
    [Int32] and [Int], declarations 0 and 1 of the arena, and that has not
    loaded the module ObjectiveC. *)
Definition stdlibEnv : ImporterEnv :=
  {| importName := importName Samples.sampleEnv;
     firstClangModule := 0;
     getSwiftModule := Some 1;
     getNamedModule := λ _, None;
     getNamedSwiftType := λ M name,
       if bool_decide (M = 1) then
         if String.eqb name "Int32" then Some (TyNominal 0)
         else if String.eqb name "Int" then Some (TyNominal 1)
         else None
       else None;
     getClangModuleForDecl := λ _, Some 0;
     MappedTypes :=
       [ MAP_TYPE "int32_t" SignedInt 32 "swift" "Int32" 3 false;
         MAP_TYPE "Int32" SignedInt 32 "swift" "Int32" 3 false;
         MAP_TYPE "NSInteger" SignedInt 0 "swift" "Int" 1 false;
         MAP_TYPE "BOOL" ObjCBool 8 "ObjectiveC" "ObjCBool" 1 false ];
     MappedLanguages_ObjC1 := 1;
     MappedLanguages_All := 3;
     importBuiltinType := importBuiltinType Samples.sampleEnv;
     importOtherType := importOtherType Samples.sampleEnv;
     importFunctionType := importFunctionType Samples.sampleEnv;
     lookupQualified := λ _ _ _, [];
     UnqualifiedLookup := λ _ _ _, [];
     getImplicitProtocols := λ _ _, [];
     getRedeclContext := λ dc, dc |}.

Definition stdlibState : ImporterState :=
  set_arena [defaultDecl StructDecl "Int32" (DCModule 1);
             defaultDecl StructDecl "Int" (DCModule 1)] Samples.initialState.

(** [typedef int int32_t;] is [Int32] of the standard library. *)
Lemma getSwiftStdlibType_mapped_int32_t :
  getSwiftStdlibType Samples.colorContext stdlibEnv (CT_Builtin 0) "int32_t"
  = Some {| stdlib_type := Some (TyNominal 0); stdlib_name := "Int32";
            IsError := false |}.
Proof.
  apply (getSwiftStdlibType_mapped Samples.colorContext stdlibEnv
           (CT_Builtin 0) "int32_t"
           (MAP_TYPE "int32_t" SignedInt 32 "swift" "Int32" 3 false) 1).
  - reflexivity.
  - left. reflexivity.
  - right. reflexivity.
  - reflexivity.
  - reflexivity.
  - left. by eexists.
Defined.

Section Typedefs.
Context (ctx : ClangASTContext) (env : ImporterEnv).
Context (importDecl' : option ClangDeclId → M (option DeclId)).

(** The name a declaration is imported under. *)
Definition importedName (decl : ClangDeclId) : Identifier :=
  importName env (cd_name (getClangDecl ctx decl)) "".

(** The state in which the typedef [Decl] is noted as special. *)
Definition notedSpecial (Decl : ClangDeclId) (st : ImporterState)
  : ImporterState :=
  set_SpecialTypedefNames ({[Decl]} ∪ SpecialTypedefNames st) st.

(** X4.  A typedef of the translation unit whose well-known type cannot be had
    is not imported at all: there is no alias of the underlying type instead,
    and the state is left as it was. *)
Theorem VisitTypedefNameDecl_error Decl underlyingType r st :
  Identifier_empty (importedName Decl) = false →
  isTranslationUnit ctx (cd_declContext (getClangDecl ctx Decl)) = true →
  isTranslationUnit ctx
    (getRedeclContext env (cd_declContext (getClangDecl ctx Decl))) = true →
  getSwiftStdlibType ctx env underlyingType (importedName Decl) = Some r →
  IsError r = true →
  VisitTypedefNameDecl ctx env importDecl' Decl underlyingType st
  = Done (None, false) st.
Proof.
  intros Hname Htu Hredecl Hstdlib Herror. apply runs_eq.
  unfold VisitTypedefNameDecl. fold (importedName Decl).
  rewrite Hname, Hredecl, Hstdlib, Herror.
  apply runs_bind. eapply runs_Done.
  { by apply importDeclContextOf_translation_unit. }
  by apply runs_ret.
Qed.

(** X5.  A typedef of the translation unit that is a well-known type is noted
    as special. If it has the name of the Swift type it stands for, the visit
    returns the declaration of that type, a struct, and makes no alias;
    otherwise it makes an alias of the Swift type. The underlying C type is
    not translated in either case. *)
Theorem VisitTypedefNameDecl_well_known Decl underlyingType r SwiftType st :
  Identifier_empty (importedName Decl) = false →
  isTranslationUnit ctx (cd_declContext (getClangDecl ctx Decl)) = true →
  isTranslationUnit ctx
    (getRedeclContext env (cd_declContext (getClangDecl ctx Decl))) = true →
  getSwiftStdlibType ctx env underlyingType (importedName Decl) = Some r →
  IsError r = false →
  stdlib_type r = Some SwiftType →
  (importedName Decl = stdlib_name r →
   ∀ d s, SwiftType = TyNominal d → arena st !! d = Some s →
          d_kind s = StructDecl →
          VisitTypedefNameDecl ctx env importDecl' Decl underlyingType st
          = Done (Some d, false) (notedSpecial Decl st)) ∧
  (importedName Decl ≠ stdlib_name r →
   VisitTypedefNameDecl ctx env importDecl' Decl underlyingType st
   = Done (Some (length (arena st)), false)
          (set_arena (arena st ++
                      [set_type (Some SwiftType)
                         (defaultDecl TypeAliasDecl (importedName Decl)
                                      (moduleOf env Decl))])
             (notedSpecial Decl st))).
Proof.
  intros Hname Htu Hredecl Hstdlib Herror Htype.
  assert (∀ Q,
    runs (VisitTypedefNameDecl ctx env importDecl' Decl underlyingType) st Q
    ↔ runs (if String.eqb (importedName Decl) (stdlib_name r) then
              match SwiftType with
              | TyNominal d =>
                  let* isStruct := isa StructDecl d in
                  if isStruct then imported d else undefined
              | _ => undefined
              end
            else
              let* alias :=
                allocate (set_type (Some SwiftType)
                            (defaultDecl TypeAliasDecl (importedName Decl)
                                         (moduleOf env Decl))) in
              imported alias) (notedSpecial Decl st) Q) as Hvisit.
  { intros Q. unfold VisitTypedefNameDecl. fold (importedName Decl).
    rewrite Hname, Hredecl, Hstdlib, Herror, Htype.
    unfold runs, notedSpecial.
    rewrite (bind_run _ _ _ _ _
               (importDeclContextOf_translation_unit ctx env _ _ _ Htu)).
    unfold bind at 1. cbn [modifyState].
    destruct (String.eqb _ _); [done|].
    by rewrite bind_ret. }
  split.
  - intros Heq d s -> Hd Hkind. apply runs_eq, Hvisit.
    rewrite Heq, String.eqb_refl.
    apply runs_bind. eapply runs_isa; [exact Hd|].
    rewrite Hkind, bool_decide_eq_true_2 by done. by apply runs_ret.
  - intros Hne. apply runs_eq, Hvisit.
    apply String.eqb_neq in Hne as ->. unfold imported, notedSpecial.
    destruct st. run_steps. done.
Qed.
End Typedefs.

(** [typedef int SEL; typedef int int32_t; typedef int Int32;] *)
Definition typedefDecls (d : ClangDeclId) : ClangDecl :=
  match d with
  | 0 => Samples.clangDecl (CK_TypedefName (CT_Builtin 0)) (Some "SEL"%string)
           DC_TranslationUnit 0
  | 1 => Samples.clangDecl (CK_TypedefName (CT_Builtin 0))
           (Some "int32_t"%string) DC_TranslationUnit 1
  | 2 => Samples.clangDecl (CK_TypedefName (CT_Builtin 0))
           (Some "Int32"%string) DC_TranslationUnit 2
  | _ => Samples.unused
  end.
Definition typedefContext :=
  Samples.sampleContext typedefDecls Samples.noMethods.

(** [typedef int SEL;] while the module ObjectiveC is not loaded. *)
Lemma VisitTypedefNameDecl_error_SEL :
  VisitTypedefNameDecl typedefContext Samples.sampleEnv (λ _, ret None) 0
    (CT_Builtin 0) Samples.initialState
  = Done (None, false) Samples.initialState.
Proof.
  exact (VisitTypedefNameDecl_error typedefContext Samples.sampleEnv
           (λ _, ret None) 0 (CT_Builtin 0) _ Samples.initialState
           eq_refl eq_refl eq_refl eq_refl eq_refl).
Defined.

(** [typedef int Int32;] is the struct [Int32] itself, and
    [typedef int int32_t;] an alias of it. *)
Lemma VisitTypedefNameDecl_well_known_Int32 :
  VisitTypedefNameDecl typedefContext stdlibEnv (λ _, ret None) 2
    (CT_Builtin 0) stdlibState
  = Done (Some 0, false) (notedSpecial 2 stdlibState) ∧
  VisitTypedefNameDecl typedefContext stdlibEnv (λ _, ret None) 1
    (CT_Builtin 0) stdlibState
  = Done (Some 2, false)
      (set_arena (arena stdlibState ++
                  [set_type (Some (TyNominal 0))
                     (defaultDecl TypeAliasDecl "int32_t" (DCModule 0))])
         (notedSpecial 1 stdlibState)).
Proof.
  split.
  - exact (proj1 (VisitTypedefNameDecl_well_known typedefContext stdlibEnv
                    (λ _, ret None) 2 (CT_Builtin 0) _ (TyNominal 0)
                    stdlibState eq_refl eq_refl eq_refl eq_refl eq_refl
                    eq_refl)
             eq_refl 0 _ eq_refl eq_refl eq_refl).
  - refine (proj2 (VisitTypedefNameDecl_well_known typedefContext stdlibEnv
                     (λ _, ret None) 1 (CT_Builtin 0) _ (TyNominal 0)
                     stdlibState eq_refl eq_refl eq_refl eq_refl eq_refl
                     eq_refl) _).
    discriminate.
Defined.


(** ** Declaration contexts of pattern variables *)

(** The variables a pattern binds, from left to right. *)
Fixpoint patternVars (p : Pattern) : list DeclId :=
  match p with
  | PNamed var _ => [var]
  | PTyped sub _ | PParen sub _ => patternVars sub
  | PTuple fields _ =>
      (fix elts (fs : list Pattern) : list DeclId :=
         match fs with
         | [] => []
         | elt :: fs' => patternVars elt ++ elts fs'
         end) fields
  | PAny _ => []
  end.

Definition patternsVars (ps : list Pattern) : list DeclId :=
  concat (patternVars <$> ps).

(** The arena after the context of each of [vars] has been set to [dc]. *)
Definition withDeclContext (dc : DeclContext) (vars : list DeclId)
  (arena : list Decl) : list Decl :=
  foldl (λ a v, alter (set_declContext dc) v a) arena vars.

Lemma Pattern_nested_ind (P : Pattern → Prop) :
  (∀ var ty, P (PNamed var ty)) →
  (∀ sub ty, P sub → P (PTyped sub ty)) →
  (∀ sub ty, P sub → P (PParen sub ty)) →
  (∀ fields ty, Forall P fields → P (PTuple fields ty)) →
  (∀ ty, P (PAny ty)) →
  ∀ p, P p.
Proof.
  intros Hnamed Htyped Hparen Htuple Hany.
  fix IH 1. intros [var ty|sub ty|sub ty|fields ty|ty].
  - apply Hnamed.
  - apply Htyped, IH.
  - apply Hparen, IH.
  - apply Htuple. induction fields as [|f fs IHfs]; constructor.
    + apply IH.
    + apply IHfs.
  - apply Hany.
Qed.

Lemma withDeclContext_length dc vars arena :
  length (withDeclContext dc vars arena) = length arena.
Proof.
  revert arena. induction vars as [|v vars IH]; intros arena; [done|].
  unfold withDeclContext in *. simpl. by rewrite IH, length_alter.
Qed.

Lemma withDeclContext_app dc vars1 vars2 arena :
  withDeclContext dc (vars1 ++ vars2) arena
  = withDeclContext dc vars2 (withDeclContext dc vars1 arena).
Proof. apply foldl_app. Qed.

Lemma modifyDecl_alter id f st :
  id < length (arena st) →
  modifyDecl id f st = Done tt (set_arena (alter f id (arena st)) st).
Proof.
  intros Hid. unfold modifyDecl.
  destruct (lookup_lt_is_Some_2 _ _ Hid) as [d Hd]. rewrite Hd.
  do 2 f_equal. apply list_eq. intros i.
  destruct (decide (i = id)) as [->|Hne].
  - rewrite list_lookup_insert_eq, list_lookup_alter_eq by done. by rewrite Hd.
  - by rewrite list_lookup_insert_ne, list_lookup_alter_ne.
Qed.

Lemma setVarDeclContext_run dc p : ∀ st,
  Forall (λ v, v < length (arena st)) (patternVars p) →
  setVarDeclContext p dc st
  = Done tt (set_arena (withDeclContext dc (patternVars p) (arena st)) st).
Proof.
  induction p as [var ty|sub ty IH|sub ty IH|fields ty IH|ty]
    using Pattern_nested_ind; intros st Hvars.
  - cbn [patternVars] in Hvars. apply Forall_inv in Hvars.
    exact (modifyDecl_alter _ _ _ Hvars).
  - by apply IH.
  - by apply IH.
  - cbn [setVarDeclContext patternVars] in *.
    revert st Hvars. induction IH as [|f fs Hf _ IHfs]; intros st Hvars.
    { by destruct st. }
    apply Forall_app in Hvars as [Hf_vars Hfs_vars].
    rewrite (bind_run _ _ _ _ _ (Hf st Hf_vars)).
    rewrite IHfs.
    + by rewrite withDeclContext_app.
    + cbn. by rewrite withDeclContext_length.
  - by destruct st.
Qed.

Lemma setVarDeclContexts_run dc ps : ∀ st,
  Forall (λ v, v < length (arena st)) (patternsVars ps) →
  setVarDeclContexts ps dc st
  = Done tt (set_arena (withDeclContext dc (patternsVars ps) (arena st)) st).
Proof.
  unfold setVarDeclContexts, forM_, patternsVars.
  induction ps as [|p ps IH]; intros st Hvars.
  { by destruct st. }
  cbn [fmap list_fmap concat foldM] in *.
  apply Forall_app in Hvars as [Hp Hps].
  rewrite (bind_run _ _ _ _ _ (setVarDeclContext_run dc p st Hp)).
  rewrite IH.
  - by rewrite withDeclContext_app.
  - cbn. by rewrite withDeclContext_length.
Qed.

Lemma withDeclContext_lookup dc vars : ∀ arena i,
  withDeclContext dc vars arena !! i
  = if bool_decide (i ∈ vars) then set_declContext dc <$> arena !! i
    else arena !! i.
Proof.
  induction vars as [|v vars IH]; intros arena i; [done|].
  unfold withDeclContext in *. cbn [foldl]. rewrite IH.
  destruct (decide (i = v)) as [->|Hne].
  - rewrite list_lookup_alter_eq.
    rewrite (bool_decide_eq_true_2 (v ∈ v :: vars)) by left.
    case_bool_decide; [|done].
    destruct (arena !! v) as [[]|]; done.
  - rewrite list_lookup_alter_ne by done.
    case_bool_decide as Hin; case_bool_decide as Hin'; try done.
    + exfalso. apply Hin'. by right.
    + exfalso. apply elem_of_cons in Hin' as [?|?]; done.
Qed.

(** X6.  [setVarDeclContexts] on patterns whose variables are all allocated:
    the declaration context of exactly the variables that the patterns bind is
    set to [dc]; every other declaration, every other field of those
    variables, and the rest of the state stay as they were. *)
Theorem setVarDeclContexts_effect dc ps st :
  Forall (λ v, v < length (arena st)) (patternsVars ps) →
  ∃ arena',
    setVarDeclContexts ps dc st = Done tt (set_arena arena' st) ∧
    length arena' = length (arena st) ∧
    ∀ i, arena' !! i
         = if bool_decide (i ∈ patternsVars ps)
           then set_declContext dc <$> arena st !! i
           else arena st !! i.
Proof.
  intros Hvars. eexists. split; [by apply setVarDeclContexts_run|].
  split; [apply withDeclContext_length|apply withDeclContext_lookup].
Qed.

(** Three variables, of which a tuple pattern binds the first and a
    parenthesized pattern the third. *)
Definition threeVariables : ImporterState :=
  set_arena [defaultDecl VarDecl "a" (DCModule 0);
             defaultDecl VarDecl "b" (DCModule 0);
             defaultDecl VarDecl "c" (DCModule 0)] Samples.initialState.
Definition twoPatterns : list Pattern :=
  [PTuple [PTyped (PNamed 0 (TyBuiltin 0)) (TyBuiltin 0); PAny (TyBuiltin 0)]
          (TyBuiltin 0);
   PParen (PNamed 2 (TyBuiltin 0)) (TyBuiltin 0)].

Lemma setVarDeclContexts_effect_three :
  ∃ arena',
    setVarDeclContexts twoPatterns (DCDecl 7) threeVariables
    = Done tt (set_arena arena' threeVariables) ∧
    length arena' = 3 ∧
    ∀ i, arena' !! i
         = if bool_decide (i ∈ patternsVars twoPatterns)
           then set_declContext (DCDecl 7) <$> arena threeVariables !! i
           else arena threeVariables !! i.
Proof.
  apply (setVarDeclContexts_effect (DCDecl 7) twoPatterns threeVariables).
  repeat constructor.
Defined.


(** ** Records *)

Section Records.
Context (ctx : ClangASTContext) (env : ImporterEnv).

(** The Swift type of a field of a builtin C type. *)
Definition fieldType (f : ClangDeclId) : option Ty :=
  match cd_kind (getClangDecl ctx f) with
  | CK_Field fld | CK_ObjCIvar fld =>
      match field_type fld with
      | CT_Builtin b => importBuiltinType env b ITK_Normal
      | _ => None
      end
  | _ => None
  end.

(** A field of the record [decl] that [VisitFieldDecl] can turn into a
    variable without importing anything else: it has a name and a builtin
    type that translates, and is not the field of an anonymous struct or
    union. *)
Definition importableField (decl f : ClangDeclId) : Prop :=
  cd_declContext (getClangDecl ctx f) = DC_Decl decl ∧
  Identifier_empty (importedName ctx env f) = false ∧
  is_Some (fieldType f) ∧
  ∃ fld, cd_kind (getClangDecl ctx f) = CK_Field fld ∧
         field_isAnonymousStructOrUnion fld = false.

(** The variable made for the field [f] of the struct [structDecl]. *)
Definition fieldDecl (structDecl : DeclId) (f : ClangDeclId) : Decl :=
  set_clangNode (Some (getCanonicalDecl ctx f))
    ((if cd_IBOutlet (getClangDecl ctx f) then addFlag Attr_IBOutlet else id)
       (set_type (fieldType f)
          (defaultDecl VarDecl (importedName ctx env f) (DCDecl structDecl)))).

(** The state after the import of the field [f]. *)
Definition importedField (structDecl : DeclId) (f : ClangDeclId)
  (st : ImporterState) : ImporterState :=
  set_ImportedDecls
    (<[getCanonicalDecl ctx f := Some (length (arena st))]> (ImportedDecls st))
    (set_arena (arena st ++ [fieldDecl structDecl f]) st).

Lemma importDecl_field fuel decl r structDecl s f st :
  cd_kind (getClangDecl ctx decl) = CK_Record r →
  importableField decl f →
  ImportedDecls st !! getCanonicalDecl ctx decl = Some (Some structDecl) →
  arena st !! structDecl = Some s →
  isNominalTypeDecl (d_kind s) = true →
  ImportedDecls st !! getCanonicalDecl ctx f = None →
  importDecl ctx env (S fuel) (Some f) st
  = Done (Some (length (arena st))) (importedField structDecl f st).
Proof.
  intros Hkind (Hctx & Hname & [ty Hty] & fld & Hfield & Hanon) Hstruct Hs
    Hnominal Hmiss.
  assert (isTranslationUnit ctx (DC_Decl decl) = false) as Htu.
  { unfold isTranslationUnit. by rewrite Hkind. }
  assert (isNamedDecl ctx decl = true) as Hnamed.
  { unfold isNamedDecl. by rewrite Hkind. }
  apply runs_eq. rewrite importDecl_unfold. unfold importDeclWith.
  apply runs_bind, runs_findImportedDecl. rewrite Hmiss.
  apply runs_bind. unfold Visit. rewrite Hfield.
  unfold VisitFieldDecl. fold (importedName ctx env f). rewrite Hname.
  unfold importedField, fieldDecl. rewrite Hty.
  unfold fieldType in Hty. rewrite Hfield in Hty.
  apply runs_bind. unfold importType.
  destruct (field_type fld) as [b| |]; try done. rewrite Hty. apply runs_ret.
  apply runs_bind. unfold importDeclContextOf. rewrite Hctx, Htu.
  unfold importDeclContext. rewrite Htu, Hnamed. cbn [negb].
  apply runs_bind. eapply runs_Done; [by apply importDecl_hit|].
  apply runs_bind. eapply runs_getDecl; [done|]. rewrite Hnominal.
  apply runs_ret.
  destruct st as [A I P S T E]. unfold imported.
  destruct (cd_IBOutlet (getClangDecl ctx f)).
  - cbn [when]. run_steps.
    rewrite bool_decide_eq_false_2 by by destruct (getSwiftModule env).
    run_steps. split; [done|]. state_eq.
  - cbn [when]. run_steps.
    rewrite bool_decide_eq_false_2 by by destruct (getSwiftModule env).
    run_steps. split; [done|]. state_eq.
Qed.

Fixpoint importedFields (structDecl : DeclId) (fs : list ClangDeclId)
  (st : ImporterState) : ImporterState :=
  match fs with
  | [] => st
  | f :: fs => importedFields structDecl fs (importedField structDecl f st)
  end.

Lemma importEach_fields fuel decl r structDecl s fs :
  cd_kind (getClangDecl ctx decl) = CK_Record r →
  isNominalTypeDecl (d_kind s) = true →
  Forall (importableField decl) fs →
  ∀ st members,
    NoDup (getCanonicalDecl ctx <$> fs) →
    Forall (λ f, ImportedDecls st !! getCanonicalDecl ctx f = None) fs →
    ImportedDecls st !! getCanonicalDecl ctx decl = Some (Some structDecl) →
    arena st !! structDecl = Some s →
    foldM (λ members m,
             let* member := importDecl ctx env (S fuel) (Some m) in
             match member with
             | None => ret members
             | Some member => ret (members ++ [member])
             end) fs members st
    = Done (members ++ seq (length (arena st)) (length fs))
           (importedFields structDecl fs st).
Proof.
  intros Hkind Hnominal Hfs.
  induction Hfs as [|f fs Hf _ IH]; intros st members Hdup Hmiss Hstruct Hs.
  { simpl. by rewrite app_nil_r. }
  apply Forall_cons in Hmiss as [Hmiss Hmisses].
  rewrite fmap_cons in Hdup. apply list.NoDup_cons in Hdup as [Hfresh Hdup].
  cbn [foldM]. erewrite bind_run; cycle 1.
  { erewrite bind_run by by eapply importDecl_field. reflexivity. }
  rewrite IH; clear IH.
  - f_equal. cbn [length seq]. rewrite <- app_assoc. cbn [app].
    do 3 f_equal. destruct st. cbn. rewrite length_app. cbn. lia.
  - done.
  - apply Forall_forall. intros f' Hin. destruct st. cbn.
    rewrite lookup_insert_ne.
    + rewrite Forall_forall in Hmisses. by apply Hmisses.
    + intros Heq. apply Hfresh. rewrite Heq. by apply list_elem_of_fmap_2.
  - destruct st. cbn in *. rewrite lookup_insert_ne; [done|]. congruence.
  - destruct st. cbn in *. by apply lookup_app_l_Some.
Qed.

Lemma importedFields_arena structDecl fs st :
  arena (importedFields structDecl fs st)
  = arena st ++ (fieldDecl structDecl <$> fs).
Proof.
  revert st. induction fs as [|f fs IH]; intros st; simpl.
  { by rewrite app_nil_r. }
  rewrite IH. destruct st. cbn. by rewrite <- app_assoc.
Qed.

Lemma importedFields_external structDecl fs st :
  ExternalDecls (importedFields structDecl fs st) = ExternalDecls st.
Proof.
  revert st. induction fs as [|f fs IH]; intros st; simpl; [done|].
  rewrite IH. by destruct st.
Qed.

Lemma importedFields_cache_other structDecl fs st canon :
  canon ∉ getCanonicalDecl ctx <$> fs →
  ImportedDecls (importedFields structDecl fs st) !! canon
  = ImportedDecls st !! canon.
Proof.
  revert st. induction fs as [|f fs IH]; intros st Hfresh; [done|].
  rewrite fmap_cons in Hfresh. apply not_elem_of_cons in Hfresh as [Hne Hfresh].
  simpl. rewrite IH by done. destruct st. cbn. by rewrite lookup_insert_ne.
Qed.

Lemma importedFields_cache structDecl fs : ∀ st k f,
  NoDup (getCanonicalDecl ctx <$> fs) →
  fs !! k = Some f →
  ImportedDecls (importedFields structDecl fs st) !! getCanonicalDecl ctx f
  = Some (Some (length (arena st) + k)).
Proof.
  induction fs as [|f' fs IH]; intros st k f Hdup Hk; [done|].
  rewrite fmap_cons in Hdup. apply list.NoDup_cons in Hdup as [Hfresh Hdup].
  destruct k as [|k]; simpl in Hk.
  - injection Hk as ->. simpl.
    rewrite importedFields_cache_other by done.
    destruct st. cbn. rewrite lookup_insert_eq. do 2 f_equal. lia.
  - simpl. rewrite (IH _ k f) by done. destruct st. cbn.
    rewrite length_app. cbn. do 2 f_equal. lia.
Qed.

(** The struct made for the record [decl] at [n], once its members are
    set. *)
Definition recordDecl (n : DeclId) (decl : ClangDeclId) (r : ClangRecord)
  : Decl :=
  set_members (seq (S n) (length (rec_decls r)))
    (set_clangNode (Some (getCanonicalDecl ctx decl))
       (set_type (Some (TyMetaType (TyNominal n)))
          (defaultDecl StructDecl
             (importTagName ctx env decl (rec_typedefNameForAnonDecl r))
             (moduleOf env decl)))).

Lemma importTagName_record decl r :
  cd_kind (getClangDecl ctx decl) = CK_Record r →
  importTagName ctx env decl (rec_typedefNameForAnonDecl r)
  = importTagName ctx env decl (getTypedefNameForAnonDecl ctx decl).
Proof. unfold getTypedefNameForAnonDecl. by intros ->. Qed.

Lemma filter_all {A} (f : A → bool) (l : list A) :
  Forall (λ x, f x = true) l → List.filter f l = l.
Proof.
  induction 1 as [|x l Hx _ IH]; [done|]. simpl. by rewrite Hx, IH.
Qed.

(** The state in which the visit of the record [decl] imports the members:
    the struct is made and entered in the cache. *)
Definition recordStarted (decl : ClangDeclId) (r : ClangRecord)
  (st : ImporterState) : ImporterState :=
  set_ImportedDecls
    (<[getCanonicalDecl ctx decl := Some (length (arena st))]>
       (ImportedDecls st))
    (set_arena
       (arena st ++
        [set_clangNode (Some (getCanonicalDecl ctx decl))
           (set_type (Some (TyMetaType (TyNominal (length (arena st)))))
              (defaultDecl StructDecl
                 (importTagName ctx env decl (rec_typedefNameForAnonDecl r))
                 (moduleOf env decl)))]) st).

(** The state after the import of the record [decl]. *)
Definition importedRecord (decl : ClangDeclId) (r : ClangRecord)
  (st : ImporterState) : ImporterState :=
  let n := length (arena st) in
  let members := importedFields n (rec_decls r) (recordStarted decl r st) in
  set_ExternalDecls (ExternalDecls members ++ [n])
    (set_arena (<[n := recordDecl n decl r]> (arena members)) members).

Lemma importDecl_record_state fuel decl r st :
  cd_kind (getClangDecl ctx decl) = CK_Record r →
  rec_isUnion r = false →
  rec_isInterface r = false →
  rec_isAnonymousStructOrUnion r = false →
  rec_definition r = Some decl →
  Identifier_empty (importTagName ctx env decl (rec_typedefNameForAnonDecl r))
  = false →
  isTranslationUnit ctx (cd_declContext (getClangDecl ctx decl)) = true →
  ImportedDecls st !! getCanonicalDecl ctx decl = None →
  Forall (importableField decl) (rec_decls r) →
  NoDup (getCanonicalDecl ctx <$> rec_decls r) →
  Forall (λ f, ImportedDecls st !! getCanonicalDecl ctx f = None)
         (rec_decls r) →
  getCanonicalDecl ctx decl ∉ getCanonicalDecl ctx <$> rec_decls r →
  importDecl ctx env (S (S fuel)) (Some decl) st
  = Done (Some (length (arena st))) (importedRecord decl r st).
Proof.
  intros Hkind Hunion Hinterface Hanon Hdef Hname Htu Hmiss Hfs Hdup Hmisses
    Hfresh.
  assert (List.filter (λ m,
            isNamedDecl ctx m &&
            match cd_kind (getClangDecl ctx m) with
            | CK_Field f | CK_ObjCIvar f =>
                negb (field_isAnonymousStructOrUnion f)
            | _ => true
            end) (rec_decls r) = rec_decls r) as Hnamed.
  { apply filter_all. eapply Forall_impl; [exact Hfs|].
    intros f (_ & _ & _ & fld & Hfield & Hfanon).
    unfold isNamedDecl. by rewrite Hfield, Hfanon. }
  apply runs_eq. rewrite importDecl_unfold. unfold importDeclWith.
  apply runs_bind, runs_findImportedDecl. rewrite Hmiss.
  apply runs_bind. unfold Visit. rewrite Hkind.
  unfold VisitRecordDecl. rewrite Hunion, Hinterface, Hanon, Hdef, Hkind, Hname.
  apply runs_bind. eapply runs_Done.
  { by apply importDeclContextOf_translation_unit. }
  rewrite Hnamed. unfold importedRecord, recordStarted.
  destruct st as [A I P S T E].
  run_steps. unfold importEach. eapply runs_Done.
  { eapply (importEach_fields fuel decl r (length A) _ _ Hkind); cycle 1.
    - exact Hfs.
    - done.
    - apply Forall_forall. intros f' Hin. cbn.
      rewrite lookup_insert_ne.
      + rewrite Forall_forall in Hmisses. by apply Hmisses.
      + intros Heq. apply Hfresh. rewrite Heq. by apply list_elem_of_fmap_2.
    - cbn. by rewrite lookup_insert_eq.
    - cbn. by rewrite lookup_arena_0.
    - done. }
  match goal with
  | |- runs _ (importedFields ?n ?fs ?st1) _ =>
      pose proof (importedFields_arena n fs st1) as Harena;
      pose proof (importedFields_cache_other n fs st1 _ Hfresh) as Hcache;
      remember (importedFields n fs st1) as X eqn:HX
  end.
  destruct X as [A' I' P' S' T' E'].
  cbn in Harena, Hcache.
  rewrite lookup_insert_eq in Hcache. rewrite <- app_assoc in Harena.
  clear HX. subst A'. unfold imported. run_steps.
  decl_simpl. destruct (bool_decide (Some (moduleOf env decl) = _)).
  - run_steps. split; [done|]. unfold recordDecl.
    rewrite insert_id, Nat.add_1_r by done. reflexivity.
  - run_steps. rewrite bool_decide_eq_true_2 by done. run_steps.
    split; [done|]. unfold recordDecl.
    rewrite insert_id, Nat.add_1_r by done. reflexivity.
Qed.

(** X7.  The import of a struct of the translation unit whose members are
    plain fields. The result is a new struct declaration with the name of the
    record, registered as an external declaration; its members are new
    variables, one for each field in the order of the fields, each with the
    name and the translated type of its field and with the struct as its
    declaration context, and marked as an outlet exactly if the field is; each
    field is then imported as its variable. *)
Theorem importDecl_record fuel decl r st n :
  cd_kind (getClangDecl ctx decl) = CK_Record r →
  rec_isUnion r = false →
  rec_isInterface r = false →
  rec_isAnonymousStructOrUnion r = false →
  rec_definition r = Some decl →
  Identifier_empty (importTagName ctx env decl (rec_typedefNameForAnonDecl r))
  = false →
  isTranslationUnit ctx (cd_declContext (getClangDecl ctx decl)) = true →
  ImportedDecls st !! getCanonicalDecl ctx decl = None →
  Forall (importableField decl) (rec_decls r) →
  NoDup (getCanonicalDecl ctx <$> rec_decls r) →
  Forall (λ f, ImportedDecls st !! getCanonicalDecl ctx f = None)
         (rec_decls r) →
  getCanonicalDecl ctx decl ∉ getCanonicalDecl ctx <$> rec_decls r →
  length (arena st) = n →
  ∃ st' s,
    importDecl ctx env (S (S fuel)) (Some decl) st = Done (Some n) st' ∧
    length (arena st') = S n + length (rec_decls r) ∧
    arena st' !! n = Some s ∧ d_kind s = StructDecl ∧
    d_name s = importTagName ctx env decl (rec_typedefNameForAnonDecl r) ∧
    d_members s = seq (S n) (length (rec_decls r)) ∧
    ExternalDecls st' = ExternalDecls st ++ [n] ∧
    ∀ k f, rec_decls r !! k = Some f →
      (∀ fuel', importDecl ctx env fuel' (Some f) st'
                = Done (Some (S n + k)) st') ∧
      ∃ var, arena st' !! (S n + k) = Some var ∧ d_kind var = VarDecl ∧
             d_name var = importedName ctx env f ∧
             d_type var = fieldType f ∧ is_Some (fieldType f) ∧
             d_declContext var = DCDecl n ∧
             hasFlag Attr_IBOutlet var = cd_IBOutlet (getClangDecl ctx f).
Proof.
  intros Hkind Hunion Hinterface Hanon Hdef Hname Htu Hmiss Hfs Hdup Hmisses
    Hfresh Hn.
  pose proof (importDecl_record_state fuel _ _ _ Hkind Hunion Hinterface Hanon
                Hdef Hname Htu Hmiss Hfs Hdup Hmisses Hfresh) as Hrun.
  rewrite Hn in Hrun.
  set (st' := importedRecord decl r st) in *.
  assert (arena st'
          = arena st ++ recordDecl n decl r :: (fieldDecl n <$> rec_decls r))
    as Harena.
  { unfold st', importedRecord. rewrite Hn. cbn.
    rewrite importedFields_arena. unfold recordStarted. cbn.
    rewrite <- app_assoc, <- Hn, insert_arena_0. done. }
  exists st', (recordDecl n decl r). split; [exact Hrun|].
  split. { rewrite Harena, length_app, Hn. cbn. rewrite length_fmap. lia. }
  split. { by rewrite Harena, <- Hn, lookup_arena_0. }
  split; [done|]. split; [done|]. split; [done|].
  split.
  { unfold st', importedRecord. cbn. by rewrite importedFields_external, Hn. }
  intros k f Hk. split.
  { intros fuel'. apply importDecl_hit. unfold st', importedRecord. cbn.
    rewrite Hn, (importedFields_cache _ _ _ k) by done.
    unfold recordStarted. cbn. rewrite length_app, Hn. cbn.
    do 2 f_equal. lia. }
  exists (fieldDecl n f). split.
  { rewrite Harena. replace (S n + k) with (n + S k) by lia.
    rewrite lookup_app_at by done.
    change ((fieldDecl n <$> rec_decls r) !! k = Some (fieldDecl n f)).
    by rewrite list_lookup_fmap, Hk. }
  rewrite Forall_forall in Hfs.
  destruct (Hfs f) as (_ & _ & Hty & _); [by eapply list_elem_of_lookup_2|].
  unfold fieldDecl. destruct (cd_IBOutlet (getClangDecl ctx f)); done.
Qed.
End Records.

(** [struct Point { int x; };] imported by a fresh importer: the struct is
    declaration 0 and its field [x] declaration 1. *)
Lemma importDecl_record_Point :
  ∃ st' s,
    importDecl Samples.pointDefinedContext Samples.sampleEnv 2 (Some 1)
      Samples.initialState = Done (Some 0) st' ∧
    length (arena st') = 2 ∧
    arena st' !! 0 = Some s ∧ d_kind s = StructDecl ∧
    d_name s = "Point"%string ∧ d_members s = [1] ∧
    ExternalDecls st' = [0] ∧
    ∃ var, arena st' !! 1 = Some var ∧ d_kind var = VarDecl ∧
           d_name var = "x"%string ∧ d_type var = Some (TyBuiltin 0) ∧
           d_declContext var = DCDecl 0.
Proof.
  destruct (importDecl_record Samples.pointDefinedContext Samples.sampleEnv 0 1
              (mkClangRecord false false false (Some 1) None [2])
              Samples.initialState 0)
    as (st' & s & Hrun & Hlen & Hs & Hkind & Hname & Hmembers & Hext & Hfields).
  - reflexivity.
  - reflexivity.
  - reflexivity.
  - reflexivity.
  - reflexivity.
  - reflexivity.
  - reflexivity.
  - reflexivity.
  - constructor; [|constructor].
    split; [reflexivity|]. split; [reflexivity|]. split; [by eexists|].
    eexists. split; reflexivity.
  - constructor; [|constructor]. apply not_elem_of_nil.
  - constructor; [|constructor]. reflexivity.
  - intros Hin. apply list_elem_of_singleton in Hin. discriminate Hin.
  - reflexivity.
  - exists st', s.
    destruct (Hfields 0 2 eq_refl)
      as (_ & var & Hvar & Hvkind & Hvname & Hvtype & _ & Hvdc & _).
    exact (conj Hrun (conj Hlen (conj Hs (conj Hkind (conj Hname
             (conj Hmembers (conj Hext
                (ex_intro _ var (conj Hvar (conj Hvkind (conj Hvname
                   (conj Hvtype Hvdc)))))))))))).
Defined.


(** ** The caches *)

Section CacheProperties.
Context (ctx : ClangASTContext) (env : ImporterEnv).

Lemma importMirroredDecl_unfold fuel decl dc :
  importMirroredDecl ctx env fuel decl dc
  = importMirroredDeclWith ctx
      (match fuel with
       | 0 => λ _ _ _, outOfFuel
       | S fuel' =>
           VisitObjCMethodDecl_in ctx env (importDecl ctx env fuel')
                                  (importMirroredDecl ctx env fuel')
       end) decl dc.
Proof. by destruct fuel. Qed.

Lemma importMirroredDecl_hit fuel decl dc st r :
  ImportedProtocolDecls st !! (getCanonicalDecl ctx decl, dc) = Some r →
  importMirroredDecl ctx env fuel (Some decl) dc st = Done r st.
Proof.
  intros Hhit. rewrite importMirroredDecl_unfold.
  unfold importMirroredDeclWith, findImportedProtocolDecl, bind.
  by rewrite Hhit.
Qed.

Lemma noteImported_protocol_cache result canon st u st' :
  noteImported result canon st = Done u st' →
  ImportedProtocolDecls st' = ImportedProtocolDecls st.
Proof.
  unfold noteImported, setClangNode. intros H. inv_run H.
  destruct (d_clangNode a); [case_bool_decide|]; by inv_run Hrun0.
Qed.

(** Whatever [importMirroredDecl] returns for a method and a context, null
    included, is in the table of mirrored declarations afterwards, under the
    canonical declaration and that context. *)
Lemma importMirroredDecl_cached fuel decl dc st r st' :
  importMirroredDecl ctx env fuel (Some decl) dc st = Done r st' →
  ImportedProtocolDecls st' !! (getCanonicalDecl ctx decl, dc) = Some r.
Proof.
  rewrite importMirroredDecl_unfold. unfold importMirroredDeclWith.
  unfold findImportedProtocolDecl, bind at 1.
  destruct (ImportedProtocolDecls st !! _) as [known|] eqn:Hc.
  { intros H. by inv_run H. }
  destruct (asObjCMethodDecl ctx decl) as [m|]; [|done].
  intros H.
  apply bind_Done in H as (r' & st1 & Hvisit & H).
  apply bind_Done in H as ([] & st2 & Hnote & H).
  apply bind_Done in H as ([] & st3 & Hset & H). inv_run H.
  unfold setImportedProtocolDecl in Hset. inv_run Hset. cbn.
  apply lookup_insert_eq.
Qed.

(** X8.  A second mirroring of the same method into the same context returns
    what the first one returned and changes nothing, whatever the first one
    returned. *)
Theorem importMirroredDecl_twice fuel decl dc st r st' fuel' :
  importMirroredDecl ctx env fuel decl dc st = Done r st' →
  importMirroredDecl ctx env fuel' decl dc st' = Done r st'.
Proof.
  intros Hfirst. destruct decl as [decl|].
  - by eapply importMirroredDecl_hit, importMirroredDecl_cached.
  - rewrite importMirroredDecl_unfold in Hfirst.
    rewrite importMirroredDecl_unfold. simpl in *. by inv_run Hfirst.
Qed.

(** X9.  A declaration that [importDecl] returns from a visit, and that is not
    a declaration of the Swift module, refers to the canonical Clang
    declaration it was imported from. *)
Theorem importDecl_sets_clang_node fuel decl st d st' :
  ImportedDecls st !! getCanonicalDecl ctx decl = None →
  importDecl ctx env fuel (Some decl) st = Done (Some d) st' →
  ∃ s, arena st' !! d = Some s ∧
       (Some (d_declContext s) = DCModule <$> getSwiftModule env ∨
        d_clangNode s = Some (getCanonicalDecl ctx decl)).
Proof.
  intros Hmiss. rewrite importDecl_unfold.
  unfold importDeclWith, findImportedDecl, bind at 1. rewrite Hmiss.
  intros H.
  apply bind_Done in H as ([r' fwd] & st1 & Hvisit & H).
  apply bind_Done in H as ([] & st2 & Hnote & H).
  apply bind_Done in H as ([] & st3 & Hset & H). inv_run H.
  apply when_Done in Hset. cbn in Hset.
  unfold setImportedDecl in Hset. inv_run Hset. cbn.
  apply bind_Done in Hnote as (s & st1' & Hs & Hnote).
  apply getDecl_Done in Hs as [Hs ->].
  case_bool_decide as Hstdlib.
  - inv_run Hnote. eauto.
  - unfold noteImported, setClangNode in Hnote.
    apply bind_Done in Hnote as (s' & st1' & Hs' & Hnote).
    apply getDecl_Done in Hs' as [Hs' ->].
    apply bind_Done in Hnote as ([] & st1' & Hassert & Hnote).
    assert (st1' = st1) as ->.
    { destruct (d_clangNode s'); [case_bool_decide|]; by inv_run Hassert. }
    apply modifyDecl_Done in Hnote as (s'' & Hs'' & ->). cbn.
    eexists. split.
    + apply list_lookup_insert_eq. by eapply lookup_lt_Some.
    + by right.
Qed.
End CacheProperties.

(** The method [-reset] of the sample interface is mirrored into the class,
    and mirrored again. *)
Lemma importMirroredDecl_twice_reset :
  ∃ r st',
    importMirroredDecl Samples.widgetContext Samples.sampleEnv 3 (Some 5)
      (DCDecl 0) widgetState = Done (Some r) st' ∧
    importMirroredDecl Samples.widgetContext Samples.sampleEnv 0 (Some 5)
      (DCDecl 0) st' = Done (Some r) st'.
Proof.
  destruct (importMirroredDecl Samples.widgetContext Samples.sampleEnv 3
              (Some 5) (DCDecl 0) widgetState) as [[r|] st'| |] eqn:Hfirst;
    try (vm_compute in Hfirst; discriminate Hfirst).
  exists r, st'. split; [reflexivity|].
  exact (importMirroredDecl_twice _ _ 3 (Some 5) (DCDecl 0) widgetState
           (Some r) st' 0 Hfirst).
Defined.

(** The struct made for the sample enumeration refers to the enumeration. *)
Lemma importDecl_sets_clang_node_Color :
  ∃ d st' s,
    importDecl Samples.colorContext Samples.sampleEnv 3 (Some 0)
      Samples.initialState = Done (Some d) st' ∧
    arena st' !! d = Some s ∧
    (Some (d_declContext s) = DCModule <$> getSwiftModule Samples.sampleEnv ∨
     d_clangNode s = Some 0).
Proof.
  destruct (importDecl Samples.colorContext Samples.sampleEnv 3 (Some 0)
                       Samples.initialState) as [[d|] st'| |] eqn:Hfirst;
    try (vm_compute in Hfirst; discriminate Hfirst).
  destruct (importDecl_sets_clang_node Samples.colorContext Samples.sampleEnv
              3 0 Samples.initialState d st' eq_refl Hfirst) as (s & Hs & Hnode).
  exists d, st', s. split; [reflexivity|]. split; [exact Hs|exact Hnode].
Defined.


(** ** Declaration contexts and constants *)

Section ContextProperties.
Context (ctx : ClangASTContext) (env : ImporterEnv).
Context (importDecl' : option ClangDeclId → M (option DeclId)).

Lemma enclosingFileContext_enough dc c :
  nearestFileContext ctx dc c →
  ∃ fuel0, ∀ fuel st, fuel0 ≤ fuel →
    enclosingFileContext ctx fuel dc st = Done c st.
Proof.
  induction 1 as [dc Hfile|d c Hfile _ (fuel0 & IH)].
  - exists 0. intros fuel st _. destruct fuel; simpl; by rewrite Hfile.
  - exists (S fuel0). intros [|fuel] st Hfuel; [lia|].
    simpl. rewrite Hfile. apply IH. lia.
Qed.

(** X10.  The walk from a declaration context up to a file context ends, for a
    bound that is large enough, exactly at the nearest enclosing file context,
    the context itself included, and never changes the state of the importer;
    it has no result when no enclosing context is a file context. *)
Theorem enclosingFileContext_nearest dc c st st' :
  (∃ fuel0, ∀ fuel, fuel0 ≤ fuel →
     enclosingFileContext ctx fuel dc st = Done c st')
  ↔ nearestFileContext ctx dc c ∧ st' = st.
Proof.
  split.
  - intros (fuel0 & H).
    destruct (enclosingFileContext_Done ctx _ _ _ _ _ (H fuel0 (le_n _))).
    done.
  - intros [Hnearest ->].
    destruct (enclosingFileContext_enough _ _ Hnearest) as (fuel0 & H).
    exists fuel0. intros fuel Hfuel. by apply H.
Qed.

(** X11.  A declaration context that [importDeclContext] gives is the module
    of the importer, for the translation unit and without a change of the
    state, or else the declaration that the import of the context, a named
    declaration, has returned, and that declaration is a nominal type, an
    extension, a constructor or a destructor: a function or a variable is
    never given as a declaration context. *)
Theorem importDeclContext_Some dc st r st' :
  importDeclContext ctx env importDecl' dc st = Done (Some r) st' →
  match r with
  | DCModule M =>
      M = firstClangModule env ∧ isTranslationUnit ctx dc = true ∧ st' = st
  | DCDecl d =>
      ∃ decl s,
        dc = DC_Decl decl ∧ isNamedDecl ctx decl = true ∧
        importDecl' (Some decl) st = Done (Some d) st' ∧
        arena st' !! d = Some s ∧
        d_kind s ∈ [StructDecl; EnumDecl; ClassDecl; ProtocolDecl;
                    ExtensionDecl; ConstructorDecl; DestructorDecl]
  end.
Proof.
  unfold importDeclContext. intros H.
  destruct (isTranslationUnit ctx dc) eqn:Htu.
  { by inv_run H. }
  destruct dc as [|decl]; [by inv_run H|].
  destruct (isNamedDecl ctx decl) eqn:Hnamed; [|by inv_run H].
  cbn [negb] in H.
  apply bind_Done in H as ([d|] & st1 & Himport & H); [|by inv_run H].
  apply bind_Done in H as (s & st2 & Hs & H).
  apply getDecl_Done in Hs as [Hs ->].
  assert (r = DCDecl d ∧ st' = st1 ∧
          d_kind s ∈ [StructDecl; EnumDecl; ClassDecl; ProtocolDecl;
                      ExtensionDecl; ConstructorDecl; DestructorDecl])
    as (-> & -> & Hkind).
  { destruct (d_kind s); simpl in H; inv_run H;
      (split; [done|split; [done|]]); set_solver. }
  exists decl, s. done.
Qed.
End ContextProperties.

Section ConstantProperties.
Context (env : ImporterEnv).

(** X12.  A constant whose value is an integer that is not negative is always
    made: a computed variable without a setter, whose getter, an external
    declaration, returns the literal of the value, converted as asked. *)
Theorem createConstant_nonnegative name dc type v convertKind st :
  (0 ≤ v)%Z →
  createConstant env name dc type (APValue_Int v) convertKind st
  = Done (Some (length (arena st)))
         (constantCreated name dc type
            (convertConstant convertKind type (IntegerLiteralExpr (pretty v)))
            st).
Proof.
  intros Hv. apply createConstant_Some.
  unfold valueLiteral, printedLiteral. by rewrite isNegativePrinted_pretty.
Qed.

Lemma isNegativePrinted_negative (v : Z) :
  (v < 0)%Z → isNegativePrinted (pretty v) = true.
Proof. intros Hv. destruct v; [lia|lia|done]. Qed.

(** The functions among the results of a lookup, in their order. *)
Definition functionsAmong (arena : list Decl) (results : list (option DeclId))
  : list DeclId :=
  omap (λ result : option DeclId,
          v ← result;
          d ← arena !! v;
          if bool_decide (d_kind d = FuncDecl) then Some v else None)
       results.

(** Every value declaration among the results is a declaration of the
    arena. *)
Definition resultsAllocated (arena : list Decl)
  (results : list (option DeclId)) : Prop :=
  Forall (λ result, ∀ v, result = Some v → v < length arena) results.

Lemma foundFuncDecls_functionsAmong results st :
  resultsAllocated (arena st) results →
  foundFuncDecls results st = Done (functionsAmong (arena st) results) st.
Proof.
  unfold foundFuncDecls.
  enough (∀ found,
    resultsAllocated (arena st) results →
    foldM (λ found result,
             match result with
             | None => ret found
             | Some v =>
                 let* isFunc := isa FuncDecl v in
                 if isFunc then ret (found ++ [v]) else ret found
             end) results found st
    = Done (found ++ functionsAmong (arena st) results) st) as H
    by (intros Hall; exact (H [] Hall)).
  induction results as [|[v|] results IH]; intros found Hall; cbn [foldM].
  - by rewrite app_nil_r.
  - apply Forall_cons in Hall as [Hv Hall].
    destruct (lookup_lt_is_Some_2 _ _ (Hv v eq_refl)) as [d Hd].
    assert (isa FuncDecl v st = Done (bool_decide (d_kind d = FuncDecl)) st)
      as Hisa by (apply isa_Done; eauto).
    rewrite bind_assoc, (bind_run _ _ _ _ _ Hisa).
    unfold functionsAmong. cbn [omap list_omap mbind option_bind]. rewrite Hd.
    cbn [mbind option_bind].
    destruct (bool_decide (d_kind d = FuncDecl)).
    + rewrite bind_ret, IH by done. by rewrite <- app_assoc.
    + by rewrite bind_ret, IH.
  - apply Forall_cons in Hall as [_ Hall]. by rewrite bind_ret, IH.
Qed.

Lemma eraseFirst_negative (v : Z) :
  (v < 0)%Z → eraseFirst (pretty v) = pretty (- v)%Z.
Proof. intros Hv. destruct v; [lia|lia|done]. Qed.

(** The reference to the operator made from the functions found. *)
Definition minusRef (found : list DeclId) : Expr :=
  match found with
  | [f] => DeclRefExpr f
  | _ => OverloadedDeclRefExpr found
  end.

(** X13.  A constant whose value is a negative integer is given up when the
    lookup of the operator [-] in the Swift module finds no function: the
    result is null; the variable and the getter made for it stay in the arena,
    unconnected, and nothing is registered as external. *)
Theorem createConstant_negative_no_operator name dc type v convertKind st :
  (v < 0)%Z →
  resultsAllocated (arena (constantPending name dc type st))
    (UnqualifiedLookup env (arena (constantPending name dc type st)) "-"
                       (getSwiftModule env)) →
  functionsAmong (arena (constantPending name dc type st))
    (UnqualifiedLookup env (arena (constantPending name dc type st)) "-"
                       (getSwiftModule env)) = [] →
  createConstant env name dc type (APValue_Int v) convertKind st
  = Done None (constantPending name dc type st).
Proof.
  intros Hv Hall Hnone. apply createConstant_None.
  unfold valueLiteral, printedLiteral, negateLiteral.
  rewrite isNegativePrinted_negative by done. cbn [negb].
  unfold bind at 1, getState.
  case_bool_decide; [done|].
  rewrite (bind_run _ _ _ _ _ (foundFuncDecls_functionsAmong _ _ Hall)).
  by rewrite Hnone.
Qed.

(** X14.  A constant whose value [v] is a negative integer, when the lookup of
    the operator [-] finds functions: the getter returns the application of
    the operator, the one function found or the set of those found, to the
    literal of [- v]; the minus sign is not part of the literal. *)
Theorem createConstant_negated name dc type v convertKind st found :
  (v < 0)%Z →
  resultsAllocated (arena (constantPending name dc type st))
    (UnqualifiedLookup env (arena (constantPending name dc type st)) "-"
                       (getSwiftModule env)) →
  functionsAmong (arena (constantPending name dc type st))
    (UnqualifiedLookup env (arena (constantPending name dc type st)) "-"
                       (getSwiftModule env)) = found →
  found ≠ [] →
  createConstant env name dc type (APValue_Int v) convertKind st
  = Done (Some (length (arena st)))
         (constantCreated name dc type
            (convertConstant convertKind type
               (PrefixUnaryExpr (minusRef found)
                  (IntegerLiteralExpr (pretty (- v)%Z))))
            st).
Proof.
  intros Hv Hall Hfound Hsome. apply createConstant_Some.
  unfold valueLiteral, printedLiteral, negateLiteral.
  rewrite isNegativePrinted_negative, eraseFirst_negative by done.
  cbn [negb]. unfold bind at 1, getState.
  case_bool_decide as Hempty.
  { rewrite Hempty in Hfound. by subst found. }
  rewrite (bind_run _ _ _ _ _ (foundFuncDecls_functionsAmong _ _ Hall)).
  rewrite Hfound. unfold minusRef. by destruct found as [|f [|g found]].
Qed.
End ConstantProperties.

(** The context of the field of [struct Point { int x; };] is the struct
    made for the record. *)
Lemma importDeclContext_Some_Point :
  ∃ st' s,
    importDeclContext Samples.pointDefinedContext Samples.sampleEnv
      (importDecl Samples.pointDefinedContext Samples.sampleEnv 2)
      (DC_Decl 1) Samples.initialState = Done (Some (DCDecl 0)) st' ∧
    arena st' !! 0 = Some s ∧
    d_kind s ∈ [StructDecl; EnumDecl; ClassDecl; ProtocolDecl;
                ExtensionDecl; ConstructorDecl; DestructorDecl].
Proof.
  destruct (importDeclContext Samples.pointDefinedContext Samples.sampleEnv
              (importDecl Samples.pointDefinedContext Samples.sampleEnv 2)
              (DC_Decl 1) Samples.initialState)
    as [[[M|d]|] st'| |] eqn:Hrun;
    try (vm_compute in Hrun; discriminate Hrun).
  assert (d = 0) as -> by (vm_compute in Hrun; congruence).
  destruct (importDeclContext_Some _ _ _ _ _ _ _ Hrun)
    as (decl & s & _ & _ & _ & Hs & Hkind).
  exists st', s. split; [reflexivity|]. split; [exact Hs|exact Hkind].
Defined.

(** The constant [Five = 5]. *)
Lemma createConstant_nonnegative_Five :
  createConstant Samples.sampleEnv "Five" (DCModule 0) (TyBuiltin 0)
    (APValue_Int 5) CCK_Construction Samples.initialState
  = Done (Some 0)
      (constantCreated "Five" (DCModule 0) (TyBuiltin 0)
         (CallExpr (MetatypeExpr (TyMetaType (TyBuiltin 0)))
                   (IntegerLiteralExpr "5"))
         Samples.initialState).
Proof.
  apply (createConstant_nonnegative Samples.sampleEnv "Five" (DCModule 0)
           (TyBuiltin 0) 5 CCK_Construction Samples.initialState).
  lia.
Defined.

(** The constant [MinusOne = -1] while no operator [-] is in sight. *)
Lemma createConstant_negative_no_operator_MinusOne :
  createConstant Samples.sampleEnv "MinusOne" (DCModule 0) (TyBuiltin 0)
    (APValue_Int (-1)) CCK_None Samples.initialState
  = Done None
      (constantPending "MinusOne" (DCModule 0) (TyBuiltin 0)
                       Samples.initialState).
Proof.
  apply (createConstant_negative_no_operator Samples.sampleEnv "MinusOne"
           (DCModule 0) (TyBuiltin 0) (-1) CCK_None Samples.initialState).
  - lia.
  - constructor.
  - reflexivity.
Defined.

(** An importer whose Swift module has one function [-], declaration 0 of
    the arena; the lookup of [-] finds it, after a result that is not a
    value and before a variable, declaration 1. *)
Definition minusEnv : ImporterEnv :=
  {| importName := importName Samples.sampleEnv;
     firstClangModule := 0;
     getSwiftModule := Some 1;
     getNamedModule := λ _, None;
     getNamedSwiftType := λ _ _, None;
     getClangModuleForDecl := λ _, Some 0;
     MappedTypes := Samples.sampleMappedTypes;
     MappedLanguages_ObjC1 := 1;
     MappedLanguages_All := 3;
     importBuiltinType := importBuiltinType Samples.sampleEnv;
     importOtherType := importOtherType Samples.sampleEnv;
     importFunctionType := importFunctionType Samples.sampleEnv;
     lookupQualified := λ _ _ _, [];
     UnqualifiedLookup := λ _ name _,
       if String.eqb name "-" then [None; Some 0; Some 1] else [];
     getImplicitProtocols := λ _ _, [];
     getRedeclContext := λ dc, dc |}.

Definition minusState : ImporterState :=
  set_arena [defaultDecl FuncDecl "-" (DCModule 1);
             defaultDecl VarDecl "x" (DCModule 1)] Samples.initialState.

(** The constant [MinusOne = -1] is [-] applied to the literal [1]. *)
Lemma createConstant_negated_MinusOne :
  createConstant minusEnv "MinusOne" (DCModule 0) (TyBuiltin 0)
    (APValue_Int (-1)) CCK_None minusState
  = Done (Some 2)
      (constantCreated "MinusOne" (DCModule 0) (TyBuiltin 0)
         (PrefixUnaryExpr (DeclRefExpr 0) (IntegerLiteralExpr "1"))
         minusState).
Proof.
  apply (createConstant_negated minusEnv "MinusOne" (DCModule 0)
           (TyBuiltin 0) (-1) CCK_None minusState [0]).
  - lia.
  - unfold resultsAllocated. cbn.
    apply Forall_cons_2; [discriminate|].
    apply Forall_cons_2; [intros v [= <-]; lia|].
    apply Forall_cons_2; [intros v [= <-]; lia|].
    apply Forall_nil_2.
  - reflexivity.
  - discriminate.
Defined.

(** From the enumeration nested in the record of the sample, the walk ends
    at the translation unit. *)
Lemma enclosingFileContext_nearest_Mode :
  ∃ fuel0, ∀ fuel, fuel0 ≤ fuel →
    enclosingFileContext Samples.nestedContext fuel (DC_Decl 1)
      Samples.initialState
    = Done DC_TranslationUnit Samples.initialState.
Proof.
  apply (proj2 (enclosingFileContext_nearest Samples.nestedContext (DC_Decl 1)
                  DC_TranslationUnit Samples.initialState
                  Samples.initialState)).
  split; [|reflexivity].
  apply nearest_parent; [reflexivity|].
  apply nearest_parent; [reflexivity|].
  apply nearest_here. reflexivity.
Defined.


(** ** Subscripts are made once *)

Section SubscriptMemo.
Context (ctx : ClangASTContext) (env : ImporterEnv).
Context (importDecl' : option ClangDeclId → M (option DeclId)).

(** The two pairs of selectors of subscripting: getter and setter. *)
Definition subscriptSelectors : list (Selector * Selector) :=
  [ (objectAtIndexedSubscript, setObjectAtIndexedSubscript);
    (objectForKeyedSubscript, setObjectForKeyedSubscript) ].

(** The method [m] of [interface] is imported as the function [f], and
    importing it again changes nothing: [f] is a function of the arena that
    is not static. *)
Definition importedAccessor (interface : ClangDeclId) (sel : Selector)
  (f : DeclId) (st : ImporterState) : Prop :=
  ∃ m d, lookupMethod ctx interface sel true = Some m ∧
         importDecl' (Some m) st = Done (Some f) st ∧
         arena st !! f = Some d ∧ d_kind d = FuncDecl ∧ isStatic d = false.

Lemma findAccessor_imported interface sel f st :
  importedAccessor interface sel f st →
  findGetter ctx importDecl' interface sel st = Done (Some f) st ∧
  findSetter ctx importDecl' interface sel st = Done (Some f) st.
Proof.
  intros (m & d & Hlookup & Himport & Hf & Hkind & Hstatic).
  assert (importCounterpart ctx importDecl' interface sel st
          = Done (Some f) st) as Hcounterpart.
  { unfold importCounterpart. rewrite Hlookup.
    rewrite (bind_run _ _ _ _ _ Himport). unfold cast_or_null.
    assert (isa FuncDecl f st = Done true st) as Hisa.
    { apply isa_Done. exists d. by rewrite Hkind, bool_decide_eq_true_2. }
    by rewrite (bind_run _ _ _ _ _ Hisa). }
  assert (getDecl f st = Done d st) as Hget by by apply getDecl_Done.
  unfold findGetter, findSetter.
  rewrite !(bind_run _ _ _ _ _ Hcounterpart), !(bind_run _ _ _ _ _ Hget).
  by rewrite Hstatic.
Qed.

(** X15.  Once the getter and the setter of a subscript are imported and a
    subscript is recorded for the pair of their functions, the synthesis gives
    that subscript from either side, from the getter as from the setter, and
    creates nothing. *)
Theorem importSubscript_memo interface getterSel setterSel getter setter
    getterMethod setterMethod dc dc' subscript st :
  (getterSel, setterSel) ∈ subscriptSelectors →
  importedAccessor interface getterSel getter st →
  importedAccessor interface setterSel setter st →
  Subscripts st !! (Some getter, Some setter) = Some (Some subscript) →
  meth_selector getterMethod = getterSel →
  meth_isInstanceMethod getterMethod = true →
  meth_classInterface getterMethod = Some interface →
  meth_selector setterMethod = setterSel →
  meth_isInstanceMethod setterMethod = true →
  meth_classInterface setterMethod = Some interface →
  importSubscript ctx env importDecl' getter getterMethod dc st
  = Done (Some subscript) st ∧
  importSubscript ctx env importDecl' setter setterMethod dc' st
  = Done (Some subscript) st.
Proof.
  intros Hpair Hgetter Hsetter Hmemo Hgsel Hginst Hgiface Hssel Hsinst Hsiface.
  destruct (findAccessor_imported _ _ _ _ Hgetter) as [Hfindg _].
  destruct (findAccessor_imported _ _ _ _ Hsetter) as [_ Hfinds].
  destruct Hgetter as (_ & gd & _ & _ & Hg & Hgkind & _).
  destruct Hsetter as (_ & sd & _ & _ & Hs & Hskind & _).
  assert (isa FuncDecl getter st = Done true st) as Hgisa.
  { apply isa_Done. exists gd. by rewrite Hgkind, bool_decide_eq_true_2. }
  assert (isa FuncDecl setter st = Done true st) as Hsisa.
  { apply isa_Done. exists sd. by rewrite Hskind, bool_decide_eq_true_2. }
  assert (indexSubscripts (Some getter, Some setter) st
          = Done (Some subscript) st) as Hindex.
  { unfold indexSubscripts. by rewrite Hmemo. }
  unfold importSubscript.
  rewrite Hginst, Hgiface, Hsinst, Hsiface, Hgsel, Hssel. cbn [negb].
  rewrite (bind_run _ _ _ _ _ Hgisa), (bind_run _ _ _ _ _ Hsisa). cbn [negb].
  unfold subscriptSelectors in Hpair.
  apply elem_of_cons in Hpair as [[= -> ->]|Hpair];
    [|apply list_elem_of_singleton in Hpair as [= -> ->]].
  all: unfold subscriptAccessors; decide_selectors.
  all: rewrite ?bind_assoc.
  all: rewrite (bind_run _ _ _ _ _ Hfinds), (bind_run _ _ _ _ _ Hfindg).
  all: rewrite !bind_ret.
  all: by rewrite !(bind_run _ _ _ _ _ Hindex).
Qed.
End SubscriptMemo.

(** The state of the importer after the import of the sample interface
    [Container]: the functions 4 and 10 stand for its getter and its
    setter, and declaration 19 is their subscript. *)
Definition containerState : ImporterState :=
  match importDecl Samples.containerContext Samples.sampleEnv 6 (Some 0)
                   Samples.initialState with
  | Done _ st => st
  | _ => Samples.initialState
  end.

Definition containerGetter : ClangObjCMethod :=
  mkClangObjCMethod objectAtIndexedSubscript true OMF_None (CT_Builtin 7)
    [mkClangParam (Some "idx"%string) (CT_Builtin 0)] false (Some 0) None.
Definition containerSetter : ClangObjCMethod :=
  mkClangObjCMethod setObjectAtIndexedSubscript true OMF_None (CT_Builtin 9)
    [mkClangParam (Some "obj"%string) (CT_Builtin 7);
     mkClangParam (Some "idx"%string) (CT_Builtin 0)] false (Some 0) None.

Lemma importSubscript_memo_Container :
  importSubscript Samples.containerContext Samples.sampleEnv
    (importDecl Samples.containerContext Samples.sampleEnv 0)
    4 containerGetter (DCDecl 0) containerState
  = Done (Some 19) containerState ∧
  importSubscript Samples.containerContext Samples.sampleEnv
    (importDecl Samples.containerContext Samples.sampleEnv 0)
    10 containerSetter (DCDecl 0) containerState
  = Done (Some 19) containerState.
Proof.
  apply (importSubscript_memo Samples.containerContext Samples.sampleEnv
           (importDecl Samples.containerContext Samples.sampleEnv 0)
           0 objectAtIndexedSubscript setObjectAtIndexedSubscript 4 10
           containerGetter containerSetter (DCDecl 0) (DCDecl 0) 19
           containerState).
  - apply list_elem_of_here.
  - exists 1. eexists. split; [reflexivity|]. split; [by vm_compute|].
    split; [by vm_compute|]. split; reflexivity.
  - exists 2. eexists. split; [reflexivity|]. split; [by vm_compute|].
    split; [by vm_compute|]. split; reflexivity.
  - by vm_compute.
  - reflexivity.
  - reflexivity.
  - reflexivity.
  - reflexivity.
  - reflexivity.
  - reflexivity.
Defined.


(** ** What is never imported *)

Section NeverImported.
Context (ctx : ClangASTContext) (env : ImporterEnv).

(** The declarations that the visitor gives up before it imports or
    creates anything: the kinds that have no counterpart; unions, Microsoft
    interfaces and anonymous structs; static variables of records; functions
    whose latest declaration has no prototype or is inline; indirect fields
    that go through a union; properties of protocols; and typedefs, fields,
    instance variables and enumerators without a name, and defined
    enumerations without a name of their own or of a typedef. *)
Definition declinedAtOnce (decl : ClangDeclId) : Prop :=
  match cd_kind (getClangDecl ctx decl) with
  | CK_Declined _ => True
  | CK_Record r =>
      rec_isUnion r = true ∨ rec_isInterface r = true ∨
      rec_isAnonymousStructOrUnion r = true
  | CK_Var _ => is_Some (isRecord ctx (cd_declContext (getClangDecl ctx decl)))
  | CK_Function f =>
      ∃ latest, cd_kind (getClangDecl ctx (fn_mostRecentDecl f))
                = CK_Function latest ∧
                (fn_hasPrototype latest = false ∨ fn_isInlined latest = true ∨
                 cd_alwaysInline (getClangDecl ctx (fn_mostRecentDecl f))
                 = true)
  | CK_IndirectField chain _ =>
      ∃ f record, f ∈ chain ∧
                  isRecord ctx (cd_declContext (getClangDecl ctx f))
                  = Some record ∧
                  rec_isUnion record = true
  | CK_TypedefName _ | CK_EnumConstant _ | CK_Field _ | CK_ObjCIvar _ =>
      importName env (cd_name (getClangDecl ctx decl)) "" = ""%string
  | CK_Enum e =>
      ∃ definition e',
        enum_definition e = Some definition ∧
        cd_kind (getClangDecl ctx definition) = CK_Enum e' ∧
        importTagName ctx env definition (enum_typedefNameForAnonDecl e')
        = ""%string
  | CK_ObjCProperty _ =>
      isObjCProtocolDecl ctx (cd_declContext (getClangDecl ctx decl)) = true
  | _ => False
  end.

(** The state in which null is entered in the cache for [decl]. *)
Definition cachedNull (decl : ClangDeclId) (st : ImporterState)
  : ImporterState :=
  set_ImportedDecls (<[getCanonicalDecl ctx decl := None]> (ImportedDecls st))
                    st.

(** X16.  A declaration of one of these sorts is never imported: its first
    import returns null, creates no declaration and registers nothing, and
    enters null in the cache, so that every later import returns null as well.
    *)
Theorem importDecl_declinedAtOnce fuel decl st :
  declinedAtOnce decl →
  ImportedDecls st !! getCanonicalDecl ctx decl = None →
  importDecl ctx env (S fuel) (Some decl) st = Done None (cachedNull decl st) ∧
  ∀ fuel', importDecl ctx env fuel' (Some decl) (cachedNull decl st)
           = Done None (cachedNull decl st).
Proof.
  intros Hdeclined Hmiss. split; cycle 1.
  { intros fuel'. apply importDecl_hit. apply lookup_insert_eq. }
  rewrite importDecl_unfold.
  unfold importDeclWith, findImportedDecl, bind at 1. rewrite Hmiss.
  assert (Visit ctx env (importDecl ctx env fuel)
            (importMirroredDecl ctx env fuel) fuel decl st
          = Done (None, false) st) as Hvisit; cycle 1.
  { by rewrite (bind_run _ _ _ _ _ Hvisit). }
  unfold declinedAtOnce in Hdeclined. unfold Visit.
  destruct (cd_kind (getClangDecl ctx decl))
    as [k|ty|e|r|v|chain ty|f|f|f|ty|m|c|c|c|p]; try contradiction.
  - reflexivity.
  - unfold VisitTypedefNameDecl. rewrite Hdeclined. reflexivity.
  - destruct Hdeclined as (definition & e' & Hdef & Hkind & Hname).
    unfold VisitEnumDecl. rewrite Hdef, Hkind, Hname. reflexivity.
  - unfold VisitRecordDecl.
    destruct Hdeclined as [->| [->| ->]]; [reflexivity|..].
    + destruct (rec_isUnion r); reflexivity.
    + destruct (rec_isUnion r), (rec_isInterface r); reflexivity.
  - unfold VisitEnumConstantDecl. rewrite Hdeclined. reflexivity.
  - destruct Hdeclined as (f & record & Hf & Hrecord & Hunion).
    unfold VisitIndirectFieldDecl.
    assert (existsb
              (λ f, match isRecord ctx (cd_declContext (getClangDecl ctx f))
                    with
                    | Some record => rec_isUnion record
                    | None => false
                    end) chain = true) as ->; [|reflexivity].
    apply existsb_exists. exists f. split.
    + by apply list_elem_of_In.
    + by rewrite Hrecord.
  - destruct Hdeclined as (latest & Hlatest & Hwhy).
    unfold VisitFunctionDecl. rewrite Hlatest.
    destruct Hwhy as [->| [Hinline|Hinline]]; [reflexivity|..];
      destruct (fn_hasPrototype latest); cbn [negb]; try reflexivity;
      rewrite Hinline, ?orb_true_r; reflexivity.
  - unfold VisitFieldDecl. rewrite Hdeclined. reflexivity.
  - unfold VisitFieldDecl. rewrite Hdeclined. reflexivity.
  - unfold VisitVarDecl. rewrite bool_decide_eq_true_2 by done. reflexivity.
  - unfold VisitObjCPropertyDecl. rewrite Hdeclined. reflexivity.
Qed.
End NeverImported.

(** The union of the sample is never imported, be it defined. *)
Lemma importDecl_declinedAtOnce_union :
  importDecl Samples.unionDefinedContext Samples.sampleEnv 1 (Some 0)
    Samples.initialState
  = Done None (cachedNull Samples.unionDefinedContext 0 Samples.initialState) ∧
  ∀ fuel', importDecl Samples.unionDefinedContext Samples.sampleEnv fuel'
             (Some 0)
             (cachedNull Samples.unionDefinedContext 0 Samples.initialState)
           = Done None
               (cachedNull Samples.unionDefinedContext 0 Samples.initialState).
Proof.
  apply (importDecl_declinedAtOnce Samples.unionDefinedContext
           Samples.sampleEnv 0 0 Samples.initialState).
  - left. reflexivity.
  - reflexivity.
Defined.

Section UnderlyingType.
Context (ctx : ClangASTContext) (env : ImporterEnv).

(** The struct made for an option set, before it has members. *)
Definition optionSetStruct (decl : ClangDeclId) (e : ClangEnum) (n : DeclId)
  : Decl :=
  set_type (Some (TyMetaType (TyNominal n)))
    (defaultDecl StructDecl
       (importTagName ctx env decl (enum_typedefNameForAnonDecl e))
       (moduleOf env decl)).

(** X17.  An enumeration with a name whose integer type cannot be translated
    is not imported, and null is entered in the cache for it; the struct that
    was made for it before its integer type was looked at stays in the arena,
    without members and without a reference to the enumeration, and none of
    the enumerators is imported. *)
Theorem importDecl_enum_no_integer_type fuel decl e b st :
  cd_kind (getClangDecl ctx decl) = CK_Enum e →
  enum_definition e = Some decl →
  Identifier_empty (importTagName ctx env decl (enum_typedefNameForAnonDecl e))
  = false →
  isTranslationUnit ctx (cd_declContext (getClangDecl ctx decl)) = true →
  ImportedDecls st !! getCanonicalDecl ctx decl = None →
  enum_integerType e = CT_Builtin b →
  importBuiltinType env b ITK_Normal = None →
  importDecl ctx env (S fuel) (Some decl) st
  = Done None
      (cachedNull ctx decl
         (set_arena (arena st ++ [optionSetStruct decl e (length (arena st))])
                    st)).
Proof.
  intros Hkind Hdef Hname Htu Hmiss Hint Htype.
  assert (classifyEnum ctx env decl = Options) as Hclass.
  { unfold classifyEnum, getTypedefNameForAnonDecl. by rewrite Hkind, Hname. }
  rewrite importDecl_unfold.
  unfold importDeclWith, findImportedDecl, bind at 1. rewrite Hmiss.
  assert (Visit ctx env (importDecl ctx env fuel)
            (importMirroredDecl ctx env fuel) fuel decl st
          = Done (None, false)
              (set_arena
                 (arena st ++ [optionSetStruct decl e (length (arena st))]) st))
    as Hvisit; cycle 1.
  { rewrite (bind_run _ _ _ _ _ Hvisit). reflexivity. }
  unfold Visit. rewrite Hkind. unfold VisitEnumDecl.
  rewrite Hdef, Hkind, Hname, Hclass, Hint.
  rewrite (bind_run _ _ _ _ _
             (importDeclContextOf_translation_unit ctx env _ _ _ Htu)).
  apply runs_eq. destruct st as [A I P S T E].
  unfold importType, computeType, declined. rewrite Htype. run_steps.
  split; [done|]. unfold optionSetStruct. state_eq.
Qed.
End UnderlyingType.

(** An importer that cannot translate the builtin type 12, and
    [enum Wide : T12 { Big };]. *)
Definition narrowEnv : ImporterEnv :=
  {| importName := importName Samples.sampleEnv;
     firstClangModule := 0;
     getSwiftModule := Some 1;
     getNamedModule := λ _, None;
     getNamedSwiftType := λ _ _, None;
     getClangModuleForDecl := λ _, Some 0;
     MappedTypes := Samples.sampleMappedTypes;
     MappedLanguages_ObjC1 := 1;
     MappedLanguages_All := 3;
     importBuiltinType := λ b _,
       if bool_decide (b = 12) then None else Some (TyBuiltin b);
     importOtherType := importOtherType Samples.sampleEnv;
     importFunctionType := importFunctionType Samples.sampleEnv;
     lookupQualified := λ _ _ _, [];
     UnqualifiedLookup := λ _ _ _, [];
     getImplicitProtocols := λ _ _, [];
     getRedeclContext := λ dc, dc |}.

Definition wideDecls (d : ClangDeclId) : ClangDecl :=
  match d with
  | 0 => Samples.clangDecl
           (CK_Enum (mkClangEnum (Some 0) None (CT_Builtin 12) [1]))
           (Some "Wide"%string) DC_TranslationUnit 0
  | 1 => Samples.clangDecl (CK_EnumConstant 0) (Some "Big"%string) (DC_Decl 0) 1
  | _ => Samples.unused
  end.
Definition wideEnumContext := Samples.sampleContext wideDecls Samples.noMethods.

Lemma importDecl_enum_no_integer_type_Wide :
  importDecl wideEnumContext narrowEnv 1 (Some 0) Samples.initialState
  = Done None
      (cachedNull wideEnumContext 0
         (set_arena
            [set_type (Some (TyMetaType (TyNominal 0)))
               (defaultDecl StructDecl "Wide" (DCModule 0))]
            Samples.initialState)).
Proof.
  exact (importDecl_enum_no_integer_type wideEnumContext narrowEnv 0 0
           (mkClangEnum (Some 0) None (CT_Builtin 12) [1]) 12
           Samples.initialState eq_refl eq_refl eq_refl eq_refl eq_refl
           eq_refl eq_refl).
Defined.


(** ** Members of Objective-C containers *)

(** [extends proj members m]: whatever [m] returns, the list of members in
    it starts with [members]. *)
Definition extends {A} (proj : A → list DeclId) (members : list DeclId)
  (m : M A) : Prop :=
  ∀ st a st', m st = Done a st' → members `prefix_of` proj a.

Lemma extends_ret {A} (proj : A → list DeclId) members a :
  members `prefix_of` proj a → extends proj members (ret a).
Proof. by intros Hpre st a' st' [<- _]%ret_Done. Qed.

Lemma extends_bind {A B} (proj : B → list DeclId) members (m : M A) k :
  (∀ a, extends proj members (k a)) → extends proj members (bind m k).
Proof. intros Hk st b st' (a & st1 & _ & H)%bind_Done. by eapply Hk. Qed.

Lemma extends_undefined {A} (proj : A → list DeclId) members :
  extends proj members undefined.
Proof. by intros st a st' [=]. Qed.

Lemma extends_outOfFuel {A} (proj : A → list DeclId) members :
  extends proj members outOfFuel.
Proof. by intros st a st' [=]. Qed.

Lemma extends_foldM {A B} (proj : B → list DeclId) (f : B → A → M B) l :
  (∀ b x, extends proj (proj b) (f b x)) →
  ∀ b, extends proj (proj b) (foldM f l b).
Proof.
  intros Hf. induction l as [|x l IH]; intros b st b' st' H; simpl in H.
  - by inv_run H.
  - apply bind_Done in H as (b1 & st1 & H1 & H2).
    etrans; [by eapply Hf|by eapply IH].
Qed.

Lemma extends_weaken {A} (proj : A → list DeclId) members members' (m : M A) :
  members `prefix_of` members' → extends proj members' m →
  extends proj members m.
Proof. intros Hpre Hm st a st' H. etrans; [done|by eapply Hm]. Qed.

Ltac extends_step :=
  first
    [ apply extends_undefined
    | apply extends_outOfFuel
    | apply extends_ret; cbn [fst snd];
      first [ reflexivity | by apply prefix_app_r
            | by do 2 apply prefix_app_r ]
    | apply extends_bind; intros
    | match goal with
      | |- extends _ _ (match (if ?c then _ else _) with _ => _ end) =>
          destruct c
      | |- extends _ _ (match ?x with _ => _ end) => destruct x
      | |- extends _ _ (if ?c then _ else _) => destruct c
      | |- extends _ _ (let '(_, _) := ?x in _) => destruct x
      end ].

Section MemberLists.
Context (ctx : ClangASTContext) (env : ImporterEnv).
Context (importDecl' : option ClangDeclId → M (option DeclId)).
Context (importMirroredDecl' : option ClangDeclId → DeclContext →
                               M (option DeclId)).
Context (walk : nat).

Lemma importObjCMember_extends swiftContext acc m :
  extends snd (snd acc) (importObjCMember ctx env importDecl' swiftContext acc m).
Proof.
  unfold importObjCMember. destruct acc as [knownMembers members].
  cbn [snd]. repeat extends_step.
Qed.

Lemma inheritConstructors_extends objcClass c dc acc container :
  extends snd (snd acc)
    (inheritConstructors ctx env importDecl' objcClass c dc acc container).
Proof.
  unfold inheritConstructors. apply extends_foldM.
  intros [knownSelectors members] meth. cbn [snd]. repeat extends_step.
Qed.

Lemma inheritFromClasses_extends fuel objcClass c dc : ∀ cur acc,
  extends snd (snd acc)
    (inheritFromClasses ctx env importDecl' fuel objcClass c dc cur acc).
Proof.
  induction fuel as [|fuel IH]; intros [cur|] acc; simpl;
    try (repeat extends_step; fail).
  destruct (asObjCInterfaceDecl ctx cur) as [curC|]; [|extends_step].
  intros st a st' H.
  apply bind_Done in H as (acc1 & st1 & H1 & H).
  apply bind_Done in H as (acc2 & st2 & H2 & H).
  etrans; [by eapply inheritConstructors_extends|].
  etrans; [|by eapply IH].
  eapply (extends_foldM snd); [|done].
  intros b x. apply inheritConstructors_extends.
Qed.

(** X18.  The collectors of the members of a class, a category or a protocol
    only append to the list they are given: whatever [importObjCMembers],
    [importInheritedConstructors] and [importMirroredProtocolMembers] return
    starts with the list of members they received, in its order; no member
    found before is dropped or moved. *)
Theorem member_collectors_append :
  (∀ decls swiftContext members st members' st',
     importObjCMembers ctx env importDecl' decls swiftContext members st
     = Done members' st' →
     members `prefix_of` members') ∧
  (∀ objcClass c dc members st members' st',
     importInheritedConstructors ctx env importDecl' walk objcClass c dc
       members st = Done members' st' →
     members `prefix_of` members') ∧
  (∀ decl dc protocols members st members' st',
     importMirroredProtocolMembers ctx env importDecl' importMirroredDecl'
       decl dc protocols members st = Done members' st' →
     members `prefix_of` members').
Proof.
  split; [|split].
  - intros decls swiftContext members st members' st' H.
    unfold importObjCMembers in H.
    apply bind_Done in H as ([known members1] & st1 & H1 & H). inv_run H.
    apply (extends_foldM snd _ decls
             (importObjCMember_extends swiftContext) ([], members) _ _ _ H1).
  - intros objcClass c dc members st members' st' H.
    unfold importInheritedConstructors in H.
    apply bind_Done in H as ([known members1] & st1 & H1 & H). inv_run H.
    apply (inheritFromClasses_extends _ _ _ _ _ ([], members) _ _ _ H1).
  - intros decl dc protocols members st members' st' H.
    unfold importMirroredProtocolMembers in H.
    refine (extends_foldM id _ protocols _ members _ _ _ H).
    intros members1 proto. unfold id. apply extends_bind. intros p.
    apply (extends_foldM id). intros members2 member. unfold id.
    repeat extends_step.
Qed.
End MemberLists.

(** The members of the sample interface [Widget], collected after a member
    that was found before. *)
Lemma member_collectors_append_Widget :
  ∃ members' st',
    importObjCMembers Samples.widgetContext Samples.sampleEnv
      (importDecl Samples.widgetContext Samples.sampleEnv 6)
      [1; 2; 3; 4; 5] (DCDecl 0) [0] widgetState = Done members' st' ∧
    [0] `prefix_of` members'.
Proof.
  destruct (importObjCMembers Samples.widgetContext Samples.sampleEnv
              (importDecl Samples.widgetContext Samples.sampleEnv 6)
              [1; 2; 3; 4; 5] (DCDecl 0) [0] widgetState)
    as [members' st'| |] eqn:Hrun;
    try (vm_compute in Hrun; discriminate Hrun).
  exists members', st'. split; [reflexivity|].
  exact (proj1 (member_collectors_append Samples.widgetContext
                  Samples.sampleEnv
                  (importDecl Samples.widgetContext Samples.sampleEnv 6)
                  (importMirroredDecl Samples.widgetContext Samples.sampleEnv 6)
                  0)
           _ _ _ _ _ _ Hrun).
Defined.

Lemma foldM_unchanged {A B} (f : B → A → M B) (l : list A) (b : B) st :
  Forall (λ x, f b x st = Done b st) l → foldM f l b st = Done b st.
Proof.
  induction 1 as [|x l Hx _ IH]; [done|].
  cbn [foldM]. by rewrite (bind_run _ _ _ _ _ Hx).
Qed.

Section Skipped.
Context (ctx : ClangASTContext) (env : ImporterEnv).
Context (importDecl' : option ClangDeclId → M (option DeclId)).
Context (importMirroredDecl' : option ClangDeclId → DeclContext →
                               M (option DeclId)).

(** A method that [inheritConstructors] passes over: it is no initializer,
    or the class or one of its visible categories declares a method with
    its selector, or an initializer with its selector was seen before. *)
Definition notInherited (objcClass : ClangDeclId) (c : ClangObjCContainer)
  (knownSelectors : list Selector) (m : ClangObjCMethod) : Prop :=
  meth_family m ≠ OMF_init ∨ isReallyInitMethod m = false ∨
  hasMethodShallow ctx (meth_selector m) (meth_isInstanceMethod m) objcClass c
  = true ∨
  meth_selector m ∈ knownSelectors.

(** X19.  A container all of whose methods are passed over contributes no
    constructor: nothing is imported, and the selectors seen, the members and
    the state of the importer stay as they were. In particular a class never
    inherits an initializer that it declares itself. *)
Theorem inheritConstructors_none objcClass c dc knownSelectors members
    container st :
  Forall (λ meth, ∀ m, asObjCMethodDecl ctx meth = Some m →
                       notInherited objcClass c knownSelectors m)
         (containerDecls ctx container) →
  inheritConstructors ctx env importDecl' objcClass c dc
    (knownSelectors, members) container st
  = Done (knownSelectors, members) st.
Proof.
  intros Hall. unfold inheritConstructors. apply foldM_unchanged.
  eapply Forall_impl; [exact Hall|]. intros meth Hmeth. cbv beta.
  cbv beta in Hmeth.
  destruct (asObjCMethodDecl ctx meth) as [m|]; [|done].
  destruct (Hmeth m eq_refl) as [Hfamily| [Hinit| [Hshallow|Hknown]]].
  - by rewrite bool_decide_eq_false_2.
  - by rewrite Hinit, andb_false_r.
  - by rewrite Hshallow, andb_false_r.
  - by rewrite (bool_decide_eq_true_2 _ Hknown), andb_false_r.
Qed.

(** A member of a protocol that is not mirrored into the container [decl]:
    it is no function, or it does not come from an Objective-C method, or
    the container declares a method with the selector and the kind of that
    method. *)
Definition notMirrored (decl : ClangDeclId) (func : Decl) : Prop :=
  d_kind func ≠ FuncDecl ∨
  match d_clangNode func with
  | None => True
  | Some objcMethodId =>
      match asObjCMethodDecl ctx objcMethodId with
      | None => True
      | Some objcMethod =>
          is_Some (getMethod ctx decl (meth_selector objcMethod)
                             (meth_isInstanceMethod objcMethod))
      end
  end.

(** X20.  When the container declares every method of the protocols it
    conforms to, nothing is mirrored: the members and the state of the
    importer stay as they were. *)
Theorem importMirroredProtocolMembers_declared decl dc protocols members st :
  Forall (λ proto,
            ∃ p, arena st !! proto = Some p ∧
                 Forall (λ member,
                           ∃ func, arena st !! member = Some func ∧
                                   notMirrored decl func)
                        (d_members p)) protocols →
  importMirroredProtocolMembers ctx env importDecl' importMirroredDecl'
    decl dc protocols members st
  = Done members st.
Proof.
  intros Hall. unfold importMirroredProtocolMembers. apply foldM_unchanged.
  eapply Forall_impl; [exact Hall|]. intros proto (p & Hp & Hmembers).
  cbv beta.
  rewrite (bind_run _ _ _ _ _ (proj2 (getDecl_Done _ _ _ _) (conj Hp eq_refl))).
  apply foldM_unchanged.
  eapply Forall_impl; [exact Hmembers|].
  intros member (func & Hfunc & Hnot). cbv beta.
  rewrite (bind_run _ _ _ _ _
             (proj2 (getDecl_Done _ _ _ _) (conj Hfunc eq_refl))).
  destruct Hnot as [Hkind|Hnot].
  { by rewrite bool_decide_eq_false_2. }
  destruct (negb _); [done|].
  destruct (d_clangNode func) as [objcMethodId|]; [|done].
  destruct (asObjCMethodDecl ctx objcMethodId) as [objcMethod|]; [|done].
  by rewrite bool_decide_eq_true_2.
Qed.
End Skipped.

(** The sample interface [Widget] inherits nothing from itself: its
    initializer [-initWithSize:] is declared by the class, and its other
    members are no initializers. *)
Lemma inheritConstructors_none_Widget :
  inheritConstructors Samples.widgetContext Samples.sampleEnv
    (importDecl Samples.widgetContext Samples.sampleEnv 6) 0
    (mkClangObjCContainer (Some 0) None None [] [1; 2; 3; 4; 5] [])
    (DCDecl 0) ([], []) 0 Samples.initialState
  = Done ([], []) Samples.initialState.
Proof.
  apply (inheritConstructors_none Samples.widgetContext Samples.sampleEnv).
  apply Forall_cons_2; [intros m Hm; discriminate Hm|].
  apply Forall_cons_2; [intros m [= <-]; left; discriminate|].
  apply Forall_cons_2; [intros m [= <-]; right; right; left; reflexivity|].
  apply Forall_cons_2; [intros m [= <-]; left; discriminate|].
  apply Forall_cons_2; [intros m [= <-]; left; discriminate|].
  apply Forall_nil_2.
Defined.

(** A protocol, declaration 0, whose one member, declaration 1, is the
    function made for the method [-reset], which the sample interface
    [Widget] declares. *)
Definition resettableState : ImporterState :=
  set_arena
    [set_members [1] (defaultDecl ProtocolDecl "ResettableProto" (DCModule 0));
     set_clangNode (Some 5) (defaultDecl FuncDecl "reset" (DCDecl 0))]
    Samples.initialState.

Lemma importMirroredProtocolMembers_declared_Widget :
  importMirroredProtocolMembers Samples.widgetContext Samples.sampleEnv
    (importDecl Samples.widgetContext Samples.sampleEnv 6)
    (importMirroredDecl Samples.widgetContext Samples.sampleEnv 6)
    0 (DCDecl 7) [0] [] resettableState
  = Done [] resettableState.
Proof.
  apply (importMirroredProtocolMembers_declared Samples.widgetContext
           Samples.sampleEnv).
  apply Forall_cons_2; [|apply Forall_nil_2].
  eexists. split; [reflexivity|].
  apply Forall_cons_2; [|apply Forall_nil_2].
  eexists. split; [reflexivity|]. right. by eexists.
Defined.

(** A cast that is defined changes neither the pointer nor the state. *)
Lemma cast_or_null_Done k r st r' st' :
  cast_or_null k r st = Done r' st' → r' = r ∧ st' = st.
Proof.
  destruct r as [id|]; simpl; [|by intros [<- <-]%ret_Done].
  intros ([] & st1 & (d & _ & _ & ->)%isa_Done & H)%bind_Done; [|done].
  by apply ret_Done in H as [<- <-].
Qed.

Section Protocols.
Context (env : ImporterEnv).
Context (importDecl' : option ClangDeclId → M (option DeclId)).

(** The protocols a declaration conforms to without a word of the
    Objective-C source: those of a nominal type, and none for an
    extension. *)
Definition implicitProtocols (decl : DeclId) (st : ImporterState)
  : list DeclId :=
  match arena st !! decl with
  | Some d =>
      if isNominalTypeDecl (d_kind d)
      then getImplicitProtocols env (arena st) decl else []
  | None => []
  end.

(** The imports of the Clang protocols [clangProtocols], one after the
    other, and what each of them has returned. *)
Inductive importedEach
  : list ClangDeclId → ImporterState → list (option DeclId) → ImporterState
    → Prop :=
  | importedEach_nil st : importedEach [] st [] st
  | importedEach_cons cp clangProtocols st proto st1 imported st' :
      importDecl' (Some cp) st = Done proto st1 →
      importedEach clangProtocols st1 imported st' →
      importedEach (cp :: clangProtocols) st (proto :: imported) st'.

(** The loop over the Clang protocols, from any list of protocols. *)
Lemma importObjCProtocols_loop clangProtocols :
  ∀ protocols st protocols' st',
    foldM (λ (protocols : list DeclId) cp,
             let* proto := importDecl' (Some cp) in
             let* proto := cast_or_null ProtocolDecl proto in
             match proto with
             | Some proto =>
                 if bool_decide (proto ∈ protocols) then ret protocols
                 else ret (protocols ++ [proto])
             | None => ret protocols
             end) clangProtocols protocols st
    = Done protocols' st' →
    ∃ imported new,
      importedEach clangProtocols st imported st' ∧
      protocols' = protocols ++ new ∧ NoDup new ∧
      ∀ p, p ∈ new ↔ Some p ∈ imported ∧ p ∉ protocols.
Proof.
  induction clangProtocols as [|cp cps IH];
    intros protocols st protocols' st' H; simpl in H.
  { apply ret_Done in H as [<- ->]. exists [], []. rewrite app_nil_r.
    split; [constructor|]. split; [done|]. split; [constructor|].
    intros p. split; [by intros Hp%elem_of_nil|by intros [Hp%elem_of_nil _]]. }
  apply bind_Done in H as (acc & st3 & Hturn & H).
  apply bind_Done in Hturn as (proto & st1 & Himport & Hturn).
  apply bind_Done in Hturn as (proto' & st2 & Hcast & Hturn).
  apply cast_or_null_Done in Hcast as [-> ->].
  destruct proto as [q|].
  - case_bool_decide as Hq; apply ret_Done in Hturn as [<- <-];
      apply IH in H as (imported & new & Heach & -> & Hdup & Hnew).
    + exists (Some q :: imported), new.
      split; [by econstructor|]. split; [done|]. split; [done|].
      intros p. rewrite Hnew, elem_of_cons. split.
      * intros [Hp Hfresh]. split; [by right|done].
      * intros [[[= ->]|Hp] Hfresh]; [done|]. by split.
    + exists (Some q :: imported), (q :: new).
      split; [by econstructor|]. split; [by rewrite <- app_assoc|].
      split.
      { apply list.NoDup_cons. split; [|done].
        intros [_ Hfresh]%Hnew. apply Hfresh, elem_of_app. right.
        apply list_elem_of_here. }
      intros p. rewrite !elem_of_cons, Hnew. split.
      * intros [->|[Hp Hfresh]]; [split; [by left|done]|].
        split; [by right|]. intros Hacc. apply Hfresh, elem_of_app. by left.
      * intros [[[= ->]|Hp] Hfresh]; [by left|].
        destruct (decide (p = q)) as [->|Hne]; [by left|]. right.
        split; [done|].
        intros [Hacc|Hpq%list_elem_of_singleton]%elem_of_app; done.
  - apply ret_Done in Hturn as [<- <-].
    apply IH in H as (imported & new & Heach & -> & Hdup & Hnew).
    exists (None :: imported), new.
    split; [by econstructor|]. split; [done|]. split; [done|].
    intros p. rewrite Hnew, elem_of_cons. split.
    + intros [Hp Hfresh]. split; [by right|done].
    + intros [[[=]|Hp] Hfresh]. by split.
Qed.

(** X21.  [importObjCProtocols] imports the Clang protocols one after the
    other, and the list it gives is the list of the implicit protocols of the
    declaration followed by the imported protocols that are not implicit,
    each of them entered exactly once: a protocol is among the new entries
    if and only if one of the imports has returned it and it is not
    implicit, and no entry is repeated. *)
Theorem importObjCProtocols_once decl clangProtocols st protocols st' :
  importObjCProtocols env importDecl' decl clangProtocols st
  = Done protocols st' →
  ∃ imported new,
    importedEach clangProtocols st imported st' ∧
    protocols = implicitProtocols decl st ++ new ∧ NoDup new ∧
    ∀ p, p ∈ new ↔ Some p ∈ imported ∧ p ∉ implicitProtocols decl st.
Proof.
  unfold importObjCProtocols, implicitProtocols. intros H.
  apply bind_Done in H as (d & st1 & Hd & H).
  apply getDecl_Done in Hd as [Hd ->]. rewrite Hd.
  apply bind_Done in H as (s & st1 & Hs & H).
  apply getState_Done in Hs as [-> ->].
  by apply importObjCProtocols_loop in H.
Qed.
End Protocols.

(** [@protocol Resettable @end], and a class that names it twice. *)
Definition resettableDecls (d : ClangDeclId) : ClangDecl :=
  match d with
  | 0 => Samples.clangDecl
           (CK_ObjCProtocol (mkClangObjCContainer (Some 0) None None [] [] []))
           (Some "Resettable"%string) DC_TranslationUnit 0
  | _ => Samples.unused
  end.
Definition resettableContext :=
  Samples.sampleContext resettableDecls Samples.noMethods.
Definition oneClass : ImporterState :=
  set_arena [defaultDecl ClassDecl "K" (DCModule 0)] Samples.initialState.

(** The class names the protocol twice, both imports return the protocol 1,
    and it is entered once. *)
Lemma importObjCProtocols_once_Resettable :
  ∃ st' imported new,
    importObjCProtocols Samples.sampleEnv
      (importDecl resettableContext Samples.sampleEnv 3) 0 [0; 0] oneClass
    = Done [1] st' ∧
    importDecl resettableContext Samples.sampleEnv 3 (Some 0) oneClass
    = Done (Some 1) st' ∧
    importDecl resettableContext Samples.sampleEnv 3 (Some 0) st'
    = Done (Some 1) st' ∧
    importedEach (importDecl resettableContext Samples.sampleEnv 3)
                 [0; 0] oneClass imported st' ∧
    [1] = implicitProtocols Samples.sampleEnv 0 oneClass ++ new ∧
    NoDup new ∧
    ∀ p, p ∈ new ↔
         Some p ∈ imported ∧ p ∉ implicitProtocols Samples.sampleEnv 0 oneClass.
Proof.
  assert (∃ st',
            importObjCProtocols Samples.sampleEnv
              (importDecl resettableContext Samples.sampleEnv 3) 0 [0; 0]
              oneClass = Done [1] st' ∧
            importDecl resettableContext Samples.sampleEnv 3 (Some 0) oneClass
            = Done (Some 1) st' ∧
            importDecl resettableContext Samples.sampleEnv 3 (Some 0) st'
            = Done (Some 1) st') as (st' & Hrun & Hfirst & Hsecond)
    by (eexists; split; [|split]; vm_compute; reflexivity).
  exists st'.
  destruct (importObjCProtocols_once _ _ _ _ _ _ _ Hrun)
    as (imported & new & H).
  exists imported, new.
  split; [exact Hrun|]. split; [exact Hfirst|]. split; [exact Hsecond|].
  exact H.
Defined.


(** ** Value constructors *)

(** A member that the constructor initializes: its declaration, its name
    and its type. *)
Definition StoredVar : Type := DeclId * Identifier * Ty.

(** The member [member] if it is a variable that is not computed. *)
Definition storedVar (arena : list Decl) (member : DeclId)
  : option StoredVar :=
  d ← arena !! member;
  if bool_decide (d_kind d = VarDecl) && negb (isComputed d)
  then ty ← d_type d; Some (member, d_name d, ty)
  else None.

Definition storedVars (arena : list Decl) (members : list DeclId)
  : list StoredVar :=
  omap (storedVar arena) members.

(** The members are declarations of the arena, and those that are stored
    variables have a type. *)
Definition constructible (arena : list Decl) (members : list DeclId) : Prop :=
  Forall (λ member,
            ∃ d, arena !! member = Some d ∧
                 (bool_decide (d_kind d = VarDecl) && negb (isComputed d)
                  = true → is_Some (d_type d))) members.

(** The parameters of the constructor, allocated from [start] on: their
    patterns, the elements of the tuple type, the pairs of a member and its
    parameter, and their declarations. *)
Fixpoint paramPatterns (start : DeclId) (vars : list StoredVar)
  : list Pattern :=
  match vars with
  | [] => []
  | (_, _, ty) :: vars =>
      PTyped (PNamed start ty) ty :: paramPatterns (S start) vars
  end.

Definition paramElts (vars : list StoredVar) : list (Ty * Identifier) :=
  (λ '(_, name, ty), (ty, name)) <$> vars.

Fixpoint paramPairs (start : DeclId) (vars : list StoredVar)
  : list (DeclId * DeclId) :=
  match vars with
  | [] => []
  | (member, _, _) :: vars => (member, start) :: paramPairs (S start) vars
  end.

Definition paramDecls (dc : DeclContext) (vars : list StoredVar) : list Decl :=
  (λ '(_, name, ty), set_type (Some ty) (defaultDecl VarDecl name dc)) <$> vars.

(** The declarations [createValueConstructor] adds to an arena of [n]
    declarations: [self], the parameters, and the constructor, which
    assigns each parameter to its member. *)
Definition valueConstructorDecls (n : DeclId) (structDecl : DeclId)
  (vars : list StoredVar) : list Decl :=
  let constructor := n + 1 + length vars in
  let paramTy := TyTuple (paramElts vars) in
  let paramPattern := PTuple (paramPatterns (S n) vars) paramTy in
  let fnTy := TyFunction paramTy (TyNominal structDecl) in
  set_declContext (DCDecl constructor)
    (set_type (Some (TyNominal structDecl))
       (defaultDecl VarDecl "self" (DCDecl structDecl)))
  :: (set_declContext (DCDecl constructor)
        <$> paramDecls (DCDecl structDecl) vars)
  ++ [set_body
        (Some ((λ '(var, param),
                  ExprStmt (AssignExpr (MemberRefExpr (DeclRefExpr n) var)
                                       (DeclRefExpr param)))
               <$> paramPairs (S n) vars))
        (set_initializerType
           (Some (TyFunction (TyNominal structDecl) fnTy))
           (set_type
              (Some (TyFunction (TyMetaType (TyNominal structDecl)) fnTy))
              (set_implicitSelf (Some n)
                 (set_bodyParamPatterns [paramPattern]
                    (set_argParamPatterns [paramPattern]
                       (defaultDecl ConstructorDecl "init"
                                    (DCDecl structDecl)))))))].

Lemma paramDecls_length dc vars : length (paramDecls dc vars) = length vars.
Proof. unfold paramDecls. by rewrite length_fmap. Qed.

Lemma runs_constructor_parameters structDecl A members st Q :
  ∀ extra paramPats tupleElts params,
  arena st = A ++ extra →
  constructible A members →
  Q (paramPats ++ paramPatterns (length A + length extra) (storedVars A members),
     tupleElts ++ paramElts (storedVars A members),
     params ++ paramPairs (length A + length extra) (storedVars A members))
    (set_arena (A ++ extra
                ++ paramDecls (DCDecl structDecl) (storedVars A members)) st) →
  runs
    (foldM (λ '(paramPatterns, tupleElts, params) member,
              let* var := getDecl member in
              if bool_decide (d_kind var = VarDecl) && negb (isComputed var)
              then
                let* varTy := requireType (d_type var) in
                let* param :=
                  newVarDecl (d_name var) varTy (DCDecl structDecl) in
                let pattern := PTyped (PNamed param varTy) varTy in
                ret (paramPatterns ++ [pattern],
                     tupleElts ++ [(varTy, d_name var)],
                     params ++ [(member, param)])
              else ret (paramPatterns, tupleElts, params))
           members (paramPats, tupleElts, params)) st Q.
Proof.
  revert st.
  induction members as [|member members IH];
    intros st extra paramPats tupleElts params Harena Hmembers HQ.
  { cbn in *. rewrite !app_nil_r in HQ. apply runs_ret.
    destruct st. cbn in *. by subst. }
  apply Forall_cons in Hmembers as [(d & Hd & Hty) Hmembers].
  cbn [foldM]. apply runs_bind. apply runs_bind.
  eapply runs_getDecl.
  { rewrite Harena. by apply lookup_app_l_Some. }
  assert (storedVars A (member :: members)
          = match storedVar A member with
            | Some var => var :: storedVars A members
            | None => storedVars A members
            end) as Hcons by done.
  rewrite Hcons in HQ. clear Hcons. unfold storedVar in HQ.
  rewrite Hd in HQ. cbn [mbind option_bind] in HQ.
  destruct (bool_decide (d_kind d = VarDecl) && negb (isComputed d)).
  - destruct (Hty eq_refl) as [ty Hdty]. rewrite Hdty in HQ |- *.
    cbn [mbind option_bind requireType] in HQ |- *.
    apply runs_bind, runs_ret. apply runs_bind. unfold newVarDecl.
    apply runs_allocate, runs_ret.
    apply (IH _ (extra ++ [set_type (Some ty)
                             (defaultDecl VarDecl (d_name d)
                                          (DCDecl structDecl))])).
    + destruct st. cbn in *. by rewrite Harena, app_assoc.
    + done.
    + rewrite !length_app. cbn [length].
      rewrite <- !app_assoc.
      cbn [app paramPatterns paramPairs paramElts paramDecls fmap list_fmap]
        in HQ |- *.
      replace (length A + (length extra + 1))
        with (S (length A + length extra)) by lia.
      destruct st as [A0 I P S0 T E]. cbn [arena set_arena] in *. subst A0.
      rewrite length_app. exact HQ.
  - apply runs_ret. by apply (IH _ extra).
Qed.

Lemma runs_setVarDeclContexts_parameters dc0 dc vars st Q :
  ∀ A B start,
  start = length A →
  arena st = A ++ paramDecls dc0 vars ++ B →
  Q tt (set_arena (A ++ (set_declContext dc <$> paramDecls dc0 vars) ++ B) st) →
  runs (setVarDeclContexts (paramPatterns start vars) dc) st Q.
Proof.
  unfold setVarDeclContexts, forM_. revert st.
  induction vars as [|[[member name] ty] vars IH];
    intros st A B start -> Harena HQ.
  { cbn in *. apply runs_ret. destruct st. cbn in *. by subst. }
  cbn [paramPatterns foldM setVarDeclContext]. apply runs_bind.
  eapply runs_modifyDecl.
  { rewrite Harena. cbn. rewrite lookup_app_r by lia.
    by rewrite Nat.sub_diag. }
  apply (IH _ (A ++ [set_declContext dc
                       (set_type (Some ty) (defaultDecl VarDecl name dc0))]) B).
  - rewrite length_app. cbn. lia.
  - destruct st as [A0 I P S0 T E]. cbn [arena set_arena] in *. subst A0.
    rewrite insert_arena_0. cbn. by rewrite <- app_assoc.
  - rewrite <- app_assoc. destruct st. exact HQ.
Qed.

Lemma lookup_arena_last {X} (A l : list X) x c n :
  n = length A + S (length l) → (A ++ x :: l ++ [c]) !! n = Some c.
Proof.
  intros ->. rewrite lookup_app_r by lia.
  replace (length A + S (length l) - length A) with (S (length l)) by lia.
  change ((l ++ [c]) !! length l = Some c).
  rewrite lookup_app_r by lia. by rewrite Nat.sub_diag.
Qed.

Lemma insert_arena_last {X} (A l : list X) x c y n :
  n = length A + S (length l) →
  <[n := y]> (A ++ x :: l ++ [c]) = A ++ x :: l ++ [y].
Proof.
  intros ->. rewrite insert_app_r. f_equal.
  change (x :: <[length l := y]> (l ++ [c]) = x :: l ++ [y]). f_equal.
  rewrite <- (Nat.add_0_r (length l)). by rewrite insert_app_r.
Qed.

(** X22.  [createValueConstructor] makes, in this order, the variable [self],
    one parameter for each member that is a stored variable, with the name and
    the type of the member, and the constructor; members that are computed
    variables or no variables have no parameter. The constructor takes the
    tuple of the parameters, its body assigns each parameter to its member of
    [self], in the order of the members, [self] and the parameters belong to
    the constructor, and the constructor is registered as an external
    declaration. *)
Theorem createValueConstructor_members structDecl members st :
  constructible (arena st) members →
  createValueConstructor structDecl members st
  = Done (length (arena st) + 1 + length (storedVars (arena st) members))
      (set_ExternalDecls
         (ExternalDecls st
          ++ [length (arena st) + 1 + length (storedVars (arena st) members)])
         (set_arena
            (arena st
             ++ valueConstructorDecls (length (arena st)) structDecl
                  (storedVars (arena st) members)) st)).
Proof.
  intros Hmembers. apply runs_eq. destruct st as [A I P S T E].
  cbn [arena ExternalDecls] in *.
  set (vars := storedVars A members).
  unfold createValueConstructor. apply runs_bind. unfold newVarDecl.
  apply runs_allocate. apply runs_bind.
  apply (runs_constructor_parameters structDecl A members _ _
           [set_type (Some (TyNominal structDecl))
              (defaultDecl VarDecl "self" (DCDecl structDecl))] [] [] []);
    [reflexivity|exact Hmembers|].
  fold vars. cbn [app length arena set_arena]. cbv iota beta.
  replace (length A + 1) with (Datatypes.S (length A)) by lia.
  apply runs_bind, runs_allocate. cbn [arena set_arena].
  rewrite !length_app. cbn [length]. rewrite paramDecls_length.
  apply runs_bind. eapply runs_modifyDecl.
  { cbn. rewrite <- app_assoc, lookup_arena_0. reflexivity. }
  apply runs_bind.
  cbn [arena set_arena]. rewrite <- !app_assoc. rewrite insert_arena_0.
  cbn [app insert list_insert].
  cbv [set_arena].
  cbn [arena ImportedDecls ImportedProtocolDecls Subscripts
       SpecialTypedefNames ExternalDecls].
  apply (runs_setVarDeclContexts_parameters (DCDecl structDecl) _ vars _ _
           (A ++ [set_declContext (DCDecl (length A + Datatypes.S (length vars)))
                    (set_type (Some (TyNominal structDecl))
                       (defaultDecl VarDecl "self" (DCDecl structDecl)))])
           [set_initializerType
              (Some
                 (TyFunction (TyNominal structDecl)
                    (TyFunction (TyTuple (paramElts vars))
                       (TyNominal structDecl))))
              (set_type
                 (Some
                    (TyFunction (TyMetaType (TyNominal structDecl))
                       (TyFunction (TyTuple (paramElts vars))
                          (TyNominal structDecl))))
                 (set_implicitSelf (Some (length A))
                    (set_bodyParamPatterns
                       [PTuple (paramPatterns (Datatypes.S (length A)) vars)
                          (TyTuple (paramElts vars))]
                       (set_argParamPatterns
                          [PTuple
                             (paramPatterns (Datatypes.S (length A)) vars)
                             (TyTuple (paramElts vars))]
                          (defaultDecl ConstructorDecl "init"
                             (DCDecl structDecl))))))]).
  { rewrite length_app. cbn. lia. }
  { cbn. by rewrite <- app_assoc. }
  cbv [set_arena].
  cbn [arena ImportedDecls ImportedProtocolDecls Subscripts
       SpecialTypedefNames ExternalDecls].
  apply runs_bind. eapply runs_modifyDecl.
  { cbn. rewrite <- app_assoc. cbn. apply lookup_arena_last.
    by rewrite length_fmap, paramDecls_length. }
  cbn [arena]. rewrite <- app_assoc. cbn [app].
  rewrite insert_arena_last by by rewrite length_fmap, paramDecls_length.
  unfold addedExternalDecl. apply runs_bind, runs_modifyState, runs_ret.
  split; [lia|]. unfold valueConstructorDecls.
  cbv [set_arena set_ExternalDecls].
  cbn [arena ImportedDecls ImportedProtocolDecls Subscripts
       SpecialTypedefNames ExternalDecls].
  replace (length A + 1 + length vars)
    with (length A + Datatypes.S (length vars)) by lia.
  replace (Datatypes.S (length A) + length vars)
    with (length A + Datatypes.S (length vars)) by lia.
  reflexivity.
Qed.

(** A struct, declaration 0, with a stored variable [x], a computed
    variable [y] and a function [f]: the constructor has the one parameter
    [x]. *)
Definition structWithMembers : ImporterState :=
  set_arena
    [defaultDecl StructDecl "S" (DCModule 0);
     set_type (Some (TyBuiltin 0)) (defaultDecl VarDecl "x" (DCDecl 0));
     addFlag Flag_Computed
       (set_type (Some (TyBuiltin 0)) (defaultDecl VarDecl "y" (DCDecl 0)));
     defaultDecl FuncDecl "f" (DCDecl 0)]
    Samples.initialState.

Lemma createValueConstructor_members_S :
  createValueConstructor 0 [1; 2; 3] structWithMembers
  = Done 6
      (set_ExternalDecls [6]
         (set_arena
            (arena structWithMembers
             ++ valueConstructorDecls 4 0 [(1, "x"%string, TyBuiltin 0)])
            structWithMembers)).
Proof.
  apply (createValueConstructor_members 0 [1; 2; 3] structWithMembers).
  apply Forall_cons_2; [eexists; split; [reflexivity|by eexists]|].
  apply Forall_cons_2; [eexists; split; [reflexivity|discriminate]|].
  apply Forall_cons_2; [eexists; split; [reflexivity|discriminate]|].
  apply Forall_nil_2.
Defined.


(** ** Functions and variables *)

Section Functions.
Context (ctx : ClangASTContext) (env : ImporterEnv).
Context (importDecl' : option ClangDeclId → M (option DeclId)).

(** The declaration made for the function [decl] of type [input -> result]
    with the given patterns. *)
Definition functionDecl (decl : ClangDeclId) (input result : Ty)
  (argPatterns bodyPatterns : list Pattern) : Decl :=
  set_bodyResultType (Some result)
    (set_bodyParamPatterns bodyPatterns
       (set_argParamPatterns argPatterns
          (set_type (Some (TyFunction input result))
             (defaultDecl FuncDecl (importedName ctx env decl)
                          (moduleOf env decl))))).

(** X23.  A C function of the translation unit that has a prototype and is not
    inline is imported from its most recent declaration, once its type is
    translated: the result is a new function with the imported name, the
    translated type and the patterns of the parameters, and every variable
    that these patterns bind has the new function as its declaration context;
    nothing else of the arena changes. *)
Theorem VisitFunctionDecl_parameters decl f latest input result
    argPatterns bodyPatterns st st1 :
  cd_kind (getClangDecl ctx (fn_mostRecentDecl f)) = CK_Function latest →
  fn_hasPrototype latest = true →
  fn_isInlined latest = false →
  cd_alwaysInline (getClangDecl ctx (fn_mostRecentDecl f)) = false →
  isTranslationUnit ctx
    (cd_declContext (getClangDecl ctx (fn_mostRecentDecl f))) = true →
  importFunctionType env importDecl' (fn_resultType latest) (fn_params latest)
    (fn_isVariadic latest) [] [] None false st
  = Done (Some (TyFunction input result), argPatterns, bodyPatterns) st1 →
  Identifier_empty (importedName ctx env (fn_mostRecentDecl f)) = false →
  Forall (λ v, v < length (arena st1))
         (patternsVars argPatterns ++ patternsVars bodyPatterns) →
  ∃ arena',
    VisitFunctionDecl ctx env importDecl' decl f st
    = Done (Some (length (arena st1)), false) (set_arena arena' st1) ∧
    length arena' = S (length (arena st1)) ∧
    arena' !! length (arena st1)
    = Some (functionDecl (fn_mostRecentDecl f) input result
                         argPatterns bodyPatterns) ∧
    ∀ i, i < length (arena st1) →
         arena' !! i
         = if bool_decide (i ∈ patternsVars argPatterns
                               ++ patternsVars bodyPatterns)
           then set_declContext (DCDecl (length (arena st1))) <$> arena st1 !! i
           else arena st1 !! i.
Proof.
  intros Hkind Hproto Hinline Halways Htu Htype Hname Hvars.
  set (n := length (arena st1)).
  set (func := functionDecl (fn_mostRecentDecl f) input result
                            argPatterns bodyPatterns).
  exists (withDeclContext (DCDecl n)
            (patternsVars argPatterns ++ patternsVars bodyPatterns)
            (arena st1 ++ [func])).
  assert (Forall (λ v, v < length (arena st1 ++ [func]))
                 (patternsVars argPatterns ++ patternsVars bodyPatterns))
    as Hvars'.
  { eapply Forall_impl; [exact Hvars|]. intros v Hv. cbv beta in *.
    rewrite length_app. lia. }
  apply Forall_app in Hvars' as [Hargs Hbody].
  split; [|split; [|split]].
  - unfold VisitFunctionDecl. rewrite Hkind, Hproto, Hinline, Halways.
    cbn [negb orb].
    rewrite (bind_run _ _ _ _ _
               (importDeclContextOf_translation_unit ctx env _ _ _ Htu)).
    rewrite (bind_run _ _ _ _ _ Htype). cbn [castToFunctionType].
    rewrite bind_ret. fold (importedName ctx env (fn_mostRecentDecl f)).
    rewrite Hname. unfold newFuncDecl, bind at 1, allocate. fold n.
    fold (functionDecl (fn_mostRecentDecl f) input result argPatterns
                       bodyPatterns). fold func.
    rewrite (bind_run _ _ _ _ _
               (setVarDeclContexts_run (DCDecl n) argPatterns
                  (set_arena (arena st1 ++ [func]) st1) Hargs)).
    erewrite bind_run; cycle 1.
    { apply setVarDeclContexts_run. cbn [arena set_arena].
      by rewrite withDeclContext_length. }
    unfold imported, ret. f_equal. destruct st1. cbn.
    by rewrite withDeclContext_app.
  - rewrite withDeclContext_length, length_app. cbn. lia.
  - rewrite withDeclContext_lookup.
    rewrite bool_decide_eq_false_2.
    + unfold n. by rewrite lookup_arena_0.
    + intros Hin. rewrite Forall_forall in Hvars. apply Hvars in Hin. lia.
  - intros i Hi. rewrite withDeclContext_lookup.
    by rewrite lookup_app_l by done.
Qed.
End Functions.

(** [int add(int a, int b);] *)
Definition addFunction : ClangFunction :=
  mkClangFunction 0 true false (CT_Builtin 0)
    [mkClangParam (Some "a"%string) (CT_Builtin 0);
     mkClangParam (Some "b"%string) (CT_Builtin 0)] false.
Definition addDecls (d : ClangDeclId) : ClangDecl :=
  match d with
  | 0 => Samples.clangDecl (CK_Function addFunction) (Some "add"%string)
           DC_TranslationUnit 0
  | _ => Samples.unused
  end.
Definition addContext := Samples.sampleContext addDecls Samples.noMethods.

(** The patterns and the variables that the translation of the type of
    [add] makes. *)
Definition addTuple : Ty :=
  TyTuple [(TyBuiltin 0, "a"%string); (TyBuiltin 0, "b"%string)].
Definition addPattern (a b : DeclId) : list Pattern :=
  [PTuple [PTyped (PNamed a (TyBuiltin 0)) (TyBuiltin 0);
           PTyped (PNamed b (TyBuiltin 0)) (TyBuiltin 0)] addTuple].
Definition addParameters : ImporterState :=
  set_arena
    [set_type (Some (TyBuiltin 0)) (defaultDecl VarDecl "a" (DCModule 0));
     set_type (Some (TyBuiltin 0)) (defaultDecl VarDecl "b" (DCModule 0));
     set_type (Some (TyBuiltin 0)) (defaultDecl VarDecl "a" (DCModule 0));
     set_type (Some (TyBuiltin 0)) (defaultDecl VarDecl "b" (DCModule 0))]
    Samples.initialState.

(** The function [add] is declaration 4, after the variables of its
    parameters, which belong to it. *)
Lemma VisitFunctionDecl_parameters_add :
  ∃ arena',
    VisitFunctionDecl addContext Samples.sampleEnv (λ _, ret None) 0
      addFunction Samples.initialState
    = Done (Some 4, false) (set_arena arena' Samples.initialState) ∧
    length arena' = 5 ∧
    d_declContext <$> arena' !! 0 = Some (DCDecl 4).
Proof.
  destruct (VisitFunctionDecl_parameters addContext Samples.sampleEnv
              (λ _, ret None) 0 addFunction addFunction addTuple (TyBuiltin 0)
              (addPattern 0 1) (addPattern 2 3) Samples.initialState
              addParameters)
    as (arena' & Hrun & Hlen & _ & Hvars).
  - reflexivity.
  - reflexivity.
  - reflexivity.
  - reflexivity.
  - reflexivity.
  - reflexivity.
  - reflexivity.
  - cbn. repeat (apply Forall_cons_2; [lia|]). apply Forall_nil_2.
  - exists arena'. split; [exact Hrun|]. split; [exact Hlen|].
    rewrite (Hvars 0) by (cbn; lia). reflexivity.
Defined.

Section Variables.
Context (ctx : ClangASTContext) (env : ImporterEnv).

Lemma isRecord_translation_unit dc :
  isTranslationUnit ctx dc = true → isRecord ctx dc = None.
Proof.
  unfold isTranslationUnit, isRecord. destruct dc as [|d]; [done|].
  by destruct (cd_kind (getClangDecl ctx d)).
Qed.

(** The variable made for the global variable [decl] of type [type]. *)
Definition globalVarDecl (decl : ClangDeclId) (type : Ty) : Decl :=
  noted env (getCanonicalDecl ctx decl)
    (set_type (Some type)
       (defaultDecl VarDecl (importedName ctx env decl) (moduleOf env decl))).

(** X24.  A global variable with a name and a builtin type that translates is
    imported as a variable of its module with the imported name and the
    translated type, which refers to its canonical declaration (unless it
    lands in the Swift module itself) and is entered in the cache; it has no
    accessors, and nothing is registered as external. *)
Theorem importDecl_global_variable fuel decl b type st :
  cd_kind (getClangDecl ctx decl) = CK_Var (CT_Builtin b) →
  isTranslationUnit ctx (cd_declContext (getClangDecl ctx decl)) = true →
  Identifier_empty (importedName ctx env decl) = false →
  importBuiltinType env b ITK_Normal = Some type →
  ImportedDecls st !! getCanonicalDecl ctx decl = None →
  importDecl ctx env (S fuel) (Some decl) st
  = Done (Some (length (arena st)))
      (set_ImportedDecls
         (<[getCanonicalDecl ctx decl := Some (length (arena st))]>
            (ImportedDecls st))
         (set_arena (arena st ++ [globalVarDecl decl type]) st)).
Proof.
  intros Hkind Htu Hname Htype Hmiss.
  apply runs_eq. rewrite importDecl_unfold. unfold importDeclWith.
  apply runs_bind, runs_findImportedDecl. rewrite Hmiss.
  apply runs_bind. unfold Visit. rewrite Hkind. unfold VisitVarDecl.
  rewrite (isRecord_translation_unit _ Htu), bool_decide_is_Some_None.
  fold (importedName ctx env decl). rewrite Hname.
  unfold importType. rewrite Htype. apply runs_bind, runs_ret.
  apply runs_bind. eapply runs_Done.
  { by apply importDeclContextOf_translation_unit. }
  destruct st as [A I P S T E].
  unfold globalVarDecl, noted, imported, setImportedDecl. run_steps.
  decl_simpl.
  destruct (bool_decide (Some (moduleOf env decl) = _)).
  - run_steps. split; [done|]. state_eq.
  - run_steps. split; [done|]. state_eq.
Qed.
End Variables.

(** [int counter;] *)
Definition counterDecls (d : ClangDeclId) : ClangDecl :=
  match d with
  | 0 => Samples.clangDecl (CK_Var (CT_Builtin 0)) (Some "counter"%string)
           DC_TranslationUnit 0
  | _ => Samples.unused
  end.
Definition counterContext :=
  Samples.sampleContext counterDecls Samples.noMethods.

Lemma importDecl_global_variable_counter :
  importDecl counterContext Samples.sampleEnv 1 (Some 0) Samples.initialState
  = Done (Some 0)
      (set_ImportedDecls (<[0 := Some 0]> ∅)
         (set_arena
            [set_clangNode (Some 0)
               (set_type (Some (TyBuiltin 0))
                  (defaultDecl VarDecl "counter" (DCModule 0)))]
            Samples.initialState)).
Proof.
  exact (importDecl_global_variable counterContext Samples.sampleEnv 0 0 0
           (TyBuiltin 0) Samples.initialState eq_refl eq_refl eq_refl eq_refl
           eq_refl).
Defined.


(** ** Classes, categories and properties *)

Section Superclass.
Context (ctx : ClangASTContext) (env : ImporterEnv).

(** The state in which the visit of the interface [decl] imports the
    superclass: the class is made and entered in the cache. *)
Definition classStarted (decl : ClangDeclId) (st : ImporterState)
  : ImporterState :=
  let n := length (arena st) in
  set_ImportedDecls (<[getCanonicalDecl ctx decl := Some n]> (ImportedDecls st))
    (set_arena
       (arena st
        ++ [addFlag Flag_CircularityChecked
              (set_clangNode (Some (getCanonicalDecl ctx decl))
                 (set_type (Some (TyMetaType (TyNominal n)))
                    (defaultDecl ClassDecl (importedName ctx env decl)
                                 (moduleOf env decl))))]) st).

(** X25.  A class whose superclass is not imported is not imported either: the
    import returns null, and the entry of the cache that was made for the
    class while its superclass was imported is replaced by null. The class
    declaration stays in the arena. *)
Theorem importDecl_superclass_null fuel decl c objcSuper st st2 :
  cd_kind (getClangDecl ctx decl) = CK_ObjCInterface c →
  objc_definition c = Some decl →
  Identifier_empty (importedName ctx env decl) = false →
  isTranslationUnit ctx (cd_declContext (getClangDecl ctx decl)) = true →
  ImportedDecls st !! getCanonicalDecl ctx decl = None →
  objc_superClass c = Some objcSuper →
  importDecl ctx env fuel (Some objcSuper) (classStarted decl st)
  = Done None st2 →
  importDecl ctx env (S fuel) (Some decl) st
  = Done None (cachedNull ctx decl st2).
Proof.
  intros Hkind Hdef Hname Htu Hmiss Hsuper Himport.
  apply runs_eq. rewrite importDecl_unfold. unfold importDeclWith.
  apply runs_bind, runs_findImportedDecl. rewrite Hmiss.
  apply runs_bind. unfold Visit. rewrite Hkind. unfold VisitObjCInterfaceDecl.
  rewrite Hdef, Hkind. fold (importedName ctx env decl). rewrite Hname, Hsuper.
  apply runs_bind. eapply runs_Done.
  { by apply importDeclContextOf_translation_unit. }
  destruct st as [A I P S T E]. run_steps.
  eapply runs_Done.
  { etrans; [|exact Himport]. f_equal. }
  unfold cast_or_null, declined. run_steps. done.
Qed.
End Superclass.

(** [@class Base; @interface Derived : Base @end]: the superclass is only
    forward-declared. *)
Definition derivedDecls (d : ClangDeclId) : ClangDecl :=
  match d with
  | 0 => Samples.clangDecl
           (CK_ObjCInterface
              (mkClangObjCContainer (Some 0) None (Some 1) [] [] []))
           (Some "Derived"%string) DC_TranslationUnit 0
  | 1 => Samples.clangDecl
           (CK_ObjCInterface (mkClangObjCContainer None None None [] [] []))
           (Some "Base"%string) DC_TranslationUnit 1
  | _ => Samples.unused
  end.
Definition derivedContext :=
  Samples.sampleContext derivedDecls Samples.noMethods.

Lemma importDecl_superclass_null_Derived :
  importDecl derivedContext Samples.sampleEnv 2 (Some 0) Samples.initialState
  = Done None
      (cachedNull derivedContext 0
         (classStarted derivedContext Samples.sampleEnv 0
                       Samples.initialState)).
Proof.
  exact (importDecl_superclass_null derivedContext Samples.sampleEnv 1 0
           (mkClangObjCContainer (Some 0) None (Some 1) [] [] []) 1
           Samples.initialState _ eq_refl eq_refl eq_refl eq_refl eq_refl
           eq_refl eq_refl).
Defined.

Section ObjCProperties.
Context (ctx : ClangASTContext) (env : ImporterEnv).
Context (importDecl' : option ClangDeclId → M (option DeclId)).

(** Whether one of the results of a lookup is a function. *)
Definition findsFunction (arena : list Decl) (lookup : list DeclId) : bool :=
  existsb (λ result,
             match arena !! result with
             | Some d => bool_decide (d_kind d = FuncDecl)
             | None => false
             end) lookup.

Lemma property_scan lookup st : ∀ isFunc overridden,
  Forall (λ result, result < length (arena st)) lookup →
  ∃ overridden',
    foldM (λ '(isFunc, overridden) result,
             if (isFunc : bool) then ret (isFunc, overridden)
             else
               let* d := getDecl result in
               if bool_decide (d_kind d = FuncDecl)
               then ret (true, overridden)
               else if bool_decide (d_kind d = VarDecl)
               then ret (false, Some result)
               else ret (false, overridden))
          lookup (isFunc, overridden) st
    = Done (isFunc || findsFunction (arena st) lookup, overridden') st.
Proof.
  induction lookup as [|result lookup IH]; intros isFunc overridden Hall.
  { exists overridden. cbn. by rewrite orb_false_r. }
  apply Forall_cons in Hall as [Hresult Hall].
  destruct (lookup_lt_is_Some_2 _ _ Hresult) as [d Hd].
  cbn [foldM findsFunction existsb]. rewrite Hd.
  destruct isFunc.
  - rewrite bind_ret. destruct (IH true overridden Hall) as (ov & ->).
    by exists ov.
  - rewrite bind_assoc.
    rewrite (bind_run _ _ _ _ _
               (proj2 (getDecl_Done _ _ _ _) (conj Hd eq_refl))).
    destruct (bool_decide (d_kind d = FuncDecl)).
    + rewrite bind_ret. destruct (IH true overridden Hall) as (ov & ->).
      by exists ov.
    + destruct (bool_decide (d_kind d = VarDecl)); rewrite bind_ret.
      * destruct (IH false (Some result) Hall) as (ov & ->). by exists ov.
      * destruct (IH false overridden Hall) as (ov & ->). by exists ov.
Qed.

(** X26.  A property of a class is suppressed when the class has a function
    with the name of the property: the lookup of the name in the type of the
    context finds a function, the visit returns null, and neither the type of
    the property nor its accessors are imported. *)
Theorem VisitObjCPropertyDecl_suppressed decl p dc containerTy st st1 func d :
  isObjCProtocolDecl ctx (cd_declContext (getClangDecl ctx decl)) = false →
  importDeclContextOf ctx env importDecl' decl st = Done (Some dc) st1 →
  Identifier_empty (importedName ctx env decl) = false →
  getDeclaredTypeOfContext dc st1 = Done containerTy st1 →
  Forall (λ result, result < length (arena st1))
         (lookupQualified env (arena st1) containerTy
                          (importedName ctx env decl)) →
  func ∈ lookupQualified env (arena st1) containerTy
                         (importedName ctx env decl) →
  arena st1 !! func = Some d →
  d_kind d = FuncDecl →
  VisitObjCPropertyDecl ctx env importDecl' decl p st = Done (None, false) st1.
Proof.
  intros Hproto Hdc Hname Hty Hall Hin Hfunc Hkind.
  unfold VisitObjCPropertyDecl. rewrite Hproto.
  rewrite (bind_run _ _ _ _ _ Hdc).
  fold (importedName ctx env decl). rewrite Hname.
  rewrite (bind_run _ _ _ _ _ Hty).
  unfold bind at 1, getState.
  destruct (property_scan _ _ false None Hall) as (overridden & Hscan).
  rewrite (bind_run _ _ _ _ _ Hscan).
  assert (findsFunction (arena st1)
            (lookupQualified env (arena st1) containerTy
                             (importedName ctx env decl)) = true) as ->.
  { apply existsb_exists. exists func. split; [by apply list_elem_of_In|].
    by rewrite Hfunc, Hkind, bool_decide_eq_true_2. }
  reflexivity.
Qed.
End ObjCProperties.

(** An importer whose lookup of the name [size] finds declaration 1, and
    the class [Widget], declaration 0, with a function [size]. *)
Definition sizeEnv : ImporterEnv :=
  {| importName := importName Samples.sampleEnv;
     firstClangModule := 0;
     getSwiftModule := Some 1;
     getNamedModule := λ _, None;
     getNamedSwiftType := λ _ _, None;
     getClangModuleForDecl := λ _, Some 0;
     MappedTypes := Samples.sampleMappedTypes;
     MappedLanguages_ObjC1 := 1;
     MappedLanguages_All := 3;
     importBuiltinType := importBuiltinType Samples.sampleEnv;
     importOtherType := importOtherType Samples.sampleEnv;
     importFunctionType := importFunctionType Samples.sampleEnv;
     lookupQualified := λ _ _ name,
       if String.eqb name "size" then [1] else [];
     UnqualifiedLookup := λ _ _ _, [];
     getImplicitProtocols := λ _ _, [];
     getRedeclContext := λ dc, dc |}.

Definition sizeState : ImporterState :=
  set_ImportedDecls (<[0 := Some 0]> ∅)
    (set_arena [defaultDecl ClassDecl "Widget" (DCModule 0);
                defaultDecl FuncDecl "size" (DCDecl 0)]
               Samples.initialState).

(** The property [size] of the sample interface is suppressed. *)
Lemma VisitObjCPropertyDecl_suppressed_size :
  VisitObjCPropertyDecl Samples.widgetContext sizeEnv
    (importDecl Samples.widgetContext sizeEnv 0) 1
    (mkClangObjCProperty (CT_Builtin 0) (Some 2) None) sizeState
  = Done (None, false) sizeState.
Proof.
  apply (VisitObjCPropertyDecl_suppressed Samples.widgetContext sizeEnv
           (importDecl Samples.widgetContext sizeEnv 0) 1
           (mkClangObjCProperty (CT_Builtin 0) (Some 2) None)
           (DCDecl 0) (Some (TyNominal 0)) sizeState sizeState 1
           (defaultDecl FuncDecl "size" (DCDecl 0))).
  - reflexivity.
  - reflexivity.
  - reflexivity.
  - reflexivity.
  - apply Forall_cons_2; [cbn; lia|apply Forall_nil_2].
  - apply list_elem_of_here.
  - reflexivity.
  - reflexivity.
Defined.

Section ClassLess.
Context (ctx : ClangASTContext) (env : ImporterEnv).
Context (importDecl' : option ClangDeclId → M (option DeclId)).

(** X27.  A category or extension of a class that is not imported is not
    imported either: no extension is made, and null is entered in the cache
    for the category in the state that the import of the class has left. *)
Theorem importDecl_category_class_null fuel decl c st st1 :
  cd_kind (getClangDecl ctx decl) = CK_ObjCCategory c →
  ImportedDecls st !! getCanonicalDecl ctx decl = None →
  importDecl ctx env fuel (objc_classInterface c) st = Done None st1 →
  importDecl ctx env (S fuel) (Some decl) st
  = Done None (cachedNull ctx decl st1).
Proof.
  intros Hkind Hmiss Hclass.
  rewrite importDecl_unfold.
  unfold importDeclWith, findImportedDecl, bind at 1. rewrite Hmiss.
  assert (Visit ctx env (importDecl ctx env fuel)
            (importMirroredDecl ctx env fuel) fuel decl st
          = Done (None, false) st1) as Hvisit.
  { unfold Visit. rewrite Hkind. unfold VisitObjCCategoryDecl.
    rewrite (bind_run _ _ _ _ _ Hclass). reflexivity. }
  rewrite (bind_run _ _ _ _ _ Hvisit). reflexivity.
Qed.

End ClassLess.

(** [@class Base; @interface Base (Extras) @end]: a category of a class
    that is only forward-declared. *)
Definition extrasDecls (d : ClangDeclId) : ClangDecl :=
  match d with
  | 0 => Samples.clangDecl
           (CK_ObjCCategory
              (mkClangObjCContainer None (Some 1) None [] [] []))
           (Some "Extras"%string) DC_TranslationUnit 0
  | 1 => Samples.clangDecl
           (CK_ObjCInterface (mkClangObjCContainer None None None [] [] []))
           (Some "Base"%string) DC_TranslationUnit 1
  | _ => Samples.unused
  end.
Definition extrasContext :=
  Samples.sampleContext extrasDecls Samples.noMethods.

Lemma importDecl_category_class_null_Extras :
  importDecl extrasContext Samples.sampleEnv 2 (Some 0) Samples.initialState
  = Done None (cachedNull extrasContext 0 Samples.initialState).
Proof.
  exact (importDecl_category_class_null extrasContext Samples.sampleEnv 1 0
           (mkClangObjCContainer None (Some 1) None [] [] [])
           Samples.initialState Samples.initialState eq_refl eq_refl eq_refl).
Defined.



(** ** Protocols and categories without members *)

Section EmptyProtocols.
Context (ctx : ClangASTContext) (env : ImporterEnv).

(** The name a protocol is imported under. *)
Definition protocolName (decl : ClangDeclId) : Identifier :=
  importName env (cd_name (getClangDecl ctx decl)) "Proto".

(** The protocol made for [decl] as declaration [n], when [protocols] are
    its implicit protocols, and its associated type [Self]. *)
Definition protocolDecl (decl : ClangDeclId) (n : DeclId)
  (protocols : list DeclId) : Decl :=
  set_members [S n]
    (set_flags [Flag_IsObjC; Attr_ClassProtocol; Attr_ObjC;
                Flag_CheckedInheritanceClause; Flag_CircularityChecked]
       (set_protocols protocols
          (set_clangNode (Some (getCanonicalDecl ctx decl))
             (set_type (Some (TyMetaType (TyNominal n)))
                (defaultDecl ProtocolDecl (protocolName decl)
                             (moduleOf env decl)))))).

Definition protocolSelf (n : DeclId) : Decl :=
  set_type (Some (TyArchetype (S n)))
    (addFlag Flag_Implicit
       (defaultDecl AssociatedTypeDecl "Self" (DCDecl n))).

(** The arena in which the implicit protocols of the new protocol are
    asked for. *)
Definition protocolStarted (decl : ClangDeclId) (st : ImporterState)
  : list Decl :=
  arena st
  ++ [addFlag Flag_CircularityChecked
        (set_clangNode (Some (getCanonicalDecl ctx decl))
           (set_type (Some (TyMetaType (TyNominal (length (arena st)))))
              (defaultDecl ProtocolDecl (protocolName decl)
                           (moduleOf env decl))))].

(** X28.  A defined protocol of the translation unit that declares nothing and
    refines no protocol is imported as a new protocol declaration whose name
    is the name of the protocol with [Proto] appended, marked as an
    Objective-C class protocol, with its implicit protocols and with one
    member, a new implicit associated type [Self] whose type is its own
    archetype; the protocol is entered in the cache and registered as an
    external declaration. *)
Theorem importDecl_protocol_empty fuel decl c st :
  cd_kind (getClangDecl ctx decl) = CK_ObjCProtocol c →
  objc_definition c = Some decl →
  objc_referencedProtocols c = [] →
  objc_decls c = [] →
  Identifier_empty (protocolName decl) = false →
  isTranslationUnit ctx (cd_declContext (getClangDecl ctx decl)) = true →
  ImportedDecls st !! getCanonicalDecl ctx decl = None →
  importDecl ctx env (S fuel) (Some decl) st
  = Done (Some (length (arena st)))
      (set_ImportedDecls
         (<[getCanonicalDecl ctx decl := Some (length (arena st))]>
            (ImportedDecls st))
         (set_ExternalDecls (ExternalDecls st ++ [length (arena st)])
            (set_arena
               (arena st
                ++ [protocolDecl decl (length (arena st))
                      (getImplicitProtocols env (protocolStarted decl st)
                                            (length (arena st)));
                    protocolSelf (length (arena st))]) st))).
Proof.
  intros Hkind Hdef Hprotocols Hdecls Hname Htu Hmiss.
  apply runs_eq. rewrite importDecl_unfold. unfold importDeclWith.
  apply runs_bind, runs_findImportedDecl. rewrite Hmiss.
  apply runs_bind. unfold Visit. rewrite Hkind. unfold VisitObjCProtocolDecl.
  rewrite Hdef, Hkind. fold (protocolName decl).
  rewrite Hname, Hprotocols, Hdecls.
  apply runs_bind. eapply runs_Done.
  { by apply importDeclContextOf_translation_unit. }
  destruct st as [A I P S T E].
  unfold importObjCProtocols, importObjCMembers, imported, protocolStarted.
  run_steps. decl_simpl. cbn [isNominalTypeDecl].
  destruct (bool_decide (Some (moduleOf env decl) = _)).
  - run_steps. split; [done|]. unfold protocolDecl, protocolSelf.
    decl_simpl. state_eq.
  - run_steps. rewrite bool_decide_eq_true_2 by done. run_steps.
    split; [done|]. unfold protocolDecl, protocolSelf. decl_simpl. state_eq.
Qed.
End EmptyProtocols.

(** [@protocol Resettable @end] is imported as [ResettableProto]. *)
Lemma importDecl_protocol_empty_Resettable :
  importDecl resettableContext Samples.sampleEnv 1 (Some 0)
    Samples.initialState
  = Done (Some 0)
      (set_ImportedDecls (<[0 := Some 0]> ∅)
         (set_ExternalDecls [0]
            (set_arena
               [protocolDecl resettableContext Samples.sampleEnv 0 0 [];
                protocolSelf 0] Samples.initialState))) ∧
  d_name (protocolDecl resettableContext Samples.sampleEnv 0 0 [])
  = "ResettableProto"%string.
Proof.
  split; [|reflexivity].
  exact (importDecl_protocol_empty resettableContext Samples.sampleEnv 0 0
           (mkClangObjCContainer (Some 0) None None [] [] [])
           Samples.initialState eq_refl eq_refl eq_refl eq_refl eq_refl
           eq_refl eq_refl).
Defined.

Section EmptyCategories.
Context (ctx : ClangASTContext) (env : ImporterEnv).

(** The extension made for the category [decl] of the class [cls]. *)
Definition extensionDecl (decl : ClangDeclId) (cls : DeclId) : Decl :=
  set_flags [Flag_CheckedInheritanceClause]
    (set_clangNode (Some (getCanonicalDecl ctx decl))
       (set_type (Some (TyNominal cls))
          (defaultDecl ExtensionDecl "" (moduleOf env decl)))).

(** X29.  A category of the translation unit that declares nothing and adopts
    no protocol, on a class that is imported already, is imported as a new
    extension of the type of the class, without a name, members or protocols;
    the extension is added at the end of the extensions of the class and
    entered in the cache, and nothing is registered as external. *)
Theorem importDecl_category_empty fuel decl c interface cls classDecl st :
  cd_kind (getClangDecl ctx decl) = CK_ObjCCategory c →
  objc_classInterface c = Some interface →
  ImportedDecls st !! getCanonicalDecl ctx interface = Some (Some cls) →
  arena st !! cls = Some classDecl →
  d_kind classDecl = ClassDecl →
  objc_referencedProtocols c = [] →
  objc_decls c = [] →
  isTranslationUnit ctx (cd_declContext (getClangDecl ctx decl)) = true →
  ImportedDecls st !! getCanonicalDecl ctx decl = None →
  importDecl ctx env (S fuel) (Some decl) st
  = Done (Some (length (arena st)))
      (set_ImportedDecls
         (<[getCanonicalDecl ctx decl := Some (length (arena st))]>
            (ImportedDecls st))
         (set_arena
            (<[cls := set_extensions
                        (d_extensions classDecl ++ [length (arena st)])
                        classDecl]> (arena st)
             ++ [extensionDecl decl cls]) st)).
Proof.
  intros Hkind Hinterface Hclass Hcls Hclskind Hprotocols Hdecls Htu Hmiss.
  apply runs_eq. rewrite importDecl_unfold. unfold importDeclWith.
  apply runs_bind, runs_findImportedDecl. rewrite Hmiss.
  apply runs_bind. unfold Visit. rewrite Hkind. unfold VisitObjCCategoryDecl.
  rewrite Hinterface, Hprotocols, Hdecls.
  apply runs_bind. eapply runs_Done; [by apply importDecl_hit|].
  apply runs_bind. unfold cast_or_null. apply runs_bind.
  eapply runs_isa; [exact Hcls|].
  rewrite Hclskind, bool_decide_eq_true_2 by done. apply runs_ret.
  apply runs_bind. eapply runs_Done.
  { by apply importDeclContextOf_translation_unit. }
  apply runs_bind, runs_allocate. apply runs_bind.
  eapply runs_modifyDecl.
  { cbn. by apply lookup_app_l_Some. }
  pose proof (lookup_lt_Some _ _ _ Hcls) as Hlt.
  destruct st as [A I P S T E]. cbn [arena set_arena] in *.
  rewrite insert_app_l by done.
  set (A' := <[cls := set_extensions (d_extensions classDecl ++ [length A])
                        classDecl]> A).
  assert (length A = length A') as Hlen by (symmetry; apply length_insert).
  rewrite Hlen.
  unfold importObjCProtocols, importObjCMembers,
    importMirroredProtocolMembers, imported.
  run_steps. decl_simpl. cbn [isNominalTypeDecl foldM]. run_steps.
  decl_simpl.
  destruct (bool_decide (Some (moduleOf env decl) = _)).
  - run_steps. split; [done|]. unfold extensionDecl. decl_simpl. state_eq.
  - run_steps. rewrite bool_decide_eq_true_2 by done. run_steps.
    split; [done|]. unfold extensionDecl. decl_simpl. state_eq.
Qed.
End EmptyCategories.

(** [@interface Base @end; @interface Base (Extras) @end], after the import
    of the class. *)
Definition baseDecls (d : ClangDeclId) : ClangDecl :=
  match d with
  | 0 => Samples.clangDecl
           (CK_ObjCCategory
              (mkClangObjCContainer None (Some 1) None [] [] []))
           (Some "Extras"%string) DC_TranslationUnit 0
  | 1 => Samples.clangDecl
           (CK_ObjCInterface
              (mkClangObjCContainer (Some 1) None None [] [] []))
           (Some "Base"%string) DC_TranslationUnit 1
  | _ => Samples.unused
  end.
Definition baseContext := Samples.sampleContext baseDecls Samples.noMethods.
Definition baseState : ImporterState :=
  set_ImportedDecls (<[1 := Some 0]> ∅)
    (set_arena [defaultDecl ClassDecl "Base" (DCModule 0)]
               Samples.initialState).

Lemma importDecl_category_empty_Extras :
  importDecl baseContext Samples.sampleEnv 1 (Some 0) baseState
  = Done (Some 1)
      (set_ImportedDecls (<[0 := Some 1]> (<[1 := Some 0]> ∅))
         (set_arena
            [set_extensions [1] (defaultDecl ClassDecl "Base" (DCModule 0));
             extensionDecl baseContext Samples.sampleEnv 0 0]
            Samples.initialState)).
Proof.
  exact (importDecl_category_empty baseContext Samples.sampleEnv 0 0
           (mkClangObjCContainer None (Some 1) None [] [] []) 1 0
           (defaultDecl ClassDecl "Base" (DCModule 0)) baseState
           eq_refl eq_refl eq_refl eq_refl eq_refl eq_refl eq_refl eq_refl
           eq_refl).
Defined.
